(** * Portfolio-of-Evidence tracker: the in-memory store and the workflow routes

    A shallow embedding of [server/storage.ts] (class [MemStorage], with
    its reports and the data it is seeded with), [server/routes.ts] (the
    Express handlers, the upload configuration) and the insert schemas of
    [shared/schema.ts], followed by the properties of the submission /
    assessment / verification workflow, of the reading routes and of the
    store along its histories.

    Conventions.
    - A JavaScript [Map<number, V>] is an association list in insertion
      order: [Array.from(map.values())] enumerates in that order and
      [map.set] on a present key replaces the value in place.
    - A [Date] is its [getTime()] reading, an integer number of
      milliseconds; the numbers the report divides are IEEE doubles
      ([PrimFloat]), as JavaScript numbers are.
    - An [async] method is a computation over the store and a clock; a
      thrown [Error] keeps the writes made before it. *)

From Stdlib Require Import ZArith List String DecimalString Bool Lia.
From Stdlib Require Import Permutation Sorted.
From Stdlib Require Import Floats.PrimFloat Numbers.Cyclic.Int63.Uint63.
Import ListNotations.
Local Open Scope string_scope.
Local Open Scope list_scope.
Local Open Scope Z_scope.

(** ** JavaScript [Map] keyed by numbers *)

Module JsMap.

Definition t (V : Type) : Type := list (Z * V).

Definition empty {V : Type} : t V := [].

Fixpoint get {V : Type} (k : Z) (m : t V) : option V :=
  match m with
  | [] => None
  | (k', v) :: m' => if k' =? k then Some v else get k m'
  end.

Fixpoint set {V : Type} (k : Z) (v : V) (m : t V) : t V :=
  match m with
  | [] => [(k, v)]
  | (k', v') :: m' => if k' =? k then (k, v) :: m' else (k', v') :: set k v m'
  end.

Definition values {V : Type} (m : t V) : list V := map snd m.

Definition keys {V : Type} (m : t V) : list Z := map fst m.

(** Every key was handed out by a counter that now stands at [next]. *)
Definition below {V : Type} (next : Z) (m : t V) : Prop :=
  Forall (fun k => k < next) (keys m).

End JsMap.

(** ** JSON values

    Request bodies, and the [jsonb] columns ([criteria], [details]). Numbers
    are the integers: every numeric column of the schema is an integer
    column. *)

#[local] Unset Elimination Schemes.
Inductive json : Type :=
| JNull
| JBool (b : bool)
| JNum (n : Z)
| JStr (s : string)
| JArr (l : list json)
| JObj (o : list (string * json)).
#[local] Set Elimination Schemes.

(** [o[k]]; [None] is [undefined]. *)
Fixpoint field (k : string) (o : list (string * json)) : option json :=
  match o with
  | [] => None
  | (k', v) :: o' => if String.eqb k' k then Some v else field k o'
  end.

(** The own enumerable properties a spread [{...v}] copies. *)
Definition spread (v : json) : list (string * json) :=
  match v with
  | JObj o => o
  | _ => []
  end.

(** ** Entities ([shared/schema.ts], [$inferSelect]) and insert payloads *)

Module User.
Record t : Type := mk {
  id : Z; username : string; password : string; fullName : string;
  email : string; role : string; departmentId : option Z;
  courseId : option Z; classIntakeId : option Z; createdAt : Z;
  isActive : bool }.
End User.

Module InsertUser.
Record t : Type := mk {
  username : string; password : string; fullName : string; email : string;
  role : string; departmentId : option Z; courseId : option Z;
  classIntakeId : option Z; isActive : option bool }.
End InsertUser.

Module Department.
Record t : Type := mk { id : Z; name : string; code : string; description : option string }.
End Department.

Module InsertDepartment.
Record t : Type := mk { name : string; code : string; description : option string }.
End InsertDepartment.

Module StudyLevel.
Record t : Type := mk { id : Z; name : string; description : option string; order : Z }.
End StudyLevel.

Module InsertStudyLevel.
Record t : Type := mk { name : string; description : option string; order : Z }.
End InsertStudyLevel.

Module Course.
Record t : Type := mk {
  id : Z; name : string; code : string; departmentId : Z; studyLevelId : Z;
  description : option string }.
End Course.

Module InsertCourse.
Record t : Type := mk {
  name : string; code : string; departmentId : Z; studyLevelId : Z;
  description : option string }.
End InsertCourse.

Module ClassIntake.
Record t : Type := mk { id : Z; name : string; courseId : Z; startDate : string; endDate : string }.
End ClassIntake.

Module InsertClassIntake.
Record t : Type := mk { name : string; courseId : Z; startDate : string; endDate : string }.
End InsertClassIntake.

(** [Module] of the source; its table is not declared in [shared/schema.ts],
    the fields are the ones [createModule] and [seedInitialData] use. *)
Module CourseModule.
Record t : Type := mk {
  id : Z; name : string; code : string; description : option string;
  courseId : Z; credits : Z }.
End CourseModule.

Module InsertCourseModule.
Record t : Type := mk {
  name : string; code : string; description : option string; courseId : Z;
  credits : option Z }.
End InsertCourseModule.

Module Unit.
Record t : Type := mk {
  id : Z; name : string; code : string; courseId : option Z;
  description : option string; credits : option Z; moduleId : option Z }.
End Unit.

Module InsertUnit.
Record t : Type := mk {
  name : string; code : string; courseId : option Z;
  description : option string; credits : option Z; moduleId : option Z }.
End InsertUnit.

Module Task.
Record t : Type := mk {
  id : Z; unitId : Z; name : string; description : option string; criteria : json }.
End Task.

Module InsertTask.
Record t : Type := mk {
  unitId : Z; name : string; description : option string; criteria : option json }.
End InsertTask.

(** [traineeId] is read by the handlers ([a.traineeId]) although the
    assignments table of [shared/schema.ts] declares no such column: it is
    whatever number the stored object carries under that key, [None] when it
    carries none. *)
Module Assignment.
Record t : Type := mk {
  id : Z; classIntakeId : Z; assessorId : Z; unitId : Z; createdAt : Z;
  traineeId : option Z }.
End Assignment.

Module InsertAssignment.
Record t : Type := mk {
  classIntakeId : Z; assessorId : Z; unitId : Z; traineeId : option Z }.
End InsertAssignment.

Module Submission.
Record t : Type := mk {
  id : Z; traineeId : Z; taskId : Z; unitId : Z; title : string;
  description : option string; submissionDate : Z; status : string }.
End Submission.

Module InsertSubmission.
Record t : Type := mk {
  traineeId : Z; taskId : Z; unitId : Z; title : string;
  description : option string; status : option string }.
End InsertSubmission.

Module SubmissionFile.
Record t : Type := mk {
  id : Z; submissionId : Z; fileName : string; fileType : string;
  filePath : string; fileSize : Z; uploadDate : Z }.
End SubmissionFile.

Module InsertSubmissionFile.
Record t : Type := mk {
  submissionId : Z; fileName : string; fileType : string; filePath : string;
  fileSize : Z; uploadDate : Z }.
End InsertSubmissionFile.

Module Assessment.
Record t : Type := mk {
  id : Z; submissionId : Z; assessorId : Z; feedback : option string;
  criteria : json; status : string; assessmentDate : Z }.
End Assessment.

Module InsertAssessment.
Record t : Type := mk {
  submissionId : Z; assessorId : Z; feedback : option string;
  criteria : option json; status : string }.
End InsertAssessment.

Module Verification.
Record t : Type := mk {
  id : Z; assessmentId : Z; verifierId : Z; verifierType : string;
  status : string; comments : option string; verificationDate : Z }.
End Verification.

Module InsertVerification.
Record t : Type := mk {
  assessmentId : Z; verifierId : Z; verifierType : string; status : string;
  comments : option string }.
End InsertVerification.

Module Notification.
Record t : Type := mk {
  id : Z; userId : Z; title : string; message : string; isRead : bool;
  createdAt : Z; type : string; linkedItemId : option Z }.
End Notification.

Module InsertNotification.
Record t : Type := mk {
  userId : Z; title : string; message : string; isRead : bool;
  type : string; linkedItemId : option Z }.
End InsertNotification.

Module ActivityLog.
Record t : Type := mk {
  id : Z; userId : Z; action : string; details : json; timestamp : Z;
  ipAddress : option string }.
End ActivityLog.

Module InsertActivityLog.
Record t : Type := mk {
  userId : Z; action : string; details : option json; timestamp : Z;
  ipAddress : option string }.
End InsertActivityLog.

(** ** The store ([class MemStorage])

    Each collection is a [Map] together with its identifier counter
    ([usersMap] / [userIdCounter], ...). *)

Record Table (V : Type) : Type := mkTable { rows : JsMap.t V; counter : Z }.
Arguments mkTable {V} _ _.
Arguments rows {V} _.
Arguments counter {V} _.

Record MemStorage : Type := mkMemStorage {
  users : Table User.t;
  departments : Table Department.t;
  studyLevels : Table StudyLevel.t;
  courses : Table Course.t;
  classIntakes : Table ClassIntake.t;
  modules : Table CourseModule.t;
  units : Table Unit.t;
  tasks : Table Task.t;
  assignments : Table Assignment.t;
  submissions : Table Submission.t;
  submissionFiles : Table SubmissionFile.t;
  assessments : Table Assessment.t;
  verifications : Table Verification.t;
  notifications : Table Notification.t;
  activityLogs : Table ActivityLog.t }.

(** The constructor, before [seedInitialData] runs: empty maps, counters at 1. *)
Definition new_Table {V : Type} : Table V := mkTable JsMap.empty 1.

Definition new_MemStorage : MemStorage :=
  mkMemStorage new_Table new_Table new_Table new_Table new_Table new_Table
    new_Table new_Table new_Table new_Table new_Table new_Table new_Table
    new_Table new_Table.

Definition usersMap (st : MemStorage) := rows (users st).
Definition userIdCounter (st : MemStorage) := counter (users st).

Definition departmentsMap (st : MemStorage) := rows (departments st).
Definition departmentIdCounter (st : MemStorage) := counter (departments st).

Definition studyLevelsMap (st : MemStorage) := rows (studyLevels st).
Definition studyLevelIdCounter (st : MemStorage) := counter (studyLevels st).

Definition coursesMap (st : MemStorage) := rows (courses st).
Definition courseIdCounter (st : MemStorage) := counter (courses st).

Definition classIntakesMap (st : MemStorage) := rows (classIntakes st).
Definition classIntakeIdCounter (st : MemStorage) := counter (classIntakes st).

Definition modulesMap (st : MemStorage) := rows (modules st).
Definition moduleIdCounter (st : MemStorage) := counter (modules st).

Definition unitsMap (st : MemStorage) := rows (units st).
Definition unitIdCounter (st : MemStorage) := counter (units st).

Definition tasksMap (st : MemStorage) := rows (tasks st).
Definition taskIdCounter (st : MemStorage) := counter (tasks st).

Definition assignmentsMap (st : MemStorage) := rows (assignments st).
Definition assignmentIdCounter (st : MemStorage) := counter (assignments st).

Definition submissionsMap (st : MemStorage) := rows (submissions st).
Definition submissionIdCounter (st : MemStorage) := counter (submissions st).

Definition submissionFilesMap (st : MemStorage) := rows (submissionFiles st).
Definition submissionFileIdCounter (st : MemStorage) := counter (submissionFiles st).

Definition assessmentsMap (st : MemStorage) := rows (assessments st).
Definition assessmentIdCounter (st : MemStorage) := counter (assessments st).

Definition verificationsMap (st : MemStorage) := rows (verifications st).
Definition verificationIdCounter (st : MemStorage) := counter (verifications st).

Definition notificationsMap (st : MemStorage) := rows (notifications st).
Definition notificationIdCounter (st : MemStorage) := counter (notifications st).

Definition activityLogsMap (st : MemStorage) := rows (activityLogs st).
Definition activityLogIdCounter (st : MemStorage) := counter (activityLogs st).

(** Field updates. *)

Definition with_users (f : Table User.t -> Table User.t) (st : MemStorage) : MemStorage :=
  let 'mkMemStorage us ds sls cs cis ms uns ts asg sbs sfs ass vs ns als := st in
  mkMemStorage (f us) ds sls cs cis ms uns ts asg sbs sfs ass vs ns als.

Definition with_departments (f : Table Department.t -> Table Department.t) (st : MemStorage) : MemStorage :=
  let 'mkMemStorage us ds sls cs cis ms uns ts asg sbs sfs ass vs ns als := st in
  mkMemStorage us (f ds) sls cs cis ms uns ts asg sbs sfs ass vs ns als.

Definition with_studyLevels (f : Table StudyLevel.t -> Table StudyLevel.t) (st : MemStorage) : MemStorage :=
  let 'mkMemStorage us ds sls cs cis ms uns ts asg sbs sfs ass vs ns als := st in
  mkMemStorage us ds (f sls) cs cis ms uns ts asg sbs sfs ass vs ns als.

Definition with_courses (f : Table Course.t -> Table Course.t) (st : MemStorage) : MemStorage :=
  let 'mkMemStorage us ds sls cs cis ms uns ts asg sbs sfs ass vs ns als := st in
  mkMemStorage us ds sls (f cs) cis ms uns ts asg sbs sfs ass vs ns als.

Definition with_classIntakes (f : Table ClassIntake.t -> Table ClassIntake.t) (st : MemStorage) : MemStorage :=
  let 'mkMemStorage us ds sls cs cis ms uns ts asg sbs sfs ass vs ns als := st in
  mkMemStorage us ds sls cs (f cis) ms uns ts asg sbs sfs ass vs ns als.

Definition with_modules (f : Table CourseModule.t -> Table CourseModule.t) (st : MemStorage) : MemStorage :=
  let 'mkMemStorage us ds sls cs cis ms uns ts asg sbs sfs ass vs ns als := st in
  mkMemStorage us ds sls cs cis (f ms) uns ts asg sbs sfs ass vs ns als.

Definition with_units (f : Table Unit.t -> Table Unit.t) (st : MemStorage) : MemStorage :=
  let 'mkMemStorage us ds sls cs cis ms uns ts asg sbs sfs ass vs ns als := st in
  mkMemStorage us ds sls cs cis ms (f uns) ts asg sbs sfs ass vs ns als.

Definition with_tasks (f : Table Task.t -> Table Task.t) (st : MemStorage) : MemStorage :=
  let 'mkMemStorage us ds sls cs cis ms uns ts asg sbs sfs ass vs ns als := st in
  mkMemStorage us ds sls cs cis ms uns (f ts) asg sbs sfs ass vs ns als.

Definition with_assignments (f : Table Assignment.t -> Table Assignment.t) (st : MemStorage) : MemStorage :=
  let 'mkMemStorage us ds sls cs cis ms uns ts asg sbs sfs ass vs ns als := st in
  mkMemStorage us ds sls cs cis ms uns ts (f asg) sbs sfs ass vs ns als.

Definition with_submissions (f : Table Submission.t -> Table Submission.t) (st : MemStorage) : MemStorage :=
  let 'mkMemStorage us ds sls cs cis ms uns ts asg sbs sfs ass vs ns als := st in
  mkMemStorage us ds sls cs cis ms uns ts asg (f sbs) sfs ass vs ns als.

Definition with_submissionFiles (f : Table SubmissionFile.t -> Table SubmissionFile.t) (st : MemStorage) : MemStorage :=
  let 'mkMemStorage us ds sls cs cis ms uns ts asg sbs sfs ass vs ns als := st in
  mkMemStorage us ds sls cs cis ms uns ts asg sbs (f sfs) ass vs ns als.

Definition with_assessments (f : Table Assessment.t -> Table Assessment.t) (st : MemStorage) : MemStorage :=
  let 'mkMemStorage us ds sls cs cis ms uns ts asg sbs sfs ass vs ns als := st in
  mkMemStorage us ds sls cs cis ms uns ts asg sbs sfs (f ass) vs ns als.

Definition with_verifications (f : Table Verification.t -> Table Verification.t) (st : MemStorage) : MemStorage :=
  let 'mkMemStorage us ds sls cs cis ms uns ts asg sbs sfs ass vs ns als := st in
  mkMemStorage us ds sls cs cis ms uns ts asg sbs sfs ass (f vs) ns als.

Definition with_notifications (f : Table Notification.t -> Table Notification.t) (st : MemStorage) : MemStorage :=
  let 'mkMemStorage us ds sls cs cis ms uns ts asg sbs sfs ass vs ns als := st in
  mkMemStorage us ds sls cs cis ms uns ts asg sbs sfs ass vs (f ns) als.

Definition with_activityLogs (f : Table ActivityLog.t -> Table ActivityLog.t) (st : MemStorage) : MemStorage :=
  let 'mkMemStorage us ds sls cs cis ms uns ts asg sbs sfs ass vs ns als := st in
  mkMemStorage us ds sls cs cis ms uns ts asg sbs sfs ass vs ns (f als).

(** A collection of the store: how to read its table and how to update it. *)
Record Coll (V : Type) : Type := mkColl {
  tbl : MemStorage -> Table V;
  upd : (Table V -> Table V) -> MemStorage -> MemStorage }.
Arguments mkColl {V} _ _.
Arguments tbl {V} _ _.
Arguments upd {V} _ _ _.

Definition Users : Coll User.t := mkColl users with_users.

Definition Departments : Coll Department.t := mkColl departments with_departments.

Definition StudyLevels : Coll StudyLevel.t := mkColl studyLevels with_studyLevels.

Definition Courses : Coll Course.t := mkColl courses with_courses.

Definition ClassIntakes : Coll ClassIntake.t := mkColl classIntakes with_classIntakes.

Definition Modules : Coll CourseModule.t := mkColl modules with_modules.

Definition Units : Coll Unit.t := mkColl units with_units.

Definition Tasks : Coll Task.t := mkColl tasks with_tasks.

Definition Assignments : Coll Assignment.t := mkColl assignments with_assignments.

Definition Submissions : Coll Submission.t := mkColl submissions with_submissions.

Definition SubmissionFiles : Coll SubmissionFile.t := mkColl submissionFiles with_submissionFiles.

Definition Assessments : Coll Assessment.t := mkColl assessments with_assessments.

Definition Verifications : Coll Verification.t := mkColl verifications with_verifications.

Definition Notifications : Coll Notification.t := mkColl notifications with_notifications.

Definition ActivityLogs : Coll ActivityLog.t := mkColl activityLogs with_activityLogs.

(** ** Asynchronous methods

    A method runs against the store and a clock. The clock of a request is
    a sequence of readings: the [n]-th [new Date()] evaluated while the
    request is served reads [clock n]. A rejected promise (a thrown
    [Error]) carries the store as the writes before it left it. *)

Definition Clock : Type := nat -> Z.

Inductive Settled (A : Type) : Type :=
| Fulfilled (a : A)
| Rejected (reason : string).
Arguments Fulfilled {A} _.
Arguments Rejected {A} _.

Definition Promise (A : Type) : Type :=
  Clock -> MemStorage * nat -> Settled A * (MemStorage * nat).

Definition ret {A : Type} (a : A) : Promise A :=
  fun _ w => (Fulfilled a, w).

Definition bind {A B : Type} (m : Promise A) (k : A -> Promise B) : Promise B :=
  fun clock w =>
    match m clock w with
    | (Fulfilled a, w') => k a clock w'
    | (Rejected e, w') => (Rejected e, w')
    end.

Definition throw {A : Type} (e : string) : Promise A :=
  fun _ w => (Rejected e, w).

Definition try_catch {A : Type} (m : Promise A) (handler : string -> Promise A) : Promise A :=
  fun clock w =>
    match m clock w with
    | (Fulfilled a, w') => (Fulfilled a, w')
    | (Rejected e, w') => handler e clock w'
    end.

Notation "x <- m ;; k" := (bind m (fun x => k))
  (at level 61, m at next level, right associativity).
Notation "m ;; k" := (bind m (fun _ => k))
  (at level 61, right associativity).

(** [new Date()] *)
Definition new_Date : Promise Z :=
  fun clock w => (Fulfilled (clock (snd w)), (fst w, S (snd w))).

(** A method that only reads the store. *)
Definition read {A : Type} (f : MemStorage -> A) : Promise A :=
  fun _ w => (Fulfilled (f (fst w)), w).

(** [this.xIdCounter++] *)
Definition fresh_id {V : Type} (c : Coll V) : Promise Z :=
  fun _ w =>
    (Fulfilled (counter (tbl c (fst w))),
     (upd c (fun t => mkTable (rows t) (counter t + 1)) (fst w), snd w)).

(** [this.xMap.set(k, v)] *)
Definition map_set {V : Type} (c : Coll V) (k : Z) (v : V) : Promise unit :=
  fun _ w =>
    (Fulfilled tt,
     (upd c (fun t => mkTable (JsMap.set k v (rows t)) (counter t)) (fst w), snd w)).

(** [for (const x of l) { await body(x) }] *)
Fixpoint for_of {A : Type} (l : list A) (body : A -> Promise unit) : Promise unit :=
  match l with
  | [] => ret tt
  | x :: l' => body x ;; for_of l' body
  end.

(** A number inside a template literal, and string concatenation. *)
Definition show_Z (z : Z) : string := NilZero.string_of_int (Z.to_int z).

Local Infix "+++" := String.append (at level 60, right associativity).

(** [a ?? b] *)
Definition nullish {A : Type} (a : option A) (b : A) : A :=
  match a with
  | Some x => x
  | None => b
  end.

(** ** [MemStorage]: the methods *)

(** *** Users *)

Definition getUser (id : Z) (st : MemStorage) : option User.t :=
  JsMap.get id (usersMap st).

Definition getUserByUsername (username : string) (st : MemStorage) : option User.t :=
  find (fun user => String.eqb (User.username user) username) (JsMap.values (usersMap st)).

Definition createUser (insertUser : InsertUser.t) : Promise User.t :=
  id <- fresh_id Users ;;
  createdAt <- new_Date ;;
  let user :=
    {| User.id := id;
       User.username := InsertUser.username insertUser;
       User.password := InsertUser.password insertUser;
       User.fullName := InsertUser.fullName insertUser;
       User.email := InsertUser.email insertUser;
       User.role := InsertUser.role insertUser;
       User.createdAt := createdAt;
       User.departmentId := InsertUser.departmentId insertUser;
       User.courseId := InsertUser.courseId insertUser;
       User.classIntakeId := InsertUser.classIntakeId insertUser;
       User.isActive := nullish (InsertUser.isActive insertUser) true |} in
  map_set Users id user ;;
  ret user.

(** [userData : Partial<User>] is given by the overlay [{...user, ...userData}]
    it performs on the stored record. *)
Definition updateUser (id : Z) (userData : User.t -> User.t) : Promise User.t :=
  user <- read (getUser id) ;;
  match user with
  | None => throw ("User with id " +++ show_Z id +++ " not found")
  | Some user =>
      let updatedUser := userData user in
      map_set Users id updatedUser ;;
      ret updatedUser
  end.

Definition getAllUsers (st : MemStorage) : list User.t :=
  JsMap.values (usersMap st).

Definition getUsersByRole (role : string) (st : MemStorage) : list User.t :=
  filter (fun user => String.eqb (User.role user) role) (JsMap.values (usersMap st)).

(** *** Departments, study levels, courses, class intakes, modules *)

Definition createDepartment (insertDepartment : InsertDepartment.t) : Promise Department.t :=
  id <- fresh_id Departments ;;
  let department :=
    {| Department.id := id;
       Department.name := InsertDepartment.name insertDepartment;
       Department.code := InsertDepartment.code insertDepartment;
       Department.description := InsertDepartment.description insertDepartment |} in
  map_set Departments id department ;;
  ret department.

Definition getDepartment (id : Z) (st : MemStorage) : option Department.t :=
  JsMap.get id (departmentsMap st).

Definition getAllDepartments (st : MemStorage) : list Department.t :=
  JsMap.values (departmentsMap st).

Definition createStudyLevel (insertStudyLevel : InsertStudyLevel.t) : Promise StudyLevel.t :=
  id <- fresh_id StudyLevels ;;
  let studyLevel :=
    {| StudyLevel.id := id;
       StudyLevel.name := InsertStudyLevel.name insertStudyLevel;
       StudyLevel.description := InsertStudyLevel.description insertStudyLevel;
       StudyLevel.order := InsertStudyLevel.order insertStudyLevel |} in
  map_set StudyLevels id studyLevel ;;
  ret studyLevel.

Definition createCourse (insertCourse : InsertCourse.t) : Promise Course.t :=
  id <- fresh_id Courses ;;
  let course :=
    {| Course.id := id;
       Course.name := InsertCourse.name insertCourse;
       Course.code := InsertCourse.code insertCourse;
       Course.departmentId := InsertCourse.departmentId insertCourse;
       Course.studyLevelId := InsertCourse.studyLevelId insertCourse;
       Course.description := InsertCourse.description insertCourse |} in
  map_set Courses id course ;;
  ret course.

Definition getCourse (id : Z) (st : MemStorage) : option Course.t :=
  JsMap.get id (coursesMap st).

Definition getAllCourses (st : MemStorage) : list Course.t :=
  JsMap.values (coursesMap st).

Definition getCoursesByDepartment (departmentId : Z) (st : MemStorage) : list Course.t :=
  filter (fun course => Course.departmentId course =? departmentId)
    (JsMap.values (coursesMap st)).

Definition getCoursesByStudyLevel (studyLevelId : Z) (st : MemStorage) : list Course.t :=
  filter (fun course => Course.studyLevelId course =? studyLevelId)
    (JsMap.values (coursesMap st)).

Definition createClassIntake (insertClassIntake : InsertClassIntake.t) : Promise ClassIntake.t :=
  id <- fresh_id ClassIntakes ;;
  let classIntake :=
    {| ClassIntake.id := id;
       ClassIntake.name := InsertClassIntake.name insertClassIntake;
       ClassIntake.courseId := InsertClassIntake.courseId insertClassIntake;
       ClassIntake.startDate := InsertClassIntake.startDate insertClassIntake;
       ClassIntake.endDate := InsertClassIntake.endDate insertClassIntake |} in
  map_set ClassIntakes id classIntake ;;
  ret classIntake.

Definition getClassIntakesByCourse (courseId : Z) (st : MemStorage) : list ClassIntake.t :=
  filter (fun classIntake => ClassIntake.courseId classIntake =? courseId)
    (JsMap.values (classIntakesMap st)).

Definition createModule (insertModule : InsertCourseModule.t) : Promise CourseModule.t :=
  id <- fresh_id Modules ;;
  let module :=
    {| CourseModule.id := id;
       CourseModule.name := InsertCourseModule.name insertModule;
       CourseModule.code := InsertCourseModule.code insertModule;
       CourseModule.courseId := InsertCourseModule.courseId insertModule;
       CourseModule.description := InsertCourseModule.description insertModule;
       CourseModule.credits := nullish (InsertCourseModule.credits insertModule) 0 |} in
  map_set Modules id module ;;
  ret module.

Definition getModulesByCourse (courseId : Z) (st : MemStorage) : list CourseModule.t :=
  filter (fun module => CourseModule.courseId module =? courseId)
    (JsMap.values (modulesMap st)).

(** *** Units, tasks, assignments *)

Definition createUnit (insertUnit : InsertUnit.t) : Promise Unit.t :=
  id <- fresh_id Units ;;
  let unit :=
    {| Unit.id := id;
       Unit.name := InsertUnit.name insertUnit;
       Unit.code := InsertUnit.code insertUnit;
       Unit.courseId := InsertUnit.courseId insertUnit;
       Unit.credits := InsertUnit.credits insertUnit;
       Unit.description := InsertUnit.description insertUnit;
       Unit.moduleId := InsertUnit.moduleId insertUnit |} in
  map_set Units id unit ;;
  ret unit.

Definition getUnit (id : Z) (st : MemStorage) : option Unit.t :=
  JsMap.get id (unitsMap st).

Definition getAllUnits (st : MemStorage) : list Unit.t :=
  JsMap.values (unitsMap st).

Definition createTask (insertTask : InsertTask.t) : Promise Task.t :=
  id <- fresh_id Tasks ;;
  let task :=
    {| Task.id := id;
       Task.unitId := InsertTask.unitId insertTask;
       Task.name := InsertTask.name insertTask;
       Task.description := InsertTask.description insertTask;
       Task.criteria := nullish (InsertTask.criteria insertTask) (JObj []) |} in
  map_set Tasks id task ;;
  ret task.


Definition getTasksByUnit (unitId : Z) (st : MemStorage) : list Task.t :=
  filter (fun task => Task.unitId task =? unitId) (JsMap.values (tasksMap st)).

Definition createAssignment (insertAssignment : InsertAssignment.t) : Promise Assignment.t :=
  id <- fresh_id Assignments ;;
  createdAt <- new_Date ;;
  let assignment :=
    {| Assignment.id := id;
       Assignment.classIntakeId := InsertAssignment.classIntakeId insertAssignment;
       Assignment.assessorId := InsertAssignment.assessorId insertAssignment;
       Assignment.unitId := InsertAssignment.unitId insertAssignment;
       Assignment.traineeId := InsertAssignment.traineeId insertAssignment;
       Assignment.createdAt := createdAt |} in
  map_set Assignments id assignment ;;
  ret assignment.

Definition getAllAssignments (st : MemStorage) : list Assignment.t :=
  JsMap.values (assignmentsMap st).

(** [x === n] for a property [x] that may be missing and a number [n]. *)
Definition strict_eq (x : option Z) (n : Z) : bool :=
  match x with
  | Some m => m =? n
  | None => false
  end.

Definition getAssignmentsByTrainee (traineeId : Z) (st : MemStorage) : list Assignment.t :=
  filter (fun assignment => strict_eq (Assignment.traineeId assignment) traineeId)
    (JsMap.values (assignmentsMap st)).

Definition getAssignmentsByAssessor (assessorId : Z) (st : MemStorage) : list Assignment.t :=
  filter (fun assignment => Assignment.assessorId assignment =? assessorId)
    (JsMap.values (assignmentsMap st)).

(** *** Submissions and their files *)

(** [a || b] on strings: the empty string is falsy. *)
Definition or_else (a : option string) (b : string) : string :=
  match a with
  | Some s => if String.eqb s "" then b else s
  | None => b
  end.

Definition createSubmission (insertSubmission : InsertSubmission.t) : Promise Submission.t :=
  id <- fresh_id Submissions ;;
  submissionDate <- new_Date ;;
  let submission :=
    {| Submission.id := id;
       Submission.traineeId := InsertSubmission.traineeId insertSubmission;
       Submission.taskId := InsertSubmission.taskId insertSubmission;
       Submission.unitId := InsertSubmission.unitId insertSubmission;
       Submission.title := InsertSubmission.title insertSubmission;
       Submission.submissionDate := submissionDate;
       Submission.status := or_else (InsertSubmission.status insertSubmission) "pending";
       Submission.description := InsertSubmission.description insertSubmission |} in
  map_set Submissions id submission ;;
  ret submission.

Definition getSubmission (id : Z) (st : MemStorage) : option Submission.t :=
  JsMap.get id (submissionsMap st).

(** [submissionData : Partial<Submission>], given by its overlay as in
    [updateUser]. *)
Definition updateSubmission (id : Z) (submissionData : Submission.t -> Submission.t)
  : Promise Submission.t :=
  submission <- read (getSubmission id) ;;
  match submission with
  | None => throw ("Submission with id " +++ show_Z id +++ " not found")
  | Some submission =>
      let updatedSubmission := submissionData submission in
      map_set Submissions id updatedSubmission ;;
      ret updatedSubmission
  end.

Definition getAllSubmissions (st : MemStorage) : list Submission.t :=
  JsMap.values (submissionsMap st).

Definition getSubmissionsByTrainee (traineeId : Z) (st : MemStorage) : list Submission.t :=
  filter (fun submission => Submission.traineeId submission =? traineeId)
    (JsMap.values (submissionsMap st)).

Definition getSubmissionsByAssessor (assessorId : Z) (st : MemStorage) : list Submission.t :=
  let assignments := getAssignmentsByAssessor assessorId st in
  let assignedTraineeUnitPairs :=
    map (fun a => (Assignment.traineeId a, Assignment.unitId a)) assignments in
  filter
    (fun submission =>
       existsb
         (fun pair =>
            strict_eq (fst pair) (Submission.traineeId submission)
            && (snd pair =? Submission.unitId submission))
         assignedTraineeUnitPairs)
    (JsMap.values (submissionsMap st)).

Definition createSubmissionFile (insertFile : InsertSubmissionFile.t) : Promise SubmissionFile.t :=
  id <- fresh_id SubmissionFiles ;;
  uploadDate <- new_Date ;;
  let file :=
    {| SubmissionFile.id := id;
       SubmissionFile.submissionId := InsertSubmissionFile.submissionId insertFile;
       SubmissionFile.fileName := InsertSubmissionFile.fileName insertFile;
       SubmissionFile.fileType := InsertSubmissionFile.fileType insertFile;
       SubmissionFile.filePath := InsertSubmissionFile.filePath insertFile;
       SubmissionFile.fileSize := InsertSubmissionFile.fileSize insertFile;
       SubmissionFile.uploadDate := uploadDate |} in
  map_set SubmissionFiles id file ;;
  ret file.

Definition getSubmissionFile (id : Z) (st : MemStorage) : option SubmissionFile.t :=
  JsMap.get id (submissionFilesMap st).

Definition getSubmissionFiles (submissionId : Z) (st : MemStorage) : list SubmissionFile.t :=
  filter (fun file => SubmissionFile.submissionId file =? submissionId)
    (JsMap.values (submissionFilesMap st)).

(** *** Assessments and verifications *)

Definition createAssessment (insertAssessment : InsertAssessment.t) : Promise Assessment.t :=
  id <- fresh_id Assessments ;;
  assessmentDate <- new_Date ;;
  let assessment :=
    {| Assessment.id := id;
       Assessment.submissionId := InsertAssessment.submissionId insertAssessment;
       Assessment.assessorId := InsertAssessment.assessorId insertAssessment;
       Assessment.status := InsertAssessment.status insertAssessment;
       Assessment.assessmentDate := assessmentDate;
       Assessment.criteria := nullish (InsertAssessment.criteria insertAssessment) (JObj []);
       Assessment.feedback := InsertAssessment.feedback insertAssessment |} in
  map_set Assessments id assessment ;;
  ret assessment.

Definition getAssessment (id : Z) (st : MemStorage) : option Assessment.t :=
  JsMap.get id (assessmentsMap st).

Definition getAssessmentsBySubmission (submissionId : Z) (st : MemStorage) : list Assessment.t :=
  filter (fun assessment => Assessment.submissionId assessment =? submissionId)
    (JsMap.values (assessmentsMap st)).

Definition createVerification (insertVerification : InsertVerification.t) : Promise Verification.t :=
  id <- fresh_id Verifications ;;
  verificationDate <- new_Date ;;
  let verification :=
    {| Verification.id := id;
       Verification.assessmentId := InsertVerification.assessmentId insertVerification;
       Verification.verifierId := InsertVerification.verifierId insertVerification;
       Verification.verifierType := InsertVerification.verifierType insertVerification;
       Verification.status := InsertVerification.status insertVerification;
       Verification.verificationDate := verificationDate;
       Verification.comments := InsertVerification.comments insertVerification |} in
  map_set Verifications id verification ;;
  ret verification.

Definition getVerification (id : Z) (st : MemStorage) : option Verification.t :=
  JsMap.get id (verificationsMap st).

Definition getAllVerifications (st : MemStorage) : list Verification.t :=
  JsMap.values (verificationsMap st).

Definition getVerificationsByVerifier (verifierId : Z) (st : MemStorage) : list Verification.t :=
  filter (fun verification => Verification.verifierId verification =? verifierId)
    (JsMap.values (verificationsMap st)).

(** *** Notifications and activity logs *)

Definition createNotification (insertNotification : InsertNotification.t) : Promise Notification.t :=
  id <- fresh_id Notifications ;;
  createdAt <- new_Date ;;
  let notification :=
    {| Notification.id := id;
       Notification.userId := InsertNotification.userId insertNotification;
       Notification.title := InsertNotification.title insertNotification;
       Notification.message := InsertNotification.message insertNotification;
       Notification.type := InsertNotification.type insertNotification;
       Notification.createdAt := createdAt;
       Notification.isRead := false;
       Notification.linkedItemId := InsertNotification.linkedItemId insertNotification |} in
  map_set Notifications id notification ;;
  ret notification.

Definition getNotification (id : Z) (st : MemStorage) : option Notification.t :=
  JsMap.get id (notificationsMap st).

Definition updateNotification (id : Z) (notificationData : Notification.t -> Notification.t)
  : Promise Notification.t :=
  notification <- read (getNotification id) ;;
  match notification with
  | None => throw ("Notification with id " +++ show_Z id +++ " not found")
  | Some notification =>
      let updatedNotification := notificationData notification in
      map_set Notifications id updatedNotification ;;
      ret updatedNotification
  end.

Definition createActivityLog (insertLog : InsertActivityLog.t) : Promise ActivityLog.t :=
  id <- fresh_id ActivityLogs ;;
  timestamp <- new_Date ;;
  let log :=
    {| ActivityLog.id := id;
       ActivityLog.userId := InsertActivityLog.userId insertLog;
       ActivityLog.action := InsertActivityLog.action insertLog;
       ActivityLog.timestamp := timestamp;
       ActivityLog.details := nullish (InsertActivityLog.details insertLog) (JObj []);
       ActivityLog.ipAddress := InsertActivityLog.ipAddress insertLog |} in
  map_set ActivityLogs id log ;;
  ret log.

(** *** Reports: trainee performance *)

Record TraineePerformance : Type := mkTraineePerformance {
  traineeId : Z;
  traineeName : string;
  submissionsCount : Z;
  approvedCount : Z;
  rejectedCount : Z;
  resubmitCount : Z;
  pendingCount : Z;
  averageTurnaround : float }.

(** The number [date.getTime()] and the counters are doubles; within the
    range of a [Date] (and of any count of records) the conversion is exact. *)
Definition Z_to_number (z : Z) : float :=
  if z <? 0 then PrimFloat.opp (PrimFloat.of_uint63 (Uint63.of_Z (- z)))
  else PrimFloat.of_uint63 (Uint63.of_Z z).

(** The [let] variables of the loop over one trainee's submissions. *)
Record Tally : Type := mkTally {
  t_approved : Z; t_rejected : Z; t_resubmit : Z; t_pending : Z;
  totalTurnaround : float; assessedCount : Z }.

(** [(assessment.assessmentDate.getTime() - submission.submissionDate.getTime())
     / (1000 * 60 * 60 * 24)] *)
Definition turnaround (assessment : Assessment.t) (submission : Submission.t) : float :=
  PrimFloat.div
    (PrimFloat.sub (Z_to_number (Assessment.assessmentDate assessment))
       (Z_to_number (Submission.submissionDate submission)))
    (Z_to_number (1000 * 60 * 60 * 24)).

(** One iteration of [for (const submission of submissions)]. *)
Definition tally_submission (st : MemStorage) (acc : Tally) (submission : Submission.t) : Tally :=
  let status := Submission.status submission in
  let acc :=
    if String.eqb status "approved" then
      mkTally (t_approved acc + 1) (t_rejected acc) (t_resubmit acc) (t_pending acc)
        (totalTurnaround acc) (assessedCount acc)
    else if String.eqb status "rejected" then
      mkTally (t_approved acc) (t_rejected acc + 1) (t_resubmit acc) (t_pending acc)
        (totalTurnaround acc) (assessedCount acc)
    else if String.eqb status "resubmit" then
      mkTally (t_approved acc) (t_rejected acc) (t_resubmit acc + 1) (t_pending acc)
        (totalTurnaround acc) (assessedCount acc)
    else if String.eqb status "pending" then
      mkTally (t_approved acc) (t_rejected acc) (t_resubmit acc) (t_pending acc + 1)
        (totalTurnaround acc) (assessedCount acc)
    else acc in
  let assessments := getAssessmentsBySubmission (Submission.id submission) st in
  match assessments with
  | assessment :: _ =>
      mkTally (t_approved acc) (t_rejected acc) (t_resubmit acc) (t_pending acc)
        (PrimFloat.add (totalTurnaround acc) (turnaround assessment submission))
        (assessedCount acc + 1)
  | [] => acc
  end.

(** One iteration of [for (const trainee of validTrainees)]: the record
    pushed onto [result]. *)
Definition trainee_performance (st : MemStorage) (trainee : User.t) : TraineePerformance :=
  let submissions := getSubmissionsByTrainee (User.id trainee) st in
  let acc := fold_left (tally_submission st) submissions (mkTally 0 0 0 0 0%float 0) in
  {| traineeId := User.id trainee;
     traineeName := User.fullName trainee;
     submissionsCount := Z.of_nat (List.length submissions);
     approvedCount := t_approved acc;
     rejectedCount := t_rejected acc;
     resubmitCount := t_resubmit acc;
     pendingCount := t_pending acc;
     averageTurnaround :=
       if 0 <? assessedCount acc
       then PrimFloat.div (totalTurnaround acc) (Z_to_number (assessedCount acc))
       else 0%float |}.

(** [trainees.filter(Boolean)] *)
Fixpoint filter_Boolean {A : Type} (l : list (option A)) : list A :=
  match l with
  | [] => []
  | Some x :: l' => x :: filter_Boolean l'
  | None :: l' => filter_Boolean l'
  end.

(** [specificTraineeIds] is [None] when the argument is left out. *)
Definition getTraineePerformanceReport (specificTraineeIds : option (list Z)) (st : MemStorage)
  : list TraineePerformance :=
  let trainees :=
    match specificTraineeIds with
    | Some (id :: ids) => map (fun id => getUser id st) (id :: ids)
    | _ => map Some (getUsersByRole "trainee" st)
    end in
  let validTrainees := filter_Boolean trainees in
  map (trainee_performance st) validTrainees.

(** *** Portfolio export

    Only what reaches the store and the caller: the method rejects when the
    trainee is missing, and otherwise settles as the write stream of the
    rendered document does ([pdf] is the path on [finish], [None] on
    [error]). The layout of the document is the renderer's. *)
Definition generatePortfolioPDF (traineeId : Z) (pdf : option string) : Promise string :=
  trainee <- read (getUser traineeId) ;;
  match trainee with
  | None => throw ("Trainee with id " +++ show_Z traineeId +++ " not found")
  | Some _ =>
      match pdf with
      | Some outputPath => ret outputPath
      | None => throw "stream error"
      end
  end.

(** ** Insert schemas ([createInsertSchema] of [shared/schema.ts])

    [schema.parse] either throws a [ZodError] ([None]) or accepts the
    object; the accepted object is returned with the types of its columns.
    A column that is [notNull] without a default is required, any other is
    optional, a nullable one also takes [null]; a timestamp column takes a
    [Date] only, which no JSON value is. *)

Notation "'let?' x ':=' m 'in' k" :=
  (match m with Some x => k | None => None end)
  (at level 10, x name, m at level 100, k at level 200).

Definition z_object (v : json) : option (list (string * json)) :=
  match v with
  | JObj o => Some o
  | _ => None
  end.

Definition z_int (v : option json) : option Z :=
  match v with
  | Some (JNum n) => Some n
  | _ => None
  end.

Definition z_int_optional (v : option json) : option (option Z) :=
  match v with
  | None => Some None
  | Some (JNum n) => Some (Some n)
  | Some _ => None
  end.

Definition z_text (v : option json) : option string :=
  match v with
  | Some (JStr s) => Some s
  | _ => None
  end.

Definition z_text_nullish (v : option json) : option (option string) :=
  match v with
  | None | Some JNull => Some None
  | Some (JStr s) => Some (Some s)
  | Some _ => None
  end.

Definition z_enum (values : list string) (v : option json) : option string :=
  match v with
  | Some (JStr s) => if existsb (String.eqb s) values then Some s else None
  | _ => None
  end.

Definition z_enum_optional (values : list string) (v : option json) : option (option string) :=
  match v with
  | None => Some None
  | Some _ => let? s := z_enum values v in Some (Some s)
  end.

Definition z_date_optional (v : option json) : option unit :=
  match v with
  | None => Some tt
  | Some _ => None
  end.

Definition z_json_nullish (v : option json) : option (option json) :=
  match v with
  | None | Some JNull => Some None
  | Some j => Some (Some j)
  end.

Definition insertUnitSchema (body : json) : option InsertUnit.t :=
  let? o := z_object body in
  let? _ := z_int_optional (field "id" o) in
  let? name := z_text (field "name" o) in
  let? code := z_text (field "code" o) in
  let? courseId := z_int (field "courseId" o) in
  let? description := z_text_nullish (field "description" o) in
  let? credits := z_int_optional (field "credits" o) in
  Some {| InsertUnit.name := name; InsertUnit.code := code;
          InsertUnit.courseId := Some courseId;
          InsertUnit.description := description;
          InsertUnit.credits := credits;
          InsertUnit.moduleId := z_int (field "moduleId" o) |}.

Definition insertTaskSchema (body : json) : option InsertTask.t :=
  let? o := z_object body in
  let? _ := z_int_optional (field "id" o) in
  let? unitId := z_int (field "unitId" o) in
  let? name := z_text (field "name" o) in
  let? description := z_text_nullish (field "description" o) in
  let? criteria := z_json_nullish (field "criteria" o) in
  Some {| InsertTask.unitId := unitId; InsertTask.name := name;
          InsertTask.description := description;
          InsertTask.criteria := criteria |}.

Definition insertAssignmentSchema (body : json) : option InsertAssignment.t :=
  let? o := z_object body in
  let? _ := z_int_optional (field "id" o) in
  let? classIntakeId := z_int (field "classIntakeId" o) in
  let? assessorId := z_int (field "assessorId" o) in
  let? unitId := z_int (field "unitId" o) in
  let? _ := z_date_optional (field "createdAt" o) in
  Some {| InsertAssignment.classIntakeId := classIntakeId;
          InsertAssignment.assessorId := assessorId;
          InsertAssignment.unitId := unitId;
          InsertAssignment.traineeId := z_int (field "traineeId" o) |}.

Definition submission_statuses : list string :=
  ["pending"; "reviewed"; "resubmit"; "approved"; "rejected"].

Definition insertSubmissionSchema (body : json) : option InsertSubmission.t :=
  let? o := z_object body in
  let? _ := z_int_optional (field "id" o) in
  let? traineeId := z_int (field "traineeId" o) in
  let? taskId := z_int (field "taskId" o) in
  let? unitId := z_int (field "unitId" o) in
  let? title := z_text (field "title" o) in
  let? description := z_text_nullish (field "description" o) in
  let? _ := z_date_optional (field "submissionDate" o) in
  let? status := z_enum_optional submission_statuses (field "status" o) in
  Some {| InsertSubmission.traineeId := traineeId;
          InsertSubmission.taskId := taskId;
          InsertSubmission.unitId := unitId;
          InsertSubmission.title := title;
          InsertSubmission.description := description;
          InsertSubmission.status := status |}.

Definition assessment_statuses : list string := ["approved"; "resubmit"; "rejected"].

Definition insertAssessmentSchema (body : json) : option InsertAssessment.t :=
  let? o := z_object body in
  let? _ := z_int_optional (field "id" o) in
  let? submissionId := z_int (field "submissionId" o) in
  let? assessorId := z_int (field "assessorId" o) in
  let? feedback := z_text_nullish (field "feedback" o) in
  let? criteria := z_json_nullish (field "criteria" o) in
  let? status := z_enum assessment_statuses (field "status" o) in
  let? _ := z_date_optional (field "assessmentDate" o) in
  Some {| InsertAssessment.submissionId := submissionId;
          InsertAssessment.assessorId := assessorId;
          InsertAssessment.feedback := feedback;
          InsertAssessment.criteria := criteria;
          InsertAssessment.status := status |}.

Definition verifier_types : list string := ["internal"; "external"].
Definition verification_statuses : list string := ["confirmed"; "rejected"; "flagged"].

Definition insertVerificationSchema (body : json) : option InsertVerification.t :=
  let? o := z_object body in
  let? _ := z_int_optional (field "id" o) in
  let? assessmentId := z_int (field "assessmentId" o) in
  let? verifierId := z_int (field "verifierId" o) in
  let? verifierType := z_enum verifier_types (field "verifierType" o) in
  let? status := z_enum verification_statuses (field "status" o) in
  let? comments := z_text_nullish (field "comments" o) in
  let? _ := z_date_optional (field "verificationDate" o) in
  Some {| InsertVerification.assessmentId := assessmentId;
          InsertVerification.verifierId := verifierId;
          InsertVerification.verifierType := verifierType;
          InsertVerification.status := status;
          InsertVerification.comments := comments |}.

(** ** File intake ([multer], as [routes.ts] configures it) *)

Module MulterFile.
Record t : Type := mk {
  fieldname : string; originalname : string; mimetype : string;
  path : string; size : Z }.
End MulterFile.

Inductive UploadError : Type :=
| FilterError (message : string)
| MulterError (code : string).

Definition allowedTypes : list string :=
  ["application/pdf"; "image/jpeg"; "image/png"; "video/mp4";
   "application/vnd.openxmlformats-officedocument.wordprocessingml.document"].

(** [cb(null, true)] is [Fulfilled true], [cb(new Error(m))] is [Rejected m]. *)
Definition fileFilter (file : MulterFile.t) : Settled bool :=
  if existsb (String.eqb (MulterFile.mimetype file)) allowedTypes
  then Fulfilled true
  else Rejected "Invalid file type. Only PDF, JPG, PNG, MP4, and DOCX are allowed.".

(** [limits: { fileSize: 20 * 1024 * 1024 }] *)
Definition limits_fileSize : Z := 20 * 1024 * 1024.

(** Modelled from the spec: the middleware [upload.array(fieldName, maxCount)]
    is [multer]'s, a library outside the sources; the sources configure it
    with [fileFilter] and [limits.fileSize] above. The parts are taken in
    order; a part under another field name, or one more than [maxCount], is
    unexpected; then the filter decides; a part whose size exceeds
    [limits.fileSize] bytes is over the limit (the spec: "whose size exceeds
    20 MiB"); the first error ends the request. *)
Fixpoint upload_parts (fieldName : string) (filesLeft : nat) (parts : list MulterFile.t)
    {struct parts} : UploadError + list MulterFile.t :=
  match parts with
  | [] => inr []
  | file :: parts' =>
      if negb (String.eqb (MulterFile.fieldname file) fieldName) then
        inl (MulterError "LIMIT_UNEXPECTED_FILE")
      else
        match filesLeft with
        | O => inl (MulterError "LIMIT_UNEXPECTED_FILE")
        | S filesLeft' =>
            match fileFilter file with
            | Rejected message => inl (FilterError message)
            | Fulfilled false => upload_parts fieldName filesLeft' parts'
            | Fulfilled true =>
                if limits_fileSize <? MulterFile.size file then
                  inl (MulterError "LIMIT_FILE_SIZE")
                else
                  match upload_parts fieldName filesLeft' parts' with
                  | inl err => inl err
                  | inr files => inr (file :: files)
                  end
            end
        end
  end.

Definition upload_array (fieldName : string) (maxCount : nat) (parts : list MulterFile.t)
  : UploadError + list MulterFile.t :=
  upload_parts fieldName maxCount parts.

(** ** Requests and responses *)

Inductive Payload : Type :=
| Message (message : string)
| ValidationMessage
| OfUnit (unit : Unit.t)
| OfTask (task : Task.t)
| OfAssignment (assignment : Assignment.t)
| OfSubmission (submission : Submission.t) (files : list SubmissionFile.t)
| OfAssessment (assessment : Assessment.t)
| OfVerification (verification : Verification.t).

(** [res.status(s).json(b)], [res.download(path)], or [next(err)] out of the
    upload middleware (answered by the application's error handling). *)
Inductive Response : Type :=
| Json (status : Z) (body : Payload)
| Download (path : string)
| NextError (err : UploadError).

(** The routes that write to the store; the other routes of [routes.ts],
    which only read, follow in [Get]. [pdf] is how the document stream of an
    export settles. *)
Inductive Call : Type :=
| POST_users_deactivate (id : Z)
| POST_units (body : json)
| POST_tasks (body : json)
| POST_assignments (body : json)
| POST_submissions (submissionData : option json) (files : list MulterFile.t)
| POST_assessments (body : json)
| POST_verifications (body : json)
| POST_notifications_read (id : Z)
| GET_export_portfolio (traineeId : Z) (pdf : option string).

(** [user] is [req.user], present exactly when [req.isAuthenticated()]. *)
Record Request : Type := mkRequest {
  user : option User.t;
  ip : option string;
  call : Call }.

Definition isAuthenticated (req : Request) : bool :=
  match user req with
  | Some _ => true
  | None => false
  end.

(** [req.user!] *)
Definition req_user (req : Request) : Promise User.t :=
  match user req with
  | Some u => ret u
  | None => throw "TypeError: Cannot read properties of undefined"
  end.

Definition logActivity (req : Request) (userId : Z) (action : string) (details : json)
  : Promise unit :=
  try_catch
    (timestamp <- new_Date ;;
     createActivityLog
       {| InsertActivityLog.userId := userId;
          InsertActivityLog.action := action;
          InsertActivityLog.details := Some details;
          InsertActivityLog.timestamp := timestamp;
          InsertActivityLog.ipAddress := ip req |} ;;
     ret tt)
    (fun _ => ret tt).

Definition requireAuth (req : Request) (next : Promise Response) : Promise Response :=
  if negb (isAuthenticated req) then ret (Json 401 (Message "Unauthorized"))
  else next.

Definition requireRole (roles : list string) (req : Request) (next : Promise Response)
  : Promise Response :=
  match user req with
  | Some u =>
      if negb (isAuthenticated req) || negb (existsb (String.eqb (User.role u)) roles)
      then ret (Json 403 (Message "Forbidden: Insufficient permissions"))
      else next
  | None => ret (Json 403 (Message "Forbidden: Insufficient permissions"))
  end.

(** The handler that follows reads [req.body] with the types the schema
    checked. *)
Definition validateSchema {A : Type} (schema : json -> option A) (body : json)
    (next : A -> Promise Response) : Promise Response :=
  match schema body with
  | Some b => next b
  | None => ret (Json 400 ValidationMessage)
  end.

Definition upload : list MulterFile.t -> UploadError + list MulterFile.t :=
  upload_array "files" 10.

(** ** The routes ([registerRoutes]) *)

Definition post_users_deactivate (req : Request) (userId : Z) : Promise Response :=
  try_catch
    (user <- read (getUser userId) ;;
     match user with
     | None => ret (Json 404 (Message "User not found"))
     | Some user =>
         updateUser userId
           (fun _ =>
              {| User.id := User.id user; User.username := User.username user;
                 User.password := User.password user; User.fullName := User.fullName user;
                 User.email := User.email user; User.role := User.role user;
                 User.departmentId := User.departmentId user;
                 User.courseId := User.courseId user;
                 User.classIntakeId := User.classIntakeId user;
                 User.createdAt := User.createdAt user; User.isActive := false |}) ;;
         me <- req_user req ;;
         logActivity req (User.id me) "deactivated_user" (JObj [("targetUser", JNum userId)]) ;;
         ret (Json 200 (Message "User deactivated successfully"))
     end)
    (fun _ => ret (Json 500 (Message "Failed to deactivate user"))).

Definition post_units (req : Request) (body : InsertUnit.t) : Promise Response :=
  try_catch
    (unit <- createUnit body ;;
     me <- req_user req ;;
     logActivity req (User.id me) "created_unit" (JObj [("unitId", JNum (Unit.id unit))]) ;;
     ret (Json 201 (OfUnit unit)))
    (fun _ => ret (Json 500 (Message "Failed to create unit"))).

Definition post_tasks (req : Request) (body : InsertTask.t) : Promise Response :=
  try_catch
    (task <- createTask body ;;
     me <- req_user req ;;
     logActivity req (User.id me) "created_task" (JObj [("taskId", JNum (Task.id task))]) ;;
     ret (Json 201 (OfTask task)))
    (fun _ => ret (Json 500 (Message "Failed to create task"))).

Definition post_assignments (req : Request) (body : InsertAssignment.t) : Promise Response :=
  try_catch
    (assignment <- createAssignment body ;;
     createNotification
       {| InsertNotification.userId := Assignment.assessorId assignment;
          InsertNotification.title := "New Trainee Assigned";
          InsertNotification.message :=
            "You have been assigned to a new trainee for Unit "
            +++ show_Z (Assignment.unitId assignment);
          InsertNotification.isRead := false;
          InsertNotification.type := "system";
          InsertNotification.linkedItemId := Some (Assignment.id assignment) |} ;;
     me <- req_user req ;;
     logActivity req (User.id me) "created_assignment"
       (JObj [("assignmentId", JNum (Assignment.id assignment))]) ;;
     ret (Json 201 (OfAssignment assignment)))
    (fun _ => ret (Json 500 (Message "Failed to create assignment"))).

Definition post_submissions (req : Request) (submissionData : option json)
    (files : list MulterFile.t) : Promise Response :=
  try_catch
    (submissionData <-
       match submissionData with
       | Some v => ret v
       | None => throw "SyntaxError"
       end ;;
     me <- req_user req ;;
     match insertSubmissionSchema
             (JObj (("traineeId", JNum (User.id me)) :: spread submissionData)) with
     | None => ret (Json 400 ValidationMessage)
     | Some parsed =>
         submission <-
           createSubmission
             {| InsertSubmission.traineeId := User.id me;
                InsertSubmission.taskId := InsertSubmission.taskId parsed;
                InsertSubmission.unitId := InsertSubmission.unitId parsed;
                InsertSubmission.title := InsertSubmission.title parsed;
                InsertSubmission.description := InsertSubmission.description parsed;
                InsertSubmission.status := Some "pending" |} ;;
         for_of files
           (fun file =>
              uploadDate <- new_Date ;;
              createSubmissionFile
                {| InsertSubmissionFile.submissionId := Submission.id submission;
                   InsertSubmissionFile.fileName := MulterFile.originalname file;
                   InsertSubmissionFile.fileType := MulterFile.mimetype file;
                   InsertSubmissionFile.filePath := MulterFile.path file;
                   InsertSubmissionFile.fileSize := MulterFile.size file;
                   InsertSubmissionFile.uploadDate := uploadDate |} ;;
              ret tt) ;;
         assignments <- read (getAssignmentsByTrainee (User.id me)) ;;
         let assignment :=
           find (fun a => Assignment.unitId a =? Submission.unitId submission) assignments in
         match assignment with
         | Some assignment =>
             createNotification
               {| InsertNotification.userId := Assignment.assessorId assignment;
                  InsertNotification.title := "New Submission Received";
                  InsertNotification.message :=
                    "A new submission for " +++ Submission.title submission
                    +++ " has been received and requires your review";
                  InsertNotification.isRead := false;
                  InsertNotification.type := "submission";
                  InsertNotification.linkedItemId := Some (Submission.id submission) |} ;;
             ret tt
         | None => ret tt
         end ;;
         logActivity req (User.id me) "created_submission"
           (JObj [("submissionId", JNum (Submission.id submission))]) ;;
         files <- read (getSubmissionFiles (Submission.id submission)) ;;
         ret (Json 201 (OfSubmission submission files))
     end)
    (fun _ => ret (Json 500 (Message "Failed to create submission"))).

(** [{...submission, status}] *)
Definition submission_with_status (submission : Submission.t) (status : string) : Submission.t :=
  {| Submission.id := Submission.id submission;
     Submission.traineeId := Submission.traineeId submission;
     Submission.taskId := Submission.taskId submission;
     Submission.unitId := Submission.unitId submission;
     Submission.title := Submission.title submission;
     Submission.description := Submission.description submission;
     Submission.submissionDate := Submission.submissionDate submission;
     Submission.status := status |}.

Definition post_assessments (req : Request) (body : InsertAssessment.t) : Promise Response :=
  try_catch
    (let submissionId := InsertAssessment.submissionId body in
     submission <- read (getSubmission submissionId) ;;
     match submission with
     | None => ret (Json 404 (Message "Submission not found"))
     | Some submission =>
         me <- req_user req ;;
         assignments <- read (getAssignmentsByAssessor (User.id me)) ;;
         let isAssigned :=
           existsb
             (fun a =>
                strict_eq (Assignment.traineeId a) (Submission.traineeId submission)
                && (Assignment.unitId a =? Submission.unitId submission))
             assignments in
         if negb isAssigned then
           ret (Json 403 (Message "Forbidden: You are not assigned to this trainee"))
         else
           assessment <-
             createAssessment
               {| InsertAssessment.submissionId := InsertAssessment.submissionId body;
                  InsertAssessment.assessorId := User.id me;
                  InsertAssessment.feedback := InsertAssessment.feedback body;
                  InsertAssessment.criteria := InsertAssessment.criteria body;
                  InsertAssessment.status := InsertAssessment.status body |} ;;
           updateSubmission submissionId
             (fun _ =>
                submission_with_status submission
                  (if String.eqb (InsertAssessment.status body) "approved" then "approved"
                   else if String.eqb (InsertAssessment.status body) "rejected" then "rejected"
                   else "resubmit")) ;;
           createNotification
             {| InsertNotification.userId := Submission.traineeId submission;
                InsertNotification.title := "Assessment Feedback Available";
                InsertNotification.message :=
                  "Your submission for " +++ Submission.title submission
                  +++ " has been assessed";
                InsertNotification.isRead := false;
                InsertNotification.type := "assessment";
                InsertNotification.linkedItemId := Some (Assessment.id assessment) |} ;;
           (if String.eqb (InsertAssessment.status body) "approved" then
              verifiers <- read (getUsersByRole "internal_verifier") ;;
              for_of verifiers
                (fun verifier =>
                   createNotification
                     {| InsertNotification.userId := User.id verifier;
                        InsertNotification.title := "Verification Required";
                        InsertNotification.message := "A new assessment needs verification";
                        InsertNotification.isRead := false;
                        InsertNotification.type := "verification";
                        InsertNotification.linkedItemId := Some (Assessment.id assessment) |} ;;
                   ret tt)
            else ret tt) ;;
           logActivity req (User.id me) "created_assessment"
             (JObj [("assessmentId", JNum (Assessment.id assessment))]) ;;
           ret (Json 201 (OfAssessment assessment))
     end)
    (fun _ => ret (Json 500 (Message "Failed to create assessment"))).

Definition post_verifications (req : Request) (body : InsertVerification.t) : Promise Response :=
  try_catch
    (let assessmentId := InsertVerification.assessmentId body in
     me <- req_user req ;;
     verification <-
       createVerification
         {| InsertVerification.assessmentId := InsertVerification.assessmentId body;
            InsertVerification.verifierId := User.id me;
            InsertVerification.verifierType :=
              if String.eqb (User.role me) "internal_verifier" then "internal" else "external";
            InsertVerification.status := InsertVerification.status body;
            InsertVerification.comments := InsertVerification.comments body |} ;;
     assessment <- read (getAssessment assessmentId) ;;
     match assessment with
     | None => ret (Json 404 (Message "Assessment not found"))
     | Some assessment =>
         submission <- read (getSubmission (Assessment.submissionId assessment)) ;;
         match submission with
         | None => ret (Json 404 (Message "Submission not found"))
         | Some submission =>
             createNotification
               {| InsertNotification.userId := Assessment.assessorId assessment;
                  InsertNotification.title := "Verification Completed";
                  InsertNotification.message := "Your assessment has been verified";
                  InsertNotification.isRead := false;
                  InsertNotification.type := "verification";
                  InsertNotification.linkedItemId := Some (Verification.id verification) |} ;;
             (if String.eqb (InsertVerification.status body) "rejected" then
                createNotification
                  {| InsertNotification.userId := Submission.traineeId submission;
                     InsertNotification.title := "Assessment Verification Issue";
                     InsertNotification.message :=
                       "There was an issue with your assessment verification";
                     InsertNotification.isRead := false;
                     InsertNotification.type := "verification";
                     InsertNotification.linkedItemId := Some (Verification.id verification) |} ;;
                ret tt
              else ret tt) ;;
             (if String.eqb (InsertVerification.status body) "confirmed"
                 && String.eqb (User.role me) "internal_verifier" then
                externalVerifiers <- read (getUsersByRole "external_verifier") ;;
                for_of externalVerifiers
                  (fun verifier =>
                     createNotification
                       {| InsertNotification.userId := User.id verifier;
                          InsertNotification.title := "External Verification Required";
                          InsertNotification.message :=
                            "An assessment is ready for external verification";
                          InsertNotification.isRead := false;
                          InsertNotification.type := "verification";
                          InsertNotification.linkedItemId :=
                            Some (Verification.id verification) |} ;;
                     ret tt)
              else ret tt) ;;
             logActivity req (User.id me) "created_verification"
               (JObj [("verificationId", JNum (Verification.id verification))]) ;;
             ret (Json 201 (OfVerification verification))
         end
     end)
    (fun _ => ret (Json 500 (Message "Failed to create verification"))).

(** [{...notification, isRead: true}] *)
Definition notification_read (notification : Notification.t) : Notification.t :=
  {| Notification.id := Notification.id notification;
     Notification.userId := Notification.userId notification;
     Notification.title := Notification.title notification;
     Notification.message := Notification.message notification;
     Notification.isRead := true;
     Notification.createdAt := Notification.createdAt notification;
     Notification.type := Notification.type notification;
     Notification.linkedItemId := Notification.linkedItemId notification |}.

Definition post_notifications_read (req : Request) (notificationId : Z) : Promise Response :=
  try_catch
    (notification <- read (getNotification notificationId) ;;
     match notification with
     | None => ret (Json 404 (Message "Notification not found"))
     | Some notification =>
         me <- req_user req ;;
         if negb (Notification.userId notification =? User.id me) then
           ret (Json 403
                  (Message "Forbidden: You can only mark your own notifications as read"))
         else
           updateNotification notificationId (fun _ => notification_read notification) ;;
           ret (Json 200 (Message "Notification marked as read"))
     end)
    (fun _ => ret (Json 500 (Message "Failed to mark notification as read"))).

Definition get_export_portfolio (req : Request) (traineeId : Z) (pdf : option string)
  : Promise Response :=
  try_catch
    (me <- req_user req ;;
     if String.eqb (User.role me) "trainee" && negb (User.id me =? traineeId) then
       ret (Json 403 (Message "Forbidden: You can only export your own portfolio"))
     else
       assigned <-
         (if String.eqb (User.role me) "assessor" then
            assignments <- read (getAssignmentsByAssessor (User.id me)) ;;
            ret (existsb (fun a => strict_eq (Assignment.traineeId a) traineeId) assignments)
          else ret true) ;;
       if negb assigned then
         ret (Json 403 (Message "Forbidden: You are not assigned to this trainee"))
       else
         pdfPath <- generatePortfolioPDF traineeId pdf ;;
         logActivity req (User.id me) "exported_portfolio"
           (JObj [("traineeId", JNum traineeId)]) ;;
         ret (Download pdfPath))
    (fun _ => ret (Json 500 (Message "Failed to export portfolio"))).

(** The middleware chain of each route. *)
Definition route (req : Request) : Promise Response :=
  match call req with
  | POST_users_deactivate id =>
      requireAuth req (requireRole ["admin"] req (post_users_deactivate req id))
  | POST_units body =>
      requireAuth req (requireRole ["admin"] req
        (validateSchema insertUnitSchema body (post_units req)))
  | POST_tasks body =>
      requireAuth req (requireRole ["admin"] req
        (validateSchema insertTaskSchema body (post_tasks req)))
  | POST_assignments body =>
      requireAuth req (requireRole ["admin"] req
        (validateSchema insertAssignmentSchema body (post_assignments req)))
  | POST_submissions submissionData parts =>
      requireAuth req (requireRole ["trainee"] req
        match upload parts with
        | inl err => ret (NextError err)
        | inr files => post_submissions req submissionData files
        end)
  | POST_assessments body =>
      requireAuth req (requireRole ["assessor"] req
        (validateSchema insertAssessmentSchema body (post_assessments req)))
  | POST_verifications body =>
      requireAuth req (requireRole ["internal_verifier"; "external_verifier"] req
        (validateSchema insertVerificationSchema body (post_verifications req)))
  | POST_notifications_read id =>
      requireAuth req (post_notifications_read req id)
  | GET_export_portfolio traineeId pdf =>
      requireAuth req (get_export_portfolio req traineeId pdf)
  end.

(** Serving one request: the response and the store it leaves. *)
Definition serve (clock : Clock) (req : Request) (st : MemStorage) : Response * MemStorage :=
  match route req clock (st, 0%nat) with
  | (Fulfilled res, w) => (res, fst w)
  | (Rejected e, w) => (Json 500 (Message e), fst w)
  end.

(** ** Histories of the store

    Besides the routes above, the store is written by [seedInitialData] and
    by account registration ([auth.ts]), through the [create] methods of
    the organisational entities and of users. *)

Inductive Seed : Type :=
| SeedUser (insertUser : InsertUser.t)
| SeedDepartment (insertDepartment : InsertDepartment.t)
| SeedStudyLevel (insertStudyLevel : InsertStudyLevel.t)
| SeedCourse (insertCourse : InsertCourse.t)
| SeedClassIntake (insertClassIntake : InsertClassIntake.t)
| SeedModule (insertModule : InsertCourseModule.t)
| SeedUnit (insertUnit : InsertUnit.t)
| SeedTask (insertTask : InsertTask.t).

Definition seed (s : Seed) : Promise unit :=
  match s with
  | SeedUser i => createUser i ;; ret tt
  | SeedDepartment i => createDepartment i ;; ret tt
  | SeedStudyLevel i => createStudyLevel i ;; ret tt
  | SeedCourse i => createCourse i ;; ret tt
  | SeedClassIntake i => createClassIntake i ;; ret tt
  | SeedModule i => createModule i ;; ret tt
  | SeedUnit i => createUnit i ;; ret tt
  | SeedTask i => createTask i ;; ret tt
  end.

Inductive Event : Type :=
| Seeded (clock : Clock) (s : Seed)
| Served (clock : Clock) (req : Request).

Definition step (st : MemStorage) (e : Event) : MemStorage :=
  match e with
  | Seeded clock s => fst (snd (seed s clock (st, 0%nat)))
  | Served clock req => snd (serve clock req st)
  end.

Definition run (history : list Event) : MemStorage :=
  fold_left step history new_MemStorage.

Definition reachable (st : MemStorage) : Prop :=
  exists history, st = run history.

(** *** Lookups and listings of the remaining tables *)

Definition getStudyLevel (id : Z) (st : MemStorage) : option StudyLevel.t :=
  JsMap.get id (studyLevelsMap st).

Definition getAllStudyLevels (st : MemStorage) : list StudyLevel.t :=
  JsMap.values (studyLevelsMap st).

Definition getClassIntake (id : Z) (st : MemStorage) : option ClassIntake.t :=
  JsMap.get id (classIntakesMap st).

Definition getAllClassIntakes (st : MemStorage) : list ClassIntake.t :=
  JsMap.values (classIntakesMap st).

Definition getModule (id : Z) (st : MemStorage) : option CourseModule.t :=
  JsMap.get id (modulesMap st).

Definition getAllModules (st : MemStorage) : list CourseModule.t :=
  JsMap.values (modulesMap st).

Definition getAssignment (id : Z) (st : MemStorage) : option Assignment.t :=
  JsMap.get id (assignmentsMap st).

(** *** Listings sorted by date

    [l.sort(compare)]: the sort of an array is stable, and it keeps [a]
    before [b] unless [compare(a, b)] is positive. The comparators of this
    file subtract two dates, so that the result is the one arrangement of
    the array by date in which records of the same date keep their order. *)

Fixpoint sort_insert {A : Type} (compare : A -> A -> Z) (x : A) (l : list A) : list A :=
  match l with
  | [] => [x]
  | y :: l' => if 0 <? compare x y then y :: sort_insert compare x l' else x :: y :: l'
  end.

Fixpoint Array_sort {A : Type} (compare : A -> A -> Z) (l : list A) : list A :=
  match l with
  | [] => []
  | x :: l' => sort_insert compare x (Array_sort compare l')
  end.

Definition getNotificationsByUser (userId : Z) (st : MemStorage) : list Notification.t :=
  Array_sort (fun a b => Notification.createdAt b - Notification.createdAt a)
    (filter (fun notification => Notification.userId notification =? userId)
       (JsMap.values (notificationsMap st))).

Definition getAllActivityLogs (st : MemStorage) : list ActivityLog.t :=
  Array_sort (fun a b => ActivityLog.timestamp b - ActivityLog.timestamp a)
    (JsMap.values (activityLogsMap st)).

Definition getActivityLogsByUser (userId : Z) (st : MemStorage) : list ActivityLog.t :=
  Array_sort (fun a b => ActivityLog.timestamp b - ActivityLog.timestamp a)
    (filter (fun log => ActivityLog.userId log =? userId)
       (JsMap.values (activityLogsMap st))).

(** *** Reports: assessor activity and assessment outcomes *)

Module AssessorActivity.
Record t : Type := mk {
  assessorId : Z; assessorName : string; assessmentsCount : Z;
  approvedCount : Z; rejectedCount : Z; resubmitCount : Z;
  averageTurnaround : float }.
End AssessorActivity.

(** The [let] variables of the loop over one assessor's assessments. *)
Record ActivityTally : Type := mkActivityTally {
  a_approved : Z; a_rejected : Z; a_resubmit : Z; a_totalTurnaround : float }.

(** One iteration of [for (const assessment of assessments)]. *)
Definition tally_assessment (st : MemStorage) (acc : ActivityTally) (assessment : Assessment.t)
  : ActivityTally :=
  let status := Assessment.status assessment in
  let acc :=
    if String.eqb status "approved" then
      mkActivityTally (a_approved acc + 1) (a_rejected acc) (a_resubmit acc)
        (a_totalTurnaround acc)
    else if String.eqb status "rejected" then
      mkActivityTally (a_approved acc) (a_rejected acc + 1) (a_resubmit acc)
        (a_totalTurnaround acc)
    else if String.eqb status "resubmit" then
      mkActivityTally (a_approved acc) (a_rejected acc) (a_resubmit acc + 1)
        (a_totalTurnaround acc)
    else acc in
  match getSubmission (Assessment.submissionId assessment) st with
  | Some submission =>
      mkActivityTally (a_approved acc) (a_rejected acc) (a_resubmit acc)
        (PrimFloat.add (a_totalTurnaround acc) (turnaround assessment submission))
  | None => acc
  end.

(** One iteration of [for (const assessor of assessors)]: the record pushed
    onto [result]. *)
Definition assessor_activity (st : MemStorage) (assessor : User.t) : AssessorActivity.t :=
  let assessments :=
    filter (fun assessment => Assessment.assessorId assessment =? User.id assessor)
      (JsMap.values (assessmentsMap st)) in
  let acc := fold_left (tally_assessment st) assessments (mkActivityTally 0 0 0 0%float) in
  {| AssessorActivity.assessorId := User.id assessor;
     AssessorActivity.assessorName := User.fullName assessor;
     AssessorActivity.assessmentsCount := Z.of_nat (List.length assessments);
     AssessorActivity.approvedCount := a_approved acc;
     AssessorActivity.rejectedCount := a_rejected acc;
     AssessorActivity.resubmitCount := a_resubmit acc;
     AssessorActivity.averageTurnaround :=
       if 0 <? Z.of_nat (List.length assessments)
       then PrimFloat.div (a_totalTurnaround acc)
              (Z_to_number (Z.of_nat (List.length assessments)))
       else 0%float |}.

Definition getAssessorActivityReport (st : MemStorage) : list AssessorActivity.t :=
  map (assessor_activity st) (getUsersByRole "assessor" st).

Module AssessmentOutcome.
Record t : Type := mk {
  unitId : Z; unitName : string; taskId : Z; taskName : string;
  totalSubmissions : Z; approvedCount : Z; rejectedCount : Z;
  resubmitCount : Z; pendingCount : Z }.
End AssessmentOutcome.

(** The [let] variables of the loop over the submissions of one task. *)
Record OutcomeTally : Type := mkOutcomeTally {
  o_approved : Z; o_rejected : Z; o_resubmit : Z; o_pending : Z }.

(** One iteration of [for (const submission of submissions)]. *)
Definition tally_outcome (acc : OutcomeTally) (submission : Submission.t) : OutcomeTally :=
  let status := Submission.status submission in
  if String.eqb status "approved" then
    mkOutcomeTally (o_approved acc + 1) (o_rejected acc) (o_resubmit acc) (o_pending acc)
  else if String.eqb status "rejected" then
    mkOutcomeTally (o_approved acc) (o_rejected acc + 1) (o_resubmit acc) (o_pending acc)
  else if String.eqb status "resubmit" then
    mkOutcomeTally (o_approved acc) (o_rejected acc) (o_resubmit acc + 1) (o_pending acc)
  else if String.eqb status "pending" then
    mkOutcomeTally (o_approved acc) (o_rejected acc) (o_resubmit acc) (o_pending acc + 1)
  else acc.

(** One iteration of [for (const task of tasks)]: the record pushed onto
    [result]. *)
Definition task_outcome (st : MemStorage) (unit : Unit.t) (task : Task.t)
  : AssessmentOutcome.t :=
  let submissions :=
    filter (fun submission => Submission.taskId submission =? Task.id task)
      (JsMap.values (submissionsMap st)) in
  let acc := fold_left tally_outcome submissions (mkOutcomeTally 0 0 0 0) in
  {| AssessmentOutcome.unitId := Unit.id unit;
     AssessmentOutcome.unitName := Unit.name unit;
     AssessmentOutcome.taskId := Task.id task;
     AssessmentOutcome.taskName := Task.name task;
     AssessmentOutcome.totalSubmissions := Z.of_nat (List.length submissions);
     AssessmentOutcome.approvedCount := o_approved acc;
     AssessmentOutcome.rejectedCount := o_rejected acc;
     AssessmentOutcome.resubmitCount := o_resubmit acc;
     AssessmentOutcome.pendingCount := o_pending acc |}.

Definition getAssessmentOutcomesReport (st : MemStorage) : list AssessmentOutcome.t :=
  flat_map (fun unit => map (task_outcome st unit) (getTasksByUnit (Unit.id unit) st))
    (getAllUnits st).

(** [getTraineePerformanceReport] on an array that may hold [undefined], as
    the array of a route does when an assignment carries no [traineeId]:
    [getUser(undefined)] is [undefined]. *)
Definition getTraineePerformanceReport_of (specificTraineeIds : list (option Z))
    (st : MemStorage) : list TraineePerformance :=
  let trainees :=
    match specificTraineeIds with
    | _ :: _ =>
        map (fun id => match id with
                       | Some id => getUser id st
                       | None => None
                       end) specificTraineeIds
    | [] => map Some (getUsersByRole "trainee" st)
    end in
  let validTrainees := filter_Boolean trainees in
  map (trainee_performance st) validTrainees.

(** ** The reading routes

    The [GET] routes of [registerRoutes] other than the portfolio export.
    A path parameter is the number [parseInt] reads in it; where it reads
    none, the handlers behave as they do for a number that no record and no
    user carries. *)

(** [new Set(l)], spread back into an array: the values of [l] in the order
    in which they first occur. *)
Definition Set_has (s : list (option Z)) (x : option Z) : bool :=
  existsb (fun y => match x, y with
                    | Some a, Some b => a =? b
                    | None, None => true
                    | _, _ => false
                    end) s.

Definition new_Set (l : list (option Z)) : list (option Z) :=
  fold_left (fun s x => if Set_has s x then s else s ++ [x]) l [].

Module Get.

Inductive Query : Type :=
| GET_users
| GET_users_id (id : Z)
| GET_units
| GET_units_id_tasks (id : Z)
| GET_assignments
| GET_submissions
| GET_submissions_id (id : Z)
| GET_verifications
| GET_notifications
| GET_activity_logs
| GET_activity_logs_user_id (id : Z)
| GET_reports_trainee_performance
| GET_reports_assessor_activity
| GET_reports_assessment_outcomes.

(** What [res.json] is given. *)
Inductive Body : Type :=
| OfUsers (users : list User.t)
| OfUser (user : User.t)
| OfUnits (units : list Unit.t)
| OfTasks (tasks : list Task.t)
| OfAssignments (assignments : list Assignment.t)
| OfSubmissions (submissions : list Submission.t)
| OfSubmissionDetails (submission : Submission.t) (files : list SubmissionFile.t)
    (assessments : list Assessment.t)
| OfVerifications (verifications : list Verification.t)
| OfNotifications (notifications : list Notification.t)
| OfActivityLogs (logs : list ActivityLog.t)
| OfTraineePerformance (report : list TraineePerformance)
| OfAssessorActivity (report : list AssessorActivity.t)
| OfAssessmentOutcomes (report : list AssessmentOutcome.t).

(** [res.json(body)], or [res.status(status).json({ message })]. *)
Inductive Response : Type :=
| Json (body : Body)
| Refused (status : Z) (message : string).

(** [user] is [req.user], present exactly when [req.isAuthenticated()]. *)
Record Request : Type := mkRequest {
  user : option User.t;
  query : Query }.

Definition isAuthenticated (req : Request) : bool :=
  match user req with
  | Some _ => true
  | None => false
  end.

(** [req.user!] *)
Definition req_user (req : Request) : Promise User.t :=
  match user req with
  | Some u => ret u
  | None => throw "TypeError: Cannot read properties of undefined"
  end.

Definition requireAuth (req : Request) (next : Promise Response) : Promise Response :=
  if negb (isAuthenticated req) then ret (Refused 401 "Unauthorized")
  else next.

Definition requireRole (roles : list string) (req : Request) (next : Promise Response)
  : Promise Response :=
  match user req with
  | Some u =>
      if negb (isAuthenticated req) || negb (existsb (String.eqb (User.role u)) roles)
      then ret (Refused 403 "Forbidden: Insufficient permissions")
      else next
  | None => ret (Refused 403 "Forbidden: Insufficient permissions")
  end.

Definition get_users (req : Request) : Promise Response :=
  try_catch
    (users <- read getAllUsers ;;
     ret (Json (OfUsers users)))
    (fun _ => ret (Refused 500 "Failed to fetch users")).

Definition get_users_id (req : Request) (userId : Z) : Promise Response :=
  try_catch
    (me <- req_user req ;;
     if negb (String.eqb (User.role me) "admin") && negb (User.id me =? userId) then
       ret (Refused 403 "Forbidden: You can only access your own user information")
     else
       user <- read (getUser userId) ;;
       match user with
       | None => ret (Refused 404 "User not found")
       | Some user => ret (Json (OfUser user))
       end)
    (fun _ => ret (Refused 500 "Failed to fetch user")).

Definition get_units (req : Request) : Promise Response :=
  try_catch
    (units <- read getAllUnits ;;
     ret (Json (OfUnits units)))
    (fun _ => ret (Refused 500 "Failed to fetch units")).

Definition get_units_id_tasks (req : Request) (unitId : Z) : Promise Response :=
  try_catch
    (tasks <- read (getTasksByUnit unitId) ;;
     ret (Json (OfTasks tasks)))
    (fun _ => ret (Refused 500 "Failed to fetch tasks")).

Definition get_assignments (req : Request) : Promise Response :=
  try_catch
    (me <- req_user req ;;
     assignments <-
       (if String.eqb (User.role me) "admin" then read getAllAssignments
        else read (getAssignmentsByAssessor (User.id me))) ;;
     ret (Json (OfAssignments assignments)))
    (fun _ => ret (Refused 500 "Failed to fetch assignments")).

Definition get_submissions (req : Request) : Promise Response :=
  try_catch
    (me <- req_user req ;;
     submissions <-
       (if String.eqb (User.role me) "trainee" then
          read (getSubmissionsByTrainee (User.id me))
        else if String.eqb (User.role me) "assessor" then
          read (getSubmissionsByAssessor (User.id me))
        else if String.eqb (User.role me) "internal_verifier"
                || String.eqb (User.role me) "external_verifier"
                || String.eqb (User.role me) "admin" then
          read getAllSubmissions
        else ret []) ;;
     ret (Json (OfSubmissions submissions)))
    (fun _ => ret (Refused 500 "Failed to fetch submissions")).

Definition get_submissions_id (req : Request) (submissionId : Z) : Promise Response :=
  try_catch
    (submission <- read (getSubmission submissionId) ;;
     match submission with
     | None => ret (Refused 404 "Submission not found")
     | Some submission =>
         me <- req_user req ;;
         if String.eqb (User.role me) "trainee"
            && negb (Submission.traineeId submission =? User.id me) then
           ret (Refused 403 "Forbidden: You can only view your own submissions")
         else
           isAssigned <-
             (if String.eqb (User.role me) "assessor" then
                assignments <- read (getAssignmentsByAssessor (User.id me)) ;;
                ret (existsb
                       (fun a =>
                          strict_eq (Assignment.traineeId a) (Submission.traineeId submission)
                          && (Assignment.unitId a =? Submission.unitId submission))
                       assignments)
              else ret true) ;;
           if negb isAssigned then
             ret (Refused 403 "Forbidden: You are not assigned to this trainee")
           else
             files <- read (getSubmissionFiles submissionId) ;;
             assessments <- read (getAssessmentsBySubmission submissionId) ;;
             ret (Json (OfSubmissionDetails submission files assessments))
     end)
    (fun _ => ret (Refused 500 "Failed to fetch submission details")).

Definition get_verifications (req : Request) : Promise Response :=
  try_catch
    (me <- req_user req ;;
     verifications <-
       (if String.eqb (User.role me) "internal_verifier" then
          read (getVerificationsByVerifier (User.id me))
        else if String.eqb (User.role me) "external_verifier" then
          read (getVerificationsByVerifier (User.id me))
        else read getAllVerifications) ;;
     ret (Json (OfVerifications verifications)))
    (fun _ => ret (Refused 500 "Failed to fetch verifications")).

Definition get_notifications (req : Request) : Promise Response :=
  try_catch
    (me <- req_user req ;;
     notifications <- read (getNotificationsByUser (User.id me)) ;;
     ret (Json (OfNotifications notifications)))
    (fun _ => ret (Refused 500 "Failed to fetch notifications")).

Definition get_activity_logs (req : Request) : Promise Response :=
  try_catch
    (logs <- read getAllActivityLogs ;;
     ret (Json (OfActivityLogs logs)))
    (fun _ => ret (Refused 500 "Failed to fetch activity logs")).

Definition get_activity_logs_user_id (req : Request) (userId : Z) : Promise Response :=
  try_catch
    (me <- req_user req ;;
     if negb (String.eqb (User.role me) "admin") && negb (User.id me =? userId) then
       ret (Refused 403 "Forbidden: You can only view your own activity logs")
     else
       logs <- read (getActivityLogsByUser userId) ;;
       ret (Json (OfActivityLogs logs)))
    (fun _ => ret (Refused 500 "Failed to fetch activity logs")).

Definition get_reports_trainee_performance (req : Request) : Promise Response :=
  try_catch
    (me <- req_user req ;;
     if String.eqb (User.role me) "assessor" then
       assignments <- read (getAssignmentsByAssessor (User.id me)) ;;
       let traineeIds := new_Set (map Assignment.traineeId assignments) in
       if (Z.of_nat (List.length traineeIds) =? 0) then
         ret (Json (OfTraineePerformance []))
       else
         report <- read (getTraineePerformanceReport_of traineeIds) ;;
         ret (Json (OfTraineePerformance report))
     else
       report <- read (getTraineePerformanceReport_of []) ;;
       ret (Json (OfTraineePerformance report)))
    (fun _ => ret (Refused 500 "Failed to generate trainee performance report")).

Definition get_reports_assessor_activity (req : Request) : Promise Response :=
  try_catch
    (report <- read getAssessorActivityReport ;;
     ret (Json (OfAssessorActivity report)))
    (fun _ => ret (Refused 500 "Failed to generate assessor activity report")).

Definition get_reports_assessment_outcomes (req : Request) : Promise Response :=
  try_catch
    (report <- read getAssessmentOutcomesReport ;;
     ret (Json (OfAssessmentOutcomes report)))
    (fun _ => ret (Refused 500 "Failed to generate assessment outcomes report")).

(** The middleware chain of each route. *)
Definition route (req : Request) : Promise Response :=
  match query req with
  | GET_users => requireAuth req (requireRole ["admin"] req (get_users req))
  | GET_users_id id => requireAuth req (get_users_id req id)
  | GET_units => requireAuth req (get_units req)
  | GET_units_id_tasks id => requireAuth req (get_units_id_tasks req id)
  | GET_assignments =>
      requireAuth req (requireRole ["admin"; "assessor"] req (get_assignments req))
  | GET_submissions => requireAuth req (get_submissions req)
  | GET_submissions_id id => requireAuth req (get_submissions_id req id)
  | GET_verifications =>
      requireAuth req
        (requireRole ["internal_verifier"; "external_verifier"; "admin"] req
           (get_verifications req))
  | GET_notifications => requireAuth req (get_notifications req)
  | GET_activity_logs => requireAuth req (requireRole ["admin"] req (get_activity_logs req))
  | GET_activity_logs_user_id id => requireAuth req (get_activity_logs_user_id req id)
  | GET_reports_trainee_performance =>
      requireAuth req
        (requireRole ["admin"; "assessor"] req (get_reports_trainee_performance req))
  | GET_reports_assessor_activity =>
      requireAuth req (requireRole ["admin"] req (get_reports_assessor_activity req))
  | GET_reports_assessment_outcomes =>
      requireAuth req
        (requireRole ["admin"; "assessor"; "internal_verifier"; "external_verifier"] req
           (get_reports_assessment_outcomes req))
  end.

(** Serving one request: the response and the store it leaves. *)
Definition serve (clock : Clock) (req : Request) (st : MemStorage) : Response * MemStorage :=
  match route req clock (st, 0%nat) with
  | (Fulfilled res, w) => (res, fst w)
  | (Rejected e, w) => (Refused 500 e, fst w)
  end.

End Get.

(** *** The data of a new store ([seedInitialData])

    [hashed] is what [hashPassword("password")] of [auth.ts] resolves to. *)
Definition seedInitialData (hashed : string) : Promise unit :=
  createUser
    {| InsertUser.username := "admin";
       InsertUser.password := hashed;
       InsertUser.fullName := "Administrator";
       InsertUser.email := "admin@example.com";
       InsertUser.role := "admin";
       InsertUser.isActive := Some true;
       InsertUser.departmentId := None;
       InsertUser.courseId := None;
       InsertUser.classIntakeId := None |} ;;
  engineeringDept <-
    createDepartment
      {| InsertDepartment.name := "Engineering";
         InsertDepartment.code := "ENG";
         InsertDepartment.description :=
           Some "Engineering and technical studies department" |} ;;
  businessDept <-
    createDepartment
      {| InsertDepartment.name := "Business Studies";
         InsertDepartment.code := "BUS";
         InsertDepartment.description := Some "Business and management department" |} ;;
  itDept <-
    createDepartment
      {| InsertDepartment.name := "Information Technology";
         InsertDepartment.code := "IT";
         InsertDepartment.description := Some "IT and computing department" |} ;;
  lv3 <-
    createStudyLevel
      {| InsertStudyLevel.name := "Level 3";
         InsertStudyLevel.description := Some "Basic vocational qualification";
         InsertStudyLevel.order := 1 |} ;;
  lv4 <-
    createStudyLevel
      {| InsertStudyLevel.name := "Level 4 - Artisan";
         InsertStudyLevel.description := Some "Artisan qualification";
         InsertStudyLevel.order := 2 |} ;;
  lv5 <-
    createStudyLevel
      {| InsertStudyLevel.name := "Level 5 - Craft Artisan";
         InsertStudyLevel.description := Some "Craft artisan qualification";
         InsertStudyLevel.order := 3 |} ;;
  lv6 <-
    createStudyLevel
      {| InsertStudyLevel.name := "Level 6 - Diploma";
         InsertStudyLevel.description := Some "Diploma qualification";
         InsertStudyLevel.order := 4 |} ;;
  softwareDev <-
    createCourse
      {| InsertCourse.name := "Software Development";
         InsertCourse.code := "SD101";
         InsertCourse.description := Some "Software development and programming";
         InsertCourse.departmentId := Department.id itDept;
         InsertCourse.studyLevelId := StudyLevel.id lv4 |} ;;
  networkAdmin <-
    createCourse
      {| InsertCourse.name := "Network Administration";
         InsertCourse.code := "NA101";
         InsertCourse.description := Some "Network setup and administration";
         InsertCourse.departmentId := Department.id itDept;
         InsertCourse.studyLevelId := StudyLevel.id lv4 |} ;;
  mechanicalEng <-
    createCourse
      {| InsertCourse.name := "Mechanical Engineering";
         InsertCourse.code := "ME101";
         InsertCourse.description := Some "Mechanical engineering principles and practice";
         InsertCourse.departmentId := Department.id engineeringDept;
         InsertCourse.studyLevelId := StudyLevel.id lv5 |} ;;
  businessAdmin <-
    createCourse
      {| InsertCourse.name := "Business Administration";
         InsertCourse.code := "BA101";
         InsertCourse.description := Some "Business management and administration";
         InsertCourse.departmentId := Department.id businessDept;
         InsertCourse.studyLevelId := StudyLevel.id lv6 |} ;;
  createClassIntake
    {| InsertClassIntake.name := "Software Development Intake 2023";
       InsertClassIntake.startDate := "2023-01-15";
       InsertClassIntake.endDate := "2024-12-15";
       InsertClassIntake.courseId := Course.id softwareDev |} ;;
  createClassIntake
    {| InsertClassIntake.name := "Network Administration Intake 2023";
       InsertClassIntake.startDate := "2023-01-15";
       InsertClassIntake.endDate := "2024-12-15";
       InsertClassIntake.courseId := Course.id networkAdmin |} ;;
  createClassIntake
    {| InsertClassIntake.name := "Mechanical Engineering Intake 2023";
       InsertClassIntake.startDate := "2023-01-15";
       InsertClassIntake.endDate := "2025-12-15";
       InsertClassIntake.courseId := Course.id mechanicalEng |} ;;
  createClassIntake
    {| InsertClassIntake.name := "Business Administration Intake 2023";
       InsertClassIntake.startDate := "2023-01-15";
       InsertClassIntake.endDate := "2025-12-15";
       InsertClassIntake.courseId := Course.id businessAdmin |} ;;
  createModule
    {| InsertCourseModule.name := "Programming Fundamentals";
       InsertCourseModule.code := "PRG101";
       InsertCourseModule.description :=
         Some "Introduction to programming concepts and practices";
       InsertCourseModule.courseId := Course.id softwareDev;
       InsertCourseModule.credits := None |} ;;
  createModule
    {| InsertCourseModule.name := "Database Systems";
       InsertCourseModule.code := "DB101";
       InsertCourseModule.description :=
         Some "Introduction to database design and management";
       InsertCourseModule.courseId := Course.id softwareDev;
       InsertCourseModule.credits := None |} ;;
  createModule
    {| InsertCourseModule.name := "Networking Fundamentals";
       InsertCourseModule.code := "NET101";
       InsertCourseModule.description := Some "Basic networking concepts and protocols";
       InsertCourseModule.courseId := Course.id networkAdmin;
       InsertCourseModule.credits := None |} ;;
  createModule
    {| InsertCourseModule.name := "Engineering Principles";
       InsertCourseModule.code := "ENG101";
       InsertCourseModule.description :=
         Some "Basic engineering principles and applications";
       InsertCourseModule.courseId := Course.id mechanicalEng;
       InsertCourseModule.credits := None |} ;;
  createModule
    {| InsertCourseModule.name := "Business Management";
       InsertCourseModule.code := "BUS101";
       InsertCourseModule.description := Some "Principles of business management";
       InsertCourseModule.courseId := Course.id businessAdmin;
       InsertCourseModule.credits := None |} ;;
  unit1 <-
    createUnit
      {| InsertUnit.name := "Database Design";
         InsertUnit.code := "DB101";
         InsertUnit.description := Some "Introduction to database design principles";
         InsertUnit.courseId := None;
         InsertUnit.credits := None;
         InsertUnit.moduleId := None |} ;;
  unit2 <-
    createUnit
      {| InsertUnit.name := "Programming Fundamentals";
         InsertUnit.code := "PRG101";
         InsertUnit.description := Some "Introduction to programming concepts";
         InsertUnit.courseId := None;
         InsertUnit.credits := None;
         InsertUnit.moduleId := None |} ;;
  unit3 <-
    createUnit
      {| InsertUnit.name := "Networking";
         InsertUnit.code := "NET101";
         InsertUnit.description := Some "Introduction to computer networks";
         InsertUnit.courseId := None;
         InsertUnit.credits := None;
         InsertUnit.moduleId := None |} ;;
  unit4 <-
    createUnit
      {| InsertUnit.name := "Cybersecurity";
         InsertUnit.code := "SEC101";
         InsertUnit.description := Some "Introduction to cybersecurity principles";
         InsertUnit.courseId := None;
         InsertUnit.credits := None;
         InsertUnit.moduleId := None |} ;;
  createTask
    {| InsertTask.unitId := Unit.id unit1;
       InsertTask.name := "ER Modeling";
       InsertTask.description := Some "Create entity-relationship diagrams";
       InsertTask.criteria :=
         Some (JObj [("Entities correctly identified", JBool true);
                     ("Relationships properly defined", JBool true);
                     ("Attributes appropriately placed", JBool true);
                     ("Cardinality correctly specified", JBool true)]) |} ;;
  createTask
    {| InsertTask.unitId := Unit.id unit1;
       InsertTask.name := "Normalization & SQL";
       InsertTask.description := Some "Normalize database to 3NF and write SQL queries";
       InsertTask.criteria :=
         Some (JObj [("Database normalized to 3NF", JBool true);
                     ("SQL DDL statements correct", JBool true);
                     ("SQL DML statements functioning", JBool true);
                     ("Queries retrieve correct data", JBool true)]) |} ;;
  createTask
    {| InsertTask.unitId := Unit.id unit2;
       InsertTask.name := "OOP Concepts";
       InsertTask.description := Some "Implement object-oriented programming concepts";
       InsertTask.criteria :=
         Some (JObj [("Classes properly defined", JBool true);
                     ("Inheritance correctly implemented", JBool true);
                     ("Encapsulation principles followed", JBool true);
                     ("Polymorphism demonstrated", JBool true)]) |} ;;
  createTask
    {| InsertTask.unitId := Unit.id unit2;
       InsertTask.name := "Application Development";
       InsertTask.description := Some "Develop a simple application using OOP";
       InsertTask.criteria :=
         Some (JObj [("Requirements fulfilled", JBool true);
                     ("OOP principles applied", JBool true);
                     ("Code documented", JBool true);
                     ("Error handling implemented", JBool true);
                     ("UI/UX meets standards", JBool true)]) |} ;;
  createTask
    {| InsertTask.unitId := Unit.id unit3;
       InsertTask.name := "Network Protocols";
       InsertTask.description := Some "Analyze and implement network protocols";
       InsertTask.criteria :=
         Some (JObj [("Protocol layers identified", JBool true);
                     ("Protocol functions explained", JBool true);
                     ("Implementation works correctly", JBool true);
                     ("Security considerations addressed", JBool true)]) |} ;;
  createTask
    {| InsertTask.unitId := Unit.id unit4;
       InsertTask.name := "Security Principles";
       InsertTask.description := Some "Explain and implement security principles";
       InsertTask.criteria :=
         Some (JObj [("CIA triad explained", JBool true);
                     ("Threat modeling performed", JBool true);
                     ("Security controls identified", JBool true);
                     ("Implementation secure", JBool true)]) |} ;;
  ret tt.

(** [new MemStorage()]: the empty tables, then the seeding. *)
Definition constructed (hashed : string) (clock : Clock) : MemStorage :=
  fst (snd (seedInitialData hashed clock (new_MemStorage, 0%nat))).

(** * Specification vocabulary

    The notions the properties are stated with; none of them is part of
    the program. *)

(** ** What a computation preserves

    [preserves R m]: whatever store [m] starts from, the store it leaves is
    [R]-related to it, whether [m] fulfils or rejects. *)

Definition preserves (R : MemStorage -> MemStorage -> Prop) {A : Type} (m : Promise A)
  : Prop :=
  forall clock st n, R st (fst (snd (m clock (st, n)))).

(** ** Well-formed stores: every key lies below its counter *)

Definition wf_table {V : Type} (t : Table V) : Prop :=
  JsMap.below (counter t) (rows t).

Definition wf (st : MemStorage) : Prop :=
  wf_table (users st) /\ wf_table (departments st) /\ wf_table (studyLevels st) /\
  wf_table (courses st) /\ wf_table (classIntakes st) /\ wf_table (modules st) /\
  wf_table (units st) /\ wf_table (tasks st) /\ wf_table (assignments st) /\
  wf_table (submissions st) /\ wf_table (submissionFiles st) /\
  wf_table (assessments st) /\ wf_table (verifications st) /\
  wf_table (notifications st) /\ wf_table (activityLogs st).

(** [const id = this.counter++; this.map.set(id, v)] *)
Definition push {V : Type} (v : Z -> V) (t : Table V) : Table V :=
  mkTable (JsMap.set (counter t) (v (counter t)) (rows t)) (counter t + 1).

(** [this.map.set(id, v)] *)
Definition put {V : Type} (id : Z) (v : V) (t : Table V) : Table V :=
  mkTable (JsMap.set id v (rows t)) (counter t).

Definition keeps_wf (st st' : MemStorage) : Prop := wf st -> wf st'.

(** ** The organisational hierarchy *)

Definition same_org (st st' : MemStorage) : Prop :=
  courses st' = courses st /\ classIntakes st' = classIntakes st /\
  modules st' = modules st.

(** The records the [create] methods returned along a history, oldest first. *)
Fixpoint created {A : Type} (f : Event -> MemStorage -> list A) (st : MemStorage)
    (history : list Event) : list A :=
  match history with
  | [] => []
  | e :: history' => f e st ++ created f (step st e) history'
  end.

Definition fulfilled {A : Type} (r : Settled A * (MemStorage * nat)) : list A :=
  match fst r with
  | Fulfilled a => [a]
  | Rejected _ => []
  end.

Definition course_created (e : Event) (st : MemStorage) : list Course.t :=
  match e with
  | Seeded clock (SeedCourse i) => fulfilled (createCourse i clock (st, 0%nat))
  | _ => []
  end.

Definition classIntake_created (e : Event) (st : MemStorage) : list ClassIntake.t :=
  match e with
  | Seeded clock (SeedClassIntake i) => fulfilled (createClassIntake i clock (st, 0%nat))
  | _ => []
  end.

Definition module_created (e : Event) (st : MemStorage) : list CourseModule.t :=
  match e with
  | Seeded clock (SeedModule i) => fulfilled (createModule i clock (st, 0%nat))
  | _ => []
  end.

(** ** A small world for concrete runs *)

Module Demo.

Definition clock : Clock := fun n => 1000 * Z.of_nat n.

Definition account (role : string) : InsertUser.t :=
  InsertUser.mk role "hash" role "user@example.com" role None None None None.

Definition member (id : Z) (role : string) : User.t :=
  User.mk id role "hash" role "user@example.com" role None None None 0 true.

Definition trainee : User.t := member 1 "trainee".
Definition assessor : User.t := member 2 "assessor".
Definition internal : User.t := member 3 "internal_verifier".
Definition external : User.t := member 4 "external_verifier".
Definition admin : User.t := member 5 "admin".
Definition other_assessor : User.t := member 6 "assessor".

Definition sent (u : User.t) (c : Call) : Event := Served clock (mkRequest (Some u) None c).

Definition evidence : MulterFile.t :=
  MulterFile.mk "files" "report.pdf" "application/pdf" "uploads/1-report.pdf" 2048.

Definition submission_form (unitId : Z) : json :=
  JObj [("taskId", JNum 1); ("unitId", JNum unitId); ("title", JStr "ER model")].

Definition assessment_form (submissionId : Z) (status : string) : json :=
  JObj [("submissionId", JNum submissionId); ("assessorId", JNum 0);
        ("status", JStr status)].

Definition verification_form (assessmentId : Z) (status : string) : json :=
  JObj [("assessmentId", JNum assessmentId); ("verifierId", JNum 0);
        ("verifierType", JStr "internal"); ("status", JStr status)].

(** Six accounts, one assignment (assessor 2, trainee 1, unit 7), and one
    submission of trainee 1 for unit 7. *)
Definition history : list Event :=
  [ Seeded clock (SeedUser (account "trainee"));
    Seeded clock (SeedUser (account "assessor"));
    Seeded clock (SeedUser (account "internal_verifier"));
    Seeded clock (SeedUser (account "external_verifier"));
    Seeded clock (SeedUser (account "admin"));
    Seeded clock (SeedUser (account "assessor"));
    sent admin
      (POST_assignments
         (JObj [("classIntakeId", JNum 1); ("assessorId", JNum 2); ("unitId", JNum 7);
                ("traineeId", JNum 1)]));
    sent trainee (POST_submissions (Some (submission_form 7)) [evidence]) ].

Definition store : MemStorage := run history.

End Demo.

(** ** Assessing without an assignment *)

(** The check of [POST /api/assessments] on the assessor's assignments. *)
Definition assigned (assessorId : Z) (submission : Submission.t) (a : Assignment.t) : Prop :=
  Assignment.assessorId a = assessorId /\
  Assignment.traineeId a = Some (Submission.traineeId submission) /\
  Assignment.unitId a = Submission.unitId submission.

(** ** Verifying an assessment that does not exist *)

(** The record [POST /api/verifications] hands to [createVerification]:
    [{...req.body, verifierId, verifierType}] with its id and date. *)
Definition verification_by (me : User.t) (b : InsertVerification.t) (id date : Z)
  : Verification.t :=
  {| Verification.id := id;
     Verification.assessmentId := InsertVerification.assessmentId b;
     Verification.verifierId := User.id me;
     Verification.verifierType :=
       if String.eqb (User.role me) "internal_verifier" then "internal" else "external";
     Verification.status := InsertVerification.status b;
     Verification.comments := InsertVerification.comments b;
     Verification.verificationDate := date |}.

Definition is_verifier (me : User.t) : Prop :=
  User.role me = "internal_verifier" \/ User.role me = "external_verifier".

(** ** Loops that create one record per element *)

(** The table after [for (const x of l) create(mk x)], where the iteration
    for [x] starts at clock reading [n], takes [d] readings and stores
    [mk x n id] under the next id. *)
Fixpoint push_all {A V : Type} (mk : A -> nat -> Z -> V) (d : nat) (l : list A) (n : nat)
    (t : Table V) : Table V :=
  match l with
  | [] => t
  | x :: l' => push_all mk d l' (d + n) (push (mk x n) t)
  end.

(** The rows such a loop appends, the first under [id]. *)
Fixpoint pushed {A V : Type} (mk : A -> nat -> Z -> V) (d : nat) (l : list A) (n : nat)
    (id : Z) : list (Z * V) :=
  match l with
  | [] => []
  | x :: l' => (id, mk x n id) :: pushed mk d l' (d + n) (id + 1)
  end.

(** A collection whose updates compose. *)
Definition lawful {V : Type} (c : Coll V) : Prop :=
  forall f g st, upd c f (upd c g st) = upd c (fun t => f (g t)) st.

(** ** Submitting evidence *)

(** The record [POST /api/submissions] stores for an uploaded file; the
    iteration reads the clock twice and keeps the second reading. *)
Definition stored_file (submissionId : Z) (clock : Clock) (file : MulterFile.t) (n : nat)
    (id : Z) : SubmissionFile.t :=
  {| SubmissionFile.id := id;
     SubmissionFile.submissionId := submissionId;
     SubmissionFile.fileName := MulterFile.originalname file;
     SubmissionFile.fileType := MulterFile.mimetype file;
     SubmissionFile.filePath := MulterFile.path file;
     SubmissionFile.fileSize := MulterFile.size file;
     SubmissionFile.uploadDate := clock (S n) |}.

(** The submission it stores for a validated form. *)
Definition stored_submission (me : User.t) (parsed : InsertSubmission.t) (id date : Z)
  : Submission.t :=
  {| Submission.id := id;
     Submission.traineeId := User.id me;
     Submission.taskId := InsertSubmission.taskId parsed;
     Submission.unitId := InsertSubmission.unitId parsed;
     Submission.title := InsertSubmission.title parsed;
     Submission.description := InsertSubmission.description parsed;
     Submission.submissionDate := date;
     Submission.status := "pending" |}.

(** ** File intake *)


(** The claim's condition on one uploaded file. *)
Definition acceptable (file : MulterFile.t) : Prop :=
  In (MulterFile.mimetype file) allowedTypes /\
  MulterFile.size file <= 20 * 1024 * 1024.


Definition upload_of (size : Z) : MulterFile.t :=
  MulterFile.mk "files" "video.mp4" "video/mp4" "uploads/2-video.mp4" size.

(** ** The trainee-performance report *)





(** ** The read flag of a notification *)

(** Whatever is read in the later store was already read in the earlier one. *)
Definition no_new_read (st st' : MemStorage) : Prop :=
  forall id n',
    getNotification id st' = Some n' -> Notification.isRead n' = true ->
    exists n, getNotification id st = Some n /\ Notification.isRead n = true.

(** The request that marks notification [id] as read, sent by its addressee. *)
Definition marks_read (e : Event) (id : Z) (st : MemStorage) : Prop :=
  exists clock me addr n,
    e = Served clock (mkRequest (Some me) addr (POST_notifications_read id)) /\
    getNotification id st = Some n /\
    Notification.userId n = User.id me.

(** ** Assessing a submission *)

(** The records [POST /api/assessments] creates. *)
Definition assessment_by (me : User.t) (b : InsertAssessment.t) (id date : Z) : Assessment.t :=
  {| Assessment.id := id;
     Assessment.submissionId := InsertAssessment.submissionId b;
     Assessment.assessorId := User.id me;
     Assessment.feedback := InsertAssessment.feedback b;
     Assessment.criteria := nullish (InsertAssessment.criteria b) (JObj []);
     Assessment.status := InsertAssessment.status b;
     Assessment.assessmentDate := date |}.

Definition trainee_notice (submission : Submission.t) (assessmentId date id : Z)
  : Notification.t :=
  {| Notification.id := id;
     Notification.userId := Submission.traineeId submission;
     Notification.title := "Assessment Feedback Available";
     Notification.message :=
       String.append "Your submission for "
         (String.append (Submission.title submission) " has been assessed");
     Notification.isRead := false;
     Notification.createdAt := date;
     Notification.type := "assessment";
     Notification.linkedItemId := Some assessmentId |}.

Definition verifier_notice (assessmentId : Z) (clock : Clock) (verifier : User.t) (n : nat)
    (id : Z) : Notification.t :=
  {| Notification.id := id;
     Notification.userId := User.id verifier;
     Notification.title := "Verification Required";
     Notification.message := "A new assessment needs verification";
     Notification.isRead := false;
     Notification.createdAt := clock n;
     Notification.type := "verification";
     Notification.linkedItemId := Some assessmentId |}.

(** The status the handler writes on the submission. *)
Definition mirrored_status (status : string) : string :=
  if String.eqb status "approved" then "approved"
  else if String.eqb status "rejected" then "rejected"
  else "resubmit".

Definition isAssigned (me : User.t) (submission : Submission.t) (st : MemStorage) : bool :=
  existsb
    (fun a =>
       strict_eq (Assignment.traineeId a) (Submission.traineeId submission)
       && (Assignment.unitId a =? Submission.unitId submission))
    (getAssignmentsByAssessor (User.id me) st).

(** What a served [POST /api/assessments] amounts to: either it is refused
    and the store stays, or the assessment is created. *)
Definition assessed (clock : Clock) (me : User.t) (b : InsertAssessment.t)
    (submission : Submission.t) (st st' : MemStorage) (res : Response) : Prop :=
  let id := assessmentIdCounter st in
  res = Json 201 (OfAssessment (assessment_by me b id (clock 0%nat))) /\
  assessments st' = push (fun id => assessment_by me b id (clock 0%nat)) (assessments st) /\
  submissions st'
    = put (InsertAssessment.submissionId b)
        (submission_with_status submission (mirrored_status (InsertAssessment.status b)))
        (submissions st) /\
  notifications st'
    = (if String.eqb (InsertAssessment.status b) "approved"
       then push_all (verifier_notice id clock) 1
              (getUsersByRole "internal_verifier" st) 2
       else fun t => t)
        (push (trainee_notice submission id (clock 1%nat)) (notifications st)) /\
  users st' = users st.

(** ** The status of a submission mirrors its latest assessment *)

(** The element created last: the last one in creation order. *)
Definition most_recent {A : Type} (l : list A) : option A := hd_error (rev l).

(** The status the claim expects of a submission. *)
Definition expected_status (assessments : list Assessment.t) : string :=
  match most_recent assessments with
  | Some assessment => Assessment.status assessment
  | None => "pending"
  end.

Definition mirrors (st : MemStorage) (submission : Submission.t) : Prop :=
  Submission.status submission
  = expected_status (getAssessmentsBySubmission (Submission.id submission) st).

(** The assessments of a submission, read off the table. *)
Definition assessments_of (ass : Table Assessment.t) (submissionId : Z) : list Assessment.t :=
  filter (fun a => Assessment.submissionId a =? submissionId) (JsMap.values (rows ass)).

(** The invariant of the two tables behind the claim. *)
Record work_inv (sbs : Table Submission.t) (ass : Table Assessment.t) : Prop := mkWorkInv {
  inv_submissions_wf : wf_table sbs;
  inv_assessments_wf : wf_table ass;
  inv_keys : NoDup (JsMap.keys (rows sbs));
  inv_ids : forall k s, In (k, s) (rows sbs) -> Submission.id s = k;
  inv_refs : forall a, In a (JsMap.values (rows ass)) ->
                       Assessment.submissionId a < counter sbs;
  inv_mirror : forall k s, In (k, s) (rows sbs) ->
                           Submission.status s = expected_status (assessments_of ass k) }.

Definition same_work (st st' : MemStorage) : Prop :=
  submissions st' = submissions st /\ assessments st' = assessments st.

Definition same_assessments (st st' : MemStorage) : Prop :=
  assessments st' = assessments st.

Definition store_inv (st : MemStorage) : Prop := work_inv (submissions st) (assessments st).

(** The demo store after two assessments of submission 1: first
    [resubmit], then [approved]. *)
Definition assessed_twice : list Event :=
  Demo.history
  ++ [ Demo.sent Demo.assessor (POST_assessments (Demo.assessment_form 1 "resubmit"));
       Demo.sent Demo.assessor (POST_assessments (Demo.assessment_form 1 "approved")) ].

(** ** Verifying an assessment that exists *)

Definition assessor_notice (assessment : Assessment.t) (verificationId date id : Z)
  : Notification.t :=
  {| Notification.id := id;
     Notification.userId := Assessment.assessorId assessment;
     Notification.title := "Verification Completed";
     Notification.message := "Your assessment has been verified";
     Notification.isRead := false;
     Notification.createdAt := date;
     Notification.type := "verification";
     Notification.linkedItemId := Some verificationId |}.

Definition trainee_issue_notice (submission : Submission.t) (verificationId date id : Z)
  : Notification.t :=
  {| Notification.id := id;
     Notification.userId := Submission.traineeId submission;
     Notification.title := "Assessment Verification Issue";
     Notification.message := "There was an issue with your assessment verification";
     Notification.isRead := false;
     Notification.createdAt := date;
     Notification.type := "verification";
     Notification.linkedItemId := Some verificationId |}.

Definition external_notice (verificationId : Z) (clock : Clock) (verifier : User.t) (n : nat)
    (id : Z) : Notification.t :=
  {| Notification.id := id;
     Notification.userId := User.id verifier;
     Notification.title := "External Verification Required";
     Notification.message := "An assessment is ready for external verification";
     Notification.isRead := false;
     Notification.createdAt := clock n;
     Notification.type := "verification";
     Notification.linkedItemId := Some verificationId |}.

(** ** Listings sorted by date *)

(** The comparator [(a, b) => date(b) - date(a)]. *)
Definition newest_first {A : Type} (date : A -> Z) (a b : A) : Z := date b - date a.

(** The records of [l] dated [d], in the order of [l]. *)
Definition dated {A : Type} (date : A -> Z) (d : Z) (l : list A) : list A :=
  filter (fun x => date x =? d) l.

(** ** Identifiers *)

(** [keeps I]: a computation that starts in a store with [I] leaves one
    with [I]. *)
Definition keeps (I : MemStorage -> Prop) (st st' : MemStorage) : Prop := I st -> I st'.

(** The ids [1, 2, ..., n]. *)
Definition first_ids (n : nat) : list Z := map Z.of_nat (seq 1 n).

(** A table whose keys are [1, ..., n] in this order, whose counter stands
    at [n + 1], and in which every record is stored under its own id. *)
Record tidy_table {V : Type} (id : V -> Z) (t : Table V) : Prop := mkTidy {
  tidy_keys : JsMap.keys (rows t) = first_ids (List.length (rows t));
  tidy_counter : counter t = Z.of_nat (List.length (rows t)) + 1;
  tidy_ids : Forall (fun kv => id (snd kv) = fst kv) (rows t) }.

Definition tidy (st : MemStorage) : Prop :=
  tidy_table User.id (users st) /\ tidy_table Department.id (departments st) /\
  tidy_table StudyLevel.id (studyLevels st) /\ tidy_table Course.id (courses st) /\
  tidy_table ClassIntake.id (classIntakes st) /\ tidy_table CourseModule.id (modules st) /\
  tidy_table Unit.id (units st) /\ tidy_table Task.id (tasks st) /\
  tidy_table Assignment.id (assignments st) /\ tidy_table Submission.id (submissions st) /\
  tidy_table SubmissionFile.id (submissionFiles st) /\
  tidy_table Assessment.id (assessments st) /\
  tidy_table Verification.id (verifications st) /\
  tidy_table Notification.id (notifications st) /\
  tidy_table ActivityLog.id (activityLogs st).

(** ** The reading routes *)

(** The records of each kind that a response carries. *)
Definition submissions_in (res : Get.Response) : list Submission.t :=
  match res with
  | Get.Json (Get.OfSubmissions l) => l
  | Get.Json (Get.OfSubmissionDetails s _ _) => [s]
  | _ => []
  end.

Definition users_in (res : Get.Response) : list User.t :=
  match res with
  | Get.Json (Get.OfUsers l) => l
  | Get.Json (Get.OfUser u) => [u]
  | _ => []
  end.

Definition logs_in (res : Get.Response) : list ActivityLog.t :=
  match res with
  | Get.Json (Get.OfActivityLogs l) => l
  | _ => []
  end.

Definition notifications_in (res : Get.Response) : list Notification.t :=
  match res with
  | Get.Json (Get.OfNotifications l) => l
  | _ => []
  end.

Definition verifications_in (res : Get.Response) : list Verification.t :=
  match res with
  | Get.Json (Get.OfVerifications l) => l
  | _ => []
  end.

Definition assignments_in (res : Get.Response) : list Assignment.t :=
  match res with
  | Get.Json (Get.OfAssignments l) => l
  | _ => []
  end.

(** What the caller [me] asks with [q]. *)
Definition asks (clock : Clock) (me : User.t) (q : Get.Query) (st : MemStorage)
  : Get.Response :=
  fst (Get.serve clock (Get.mkRequest (Some me) q) st).

(** ** Reports *)

(** The statuses a stored submission takes. *)
Definition stored_statuses : list string := ["pending"; "approved"; "rejected"; "resubmit"].

(** Every submission and every assessment carries a status of its kind, and
    every assessment names a stored submission. *)
Record graded (sbs : Table Submission.t) (ass : Table Assessment.t) : Prop := mkGraded {
  graded_submissions :
    Forall (fun s => In (Submission.status s) stored_statuses) (JsMap.values (rows sbs));
  graded_assessments :
    Forall (fun a => In (Assessment.status a) assessment_statuses) (JsMap.values (rows ass));
  graded_refs :
    Forall (fun a => In (Assessment.submissionId a) (JsMap.keys (rows sbs)))
      (JsMap.values (rows ass)) }.



(** ** Who writes what *)

(** The caller holds one of [roles]. *)
Definition has_role (req : Request) (roles : list string) : Prop :=
  exists me, user req = Some me /\ In (User.role me) roles.

Definition same_catalogue (st st' : MemStorage) : Prop :=
  departments st' = departments st /\ studyLevels st' = studyLevels st /\
  courses st' = courses st /\ classIntakes st' = classIntakes st /\
  modules st' = modules st.

Definition same_administration (st st' : MemStorage) : Prop :=
  users st' = users st /\ units st' = units st /\ tasks st' = tasks st /\
  assignments st' = assignments st.

Definition same_submissionFiles (st st' : MemStorage) : Prop :=
  submissionFiles st' = submissionFiles st.

Definition same_submissions (st st' : MemStorage) : Prop :=
  submissions st' = submissions st.

Definition same_verifications (st st' : MemStorage) : Prop :=
  verifications st' = verifications st.

(** ** Requests that fail *)

(** A response of status 200 or 201, or a download. *)
Definition succeeded (res : Response) : bool :=
  match res with
  | Json status _ => (status =? 200) || (status =? 201)
  | Download _ => true
  | NextError _ => false
  end.

(** ** The activity log *)

(** The entry [logActivity(req, userId, action, details)] writes. *)
Definition log_entry (userId : Z) (addr : option string) (action : string) (details : json)
    (date id : Z) : ActivityLog.t :=
  {| ActivityLog.id := id;
     ActivityLog.userId := userId;
     ActivityLog.action := action;
     ActivityLog.details := details;
     ActivityLog.timestamp := date;
     ActivityLog.ipAddress := addr |}.

Definition same_logs (st st' : MemStorage) : Prop := activityLogs st' = activityLogs st.

(** A handler that logs when it succeeds, once, and not when it fails. *)
Definition audited (userId : Z) (addr : option string) (m : Promise Response) : Prop :=
  forall clock st n,
    match m clock (st, n) with
    | (Fulfilled res, w) =>
        (succeeded res = false /\ same_logs st (fst w)) \/
        (succeeded res = true /\
         exists action details date,
           activityLogs (fst w)
           = push (log_entry userId addr action details date) (activityLogs st))
    | (Rejected _, w) => same_logs st (fst w)
    end.

(** What follows the log entry: a success, and no further entry. *)
Definition crowned (m : Promise Response) : Prop :=
  forall clock w,
    exists res w',
      m clock w = (Fulfilled res, w') /\ succeeded res = true /\ same_logs (fst w) (fst w').

(** ** Records persist *)

(** Whatever [t] holds under a key, [t'] holds under it. *)
Definition extends {V : Type} (t t' : Table V) : Prop :=
  forall k v, JsMap.get k (rows t) = Some v -> JsMap.get k (rows t') = Some v.

(** The tables whose records are written once. *)
Definition keeps_records (st st' : MemStorage) : Prop :=
  extends (departments st) (departments st') /\
  extends (studyLevels st) (studyLevels st') /\
  extends (courses st) (courses st') /\
  extends (classIntakes st) (classIntakes st') /\
  extends (modules st) (modules st') /\
  extends (units st) (units st') /\
  extends (tasks st) (tasks st') /\
  extends (assignments st) (assignments st') /\
  extends (submissionFiles st) (submissionFiles st') /\
  extends (assessments st) (assessments st') /\
  extends (verifications st) (verifications st') /\
  extends (activityLogs st) (activityLogs st').

Definition grows (st st' : MemStorage) : Prop :=
  wf st ->
  wf st' /\ keeps_records st st' /\ extends (notifications st) (notifications st').

(** [{...user, isActive: false}] *)
Definition deactivated (user : User.t) : User.t :=
  {| User.id := User.id user; User.username := User.username user;
     User.password := User.password user; User.fullName := User.fullName user;
     User.email := User.email user; User.role := User.role user;
     User.departmentId := User.departmentId user;
     User.courseId := User.courseId user;
     User.classIntakeId := User.classIntakeId user;
     User.createdAt := User.createdAt user; User.isActive := false |}.

Definition same_users (st st' : MemStorage) : Prop := users st' = users st.

(** ** References *)

(** Every submission file names a stored submission. *)
Definition filed (sbs : Table Submission.t) (sfs : Table SubmissionFile.t) : Prop :=
  Forall (fun f => In (SubmissionFile.submissionId f) (JsMap.keys (rows sbs)))
    (JsMap.values (rows sfs)).

Definition same_evidence (st st' : MemStorage) : Prop :=
  submissions st' = submissions st /\ submissionFiles st' = submissionFiles st.

(** ** What the workflow routes store *)



(** The record [createAssignment] stores for a validated body. *)
Definition stored_assignment (b : InsertAssignment.t) (date id : Z) : Assignment.t :=
  {| Assignment.id := id;
     Assignment.classIntakeId := InsertAssignment.classIntakeId b;
     Assignment.assessorId := InsertAssignment.assessorId b;
     Assignment.unitId := InsertAssignment.unitId b;
     Assignment.createdAt := date;
     Assignment.traineeId := InsertAssignment.traineeId b |}.

(** The notification [POST /api/assignments] sends to the assessor. *)
Definition assignment_notice (assignment : Assignment.t) (date id : Z) : Notification.t :=
  {| Notification.id := id;
     Notification.userId := Assignment.assessorId assignment;
     Notification.title := "New Trainee Assigned";
     Notification.message :=
       String.append "You have been assigned to a new trainee for Unit "
         (show_Z (Assignment.unitId assignment));
     Notification.isRead := false;
     Notification.createdAt := date;
     Notification.type := "system";
     Notification.linkedItemId := Some (Assignment.id assignment) |}.

(** The records [createUnit] and [createTask] store for a validated body. *)
Definition stored_unit (b : InsertUnit.t) (id : Z) : Unit.t :=
  {| Unit.id := id;
     Unit.name := InsertUnit.name b;
     Unit.code := InsertUnit.code b;
     Unit.courseId := InsertUnit.courseId b;
     Unit.description := InsertUnit.description b;
     Unit.credits := InsertUnit.credits b;
     Unit.moduleId := InsertUnit.moduleId b |}.

Definition stored_task (b : InsertTask.t) (id : Z) : Task.t :=
  {| Task.id := id;
     Task.unitId := InsertTask.unitId b;
     Task.name := InsertTask.name b;
     Task.description := InsertTask.description b;
     Task.criteria := nullish (InsertTask.criteria b) (JObj []) |}.

(** ** The data of a new store *)

(** [st'] comes from [st] by seeding steps. *)
Definition seeded (st st' : MemStorage) : Prop :=
  exists seeds : list (Clock * Seed),
    st' = fold_left step (map (fun s => Seeded (fst s) (snd s)) seeds) st.

(** * Properties *)

(** ** Facts about [JsMap] *)

Module JsMapFacts.

Lemma get_set_same {V : Type} (k : Z) (v : V) (m : JsMap.t V) :
  JsMap.get k (JsMap.set k v m) = Some v.
Proof.
  induction m as [|[k' v'] m IH]; simpl.
  - rewrite Z.eqb_refl. reflexivity.
  - destruct (k' =? k) eqn:E; simpl.
    + rewrite Z.eqb_refl. reflexivity.
    + rewrite E. exact IH.
Qed.

Lemma get_set_other {V : Type} (k k' : Z) (v : V) (m : JsMap.t V) :
  k <> k' -> JsMap.get k' (JsMap.set k v m) = JsMap.get k' m.
Proof.
  intros Hne. induction m as [|[k0 v0] m IH]; simpl.
  - destruct (k =? k') eqn:E; [apply Z.eqb_eq in E; contradiction | reflexivity].
  - destruct (k0 =? k) eqn:E; simpl.
    + apply Z.eqb_eq in E. subst k0.
      destruct (k =? k') eqn:E'; [apply Z.eqb_eq in E'; contradiction | reflexivity].
    + rewrite IH. reflexivity.
Qed.

Lemma set_fresh {V : Type} (k : Z) (v : V) (m : JsMap.t V) :
  JsMap.below k m -> JsMap.set k v m = m ++ [(k, v)].
Proof.
  unfold JsMap.below, JsMap.keys.
  induction m as [|[k' v'] m IH]; simpl; intros H.
  - reflexivity.
  - inversion H as [|? ? Hk Hm]; subst. simpl in Hk.
    destruct (k' =? k) eqn:E; [apply Z.eqb_eq in E; lia |].
    rewrite IH by assumption. reflexivity.
Qed.

Lemma below_app {V : Type} (n : Z) (m1 m2 : JsMap.t V) :
  JsMap.below n (m1 ++ m2) <-> JsMap.below n m1 /\ JsMap.below n m2.
Proof.
  unfold JsMap.below, JsMap.keys. rewrite map_app. apply Forall_app.
Qed.

Lemma below_mono {V : Type} (n n' : Z) (m : JsMap.t V) :
  n <= n' -> JsMap.below n m -> JsMap.below n' m.
Proof.
  unfold JsMap.below. intros Hle H.
  eapply Forall_impl; [| exact H]. simpl. intros; lia.
Qed.

Lemma below_set {V : Type} (n k : Z) (v : V) (m : JsMap.t V) :
  k < n -> JsMap.below n m -> JsMap.below n (JsMap.set k v m).
Proof.
  unfold JsMap.below, JsMap.keys. intros Hk.
  induction m as [|[k' v'] m IH]; simpl; intros H.
  - constructor; [exact Hk | constructor].
  - inversion H; subst. destruct (k' =? k); simpl; constructor; auto.
Qed.

Lemma get_below {V : Type} (n k : Z) (m : JsMap.t V) :
  JsMap.below n m -> n <= k -> JsMap.get k m = None.
Proof.
  unfold JsMap.below, JsMap.keys.
  induction m as [|[k' v'] m IH]; simpl; intros H Hle.
  - reflexivity.
  - inversion H as [|? ? Hk Hm]; subst. simpl in Hk.
    destruct (k' =? k) eqn:E; [apply Z.eqb_eq in E; lia | auto].
Qed.

Lemma get_In {V : Type} (k : Z) (v : V) (m : JsMap.t V) :
  JsMap.get k m = Some v -> In (k, v) m.
Proof.
  induction m as [|[k' v'] m IH]; simpl; intros H.
  - discriminate.
  - destruct (k' =? k) eqn:E.
    + apply Z.eqb_eq in E. inversion H; subst. left; reflexivity.
    + right; auto.
Qed.

Lemma get_app_l {V : Type} (k : Z) (v : V) (m1 m2 : JsMap.t V) :
  JsMap.get k m1 = Some v -> JsMap.get k (m1 ++ m2) = Some v.
Proof.
  induction m1 as [|[k' v'] m1 IH]; simpl; intros H.
  - discriminate.
  - destruct (k' =? k); auto.
Qed.

Lemma values_app {V : Type} (m1 m2 : JsMap.t V) :
  JsMap.values (m1 ++ m2) = JsMap.values m1 ++ JsMap.values m2.
Proof. apply map_app. Qed.

(** Replacing the value of a present key: the other entries stay, in place. *)
Lemma set_present {V : Type} (k : Z) (v v0 : V) (m : JsMap.t V) :
  JsMap.get k m = Some v0 ->
  exists m1 m2,
    m = m1 ++ (k, v0) :: m2 /\ JsMap.set k v m = m1 ++ (k, v) :: m2 /\
    JsMap.get k m1 = None.
Proof.
  induction m as [|[k' v'] m IH]; simpl; intros H.
  - discriminate.
  - destruct (k' =? k) eqn:E.
    + apply Z.eqb_eq in E. inversion H; subst.
      exists [], m. repeat split; reflexivity.
    + destruct (IH H) as (m1 & m2 & -> & -> & Hn).
      exists ((k', v') :: m1), m2. simpl. rewrite E. repeat split; assumption.
Qed.

End JsMapFacts.

(** ** What a computation preserves

    [preserves R m]: whatever store [m] starts from, the store it leaves is
    [R]-related to it, whether [m] fulfils or rejects. *)

Section Preservation.

Variable R : MemStorage -> MemStorage -> Prop.
Hypothesis R_refl : forall st, R st st.
Hypothesis R_trans : forall st1 st2 st3, R st1 st2 -> R st2 st3 -> R st1 st3.

Lemma preserves_ret {A : Type} (a : A) : preserves R (ret a).
Proof. intros clock st n. apply R_refl. Qed.

Lemma preserves_throw {A : Type} (e : string) : preserves R (@throw A e).
Proof. intros clock st n. apply R_refl. Qed.

Lemma preserves_read {A : Type} (f : MemStorage -> A) : preserves R (read f).
Proof. intros clock st n. apply R_refl. Qed.

Lemma preserves_new_Date : preserves R new_Date.
Proof. intros clock st n. apply R_refl. Qed.

Lemma preserves_bind {A B : Type} (m : Promise A) (k : A -> Promise B) :
  preserves R m -> (forall a, preserves R (k a)) -> preserves R (bind m k).
Proof.
  intros Hm Hk clock st n. unfold bind.
  specialize (Hm clock st n).
  destruct (m clock (st, n)) as [[a|e] [st1 n1]]; simpl in *.
  - eapply R_trans; [exact Hm | apply Hk].
  - exact Hm.
Qed.

Lemma preserves_try_catch {A : Type} (m : Promise A) (h : string -> Promise A) :
  preserves R m -> (forall e, preserves R (h e)) -> preserves R (try_catch m h).
Proof.
  intros Hm Hh clock st n. unfold try_catch.
  specialize (Hm clock st n).
  destruct (m clock (st, n)) as [[a|e] [st1 n1]]; simpl in *.
  - exact Hm.
  - eapply R_trans; [exact Hm | apply Hh].
Qed.

Lemma preserves_for_of {A : Type} (l : list A) (body : A -> Promise unit) :
  (forall x, preserves R (body x)) -> preserves R (for_of l body).
Proof.
  intros Hb. induction l as [|x l IH]; simpl.
  - apply preserves_ret.
  - apply preserves_bind; [apply Hb | intros _; exact IH].
Qed.

End Preservation.

(** Breaks a computation down to the storage methods it calls; [leaf] settles
    those. *)
Ltac frame_step Hrefl Htrans leaf :=
  lazymatch goal with
  | |- preserves _ (ret _) => apply (preserves_ret _ Hrefl)
  | |- preserves _ (read _) => apply (preserves_read _ Hrefl)
  | |- preserves _ (throw _) => apply (preserves_throw _ Hrefl)
  | |- preserves _ new_Date => apply (preserves_new_Date _ Hrefl)
  | |- preserves _ (bind _ _) => apply (preserves_bind _ Htrans); [| intros ?]
  | |- preserves _ (try_catch _ _) => apply (preserves_try_catch _ Htrans); [| intros ?]
  | |- preserves _ (for_of _ _) => apply (preserves_for_of _ Hrefl Htrans); intros ?
  | |- preserves _ (let _ := _ in _) => cbv zeta
  | |- preserves _ (if ?b then _ else _) => destruct b
  | |- preserves _ (match ?x with _ => _ end) => destruct x
  | |- preserves _ _ => leaf
  end.

Ltac frame_with Hrefl Htrans leaf := repeat frame_step Hrefl Htrans leaf.

Ltac unfold_route :=
  unfold route, requireAuth, requireRole, validateSchema, post_users_deactivate,
    post_units, post_tasks, post_assignments, post_submissions, post_assessments,
    post_verifications, post_notifications_read, get_export_portfolio,
    generatePortfolioPDF, logActivity, req_user.

(** ** Well-formed stores: every key lies below its counter *)

Lemma wf_push {V : Type} (v : Z -> V) (t : Table V) :
  wf_table t -> wf_table (push v t).
Proof.
  unfold wf_table, push. simpl. intros H.
  apply JsMapFacts.below_set; [lia |].
  eapply JsMapFacts.below_mono; [| exact H]. lia.
Qed.

Lemma push_rows {V : Type} (v : Z -> V) (t : Table V) :
  wf_table t -> rows (push v t) = rows t ++ [(counter t, v (counter t))].
Proof. intros H. apply JsMapFacts.set_fresh. exact H. Qed.

Lemma get_lt_counter {V : Type} (t : Table V) (k : Z) (v : V) :
  wf_table t -> JsMap.get k (rows t) = Some v -> k < counter t.
Proof.
  intros H Hg. destruct (Z.lt_ge_cases k (counter t)) as [|Hge]; [assumption |].
  rewrite (JsMapFacts.get_below _ _ _ H Hge) in Hg. discriminate.
Qed.

Lemma wf_put {V : Type} (k : Z) (v v0 : V) (t : Table V) :
  wf_table t -> JsMap.get k (rows t) = Some v0 -> wf_table (put k v t).
Proof.
  intros H Hg. unfold wf_table, put. simpl.
  apply JsMapFacts.below_set; [eapply get_lt_counter; eassumption | exact H].
Qed.

Lemma keeps_wf_refl st : keeps_wf st st.
Proof. intros H. exact H. Qed.

Lemma keeps_wf_trans st1 st2 st3 : keeps_wf st1 st2 -> keeps_wf st2 st3 -> keeps_wf st1 st3.
Proof. unfold keeps_wf. auto. Qed.

Ltac wf_create :=
  let clock := fresh "clock" in
  let st := fresh "st" in
  let n := fresh "n" in
  let H := fresh "H" in
  intros clock st n; destruct st; intros H; revert H;
  unfold wf; cbn -[Z.add];
  intros (? & ? & ? & ? & ? & ? & ? & ? & ? & ? & ? & ? & ? & ? & ?);
  repeat split; try assumption; apply (wf_push (fun _ => _)); assumption.

Ltac wf_update :=
  let clock := fresh "clock" in
  let st := fresh "st" in
  let n := fresh "n" in
  let H := fresh "H" in
  let E := fresh "E" in
  intros clock st n; destruct st; intros H; revert H;
  unfold wf, updateUser, updateSubmission, updateNotification, bind, read,
    getUser, getSubmission, getNotification, usersMap, submissionsMap, notificationsMap;
  cbn -[Z.add];
  match goal with
  | |- context [JsMap.get ?k ?m] => destruct (JsMap.get k m) eqn:E
  end; cbn -[Z.add]; [| tauto];
  intros (? & ? & ? & ? & ? & ? & ? & ? & ? & ? & ? & ? & ? & ? & ?);
  repeat split; try assumption; eapply (wf_put _ _ _ (mkTable _ _)); eassumption.

Lemma wf_createUser ins : preserves keeps_wf (createUser ins).
Proof. wf_create. Qed.

Lemma wf_createDepartment ins : preserves keeps_wf (createDepartment ins).
Proof. wf_create. Qed.

Lemma wf_createStudyLevel ins : preserves keeps_wf (createStudyLevel ins).
Proof. wf_create. Qed.

Lemma wf_createCourse ins : preserves keeps_wf (createCourse ins).
Proof. wf_create. Qed.

Lemma wf_createClassIntake ins : preserves keeps_wf (createClassIntake ins).
Proof. wf_create. Qed.

Lemma wf_createModule ins : preserves keeps_wf (createModule ins).
Proof. wf_create. Qed.

Lemma wf_createUnit ins : preserves keeps_wf (createUnit ins).
Proof. wf_create. Qed.

Lemma wf_createTask ins : preserves keeps_wf (createTask ins).
Proof. wf_create. Qed.

Lemma wf_createAssignment ins : preserves keeps_wf (createAssignment ins).
Proof. wf_create. Qed.

Lemma wf_createSubmission ins : preserves keeps_wf (createSubmission ins).
Proof. wf_create. Qed.

Lemma wf_createSubmissionFile ins : preserves keeps_wf (createSubmissionFile ins).
Proof. wf_create. Qed.

Lemma wf_createAssessment ins : preserves keeps_wf (createAssessment ins).
Proof. wf_create. Qed.

Lemma wf_createVerification ins : preserves keeps_wf (createVerification ins).
Proof. wf_create. Qed.

Lemma wf_createNotification ins : preserves keeps_wf (createNotification ins).
Proof. wf_create. Qed.

Lemma wf_createActivityLog ins : preserves keeps_wf (createActivityLog ins).
Proof. wf_create. Qed.

Lemma wf_updateUser id data : preserves keeps_wf (updateUser id data).
Proof. wf_update. Qed.

Lemma wf_updateSubmission id data : preserves keeps_wf (updateSubmission id data).
Proof. wf_update. Qed.

Lemma wf_updateNotification id data : preserves keeps_wf (updateNotification id data).
Proof. wf_update. Qed.

Ltac wf_leaf :=
  idtac;
  lazymatch goal with
  | |- preserves _ (createUser _) => apply wf_createUser
  | |- preserves _ (createDepartment _) => apply wf_createDepartment
  | |- preserves _ (createStudyLevel _) => apply wf_createStudyLevel
  | |- preserves _ (createCourse _) => apply wf_createCourse
  | |- preserves _ (createClassIntake _) => apply wf_createClassIntake
  | |- preserves _ (createModule _) => apply wf_createModule
  | |- preserves _ (createUnit _) => apply wf_createUnit
  | |- preserves _ (createTask _) => apply wf_createTask
  | |- preserves _ (createAssignment _) => apply wf_createAssignment
  | |- preserves _ (createSubmission _) => apply wf_createSubmission
  | |- preserves _ (createSubmissionFile _) => apply wf_createSubmissionFile
  | |- preserves _ (createAssessment _) => apply wf_createAssessment
  | |- preserves _ (createVerification _) => apply wf_createVerification
  | |- preserves _ (createNotification _) => apply wf_createNotification
  | |- preserves _ (createActivityLog _) => apply wf_createActivityLog
  | |- preserves _ (updateUser _ _) => apply wf_updateUser
  | |- preserves _ (updateSubmission _ _) => apply wf_updateSubmission
  | |- preserves _ (updateNotification _ _) => apply wf_updateNotification
  end.

Lemma wf_route (req : Request) : preserves keeps_wf (route req).
Proof.
  destruct req as [u addr c]. destruct c; unfold_route; cbn [user call ip isAuthenticated];
  frame_with keeps_wf_refl keeps_wf_trans wf_leaf.
Qed.

Lemma wf_seed (s : Seed) : preserves keeps_wf (seed s).
Proof.
  destruct s; unfold seed; frame_with keeps_wf_refl keeps_wf_trans wf_leaf.
Qed.

(** What every request and every seeding step preserves from the empty
    store on holds of every reachable store. *)
Lemma serve_preserves (R : MemStorage -> MemStorage -> Prop) clock req st :
  preserves R (route req) -> R st (snd (serve clock req st)).
Proof.
  intros H. unfold serve. specialize (H clock st 0%nat).
  destruct (route req clock (st, 0%nat)) as [[res|e] w]; exact H.
Qed.

Lemma reachable_ind (P : MemStorage -> Prop) :
  P new_MemStorage ->
  (forall st e, reachable st -> P st -> P (step st e)) ->
  forall st, reachable st -> P st.
Proof.
  intros H0 Hstep st [history ->]. unfold run.
  induction history as [|e history IH] using rev_ind.
  - exact H0.
  - rewrite fold_left_app. simpl. apply Hstep; [exists history; reflexivity | exact IH].
Qed.

Lemma reachable_step st e : reachable st -> reachable (step st e).
Proof.
  intros [history ->]. exists (history ++ [e]). unfold run.
  rewrite fold_left_app. reflexivity.
Qed.

Lemma wf_new_MemStorage : wf new_MemStorage.
Proof. unfold wf, wf_table, JsMap.below. simpl. repeat split; constructor. Qed.

Lemma wf_step st e : wf st -> wf (step st e).
Proof.
  destruct e as [clock s|clock req]; simpl.
  - apply (wf_seed s clock st 0%nat).
  - apply (serve_preserves keeps_wf). apply wf_route.
Qed.

Lemma reachable_wf st : reachable st -> wf st.
Proof.
  apply reachable_ind; [exact wf_new_MemStorage | intros; apply wf_step; assumption].
Qed.

(** Opens the storage method at the head of the goal. *)
Ltac open_method :=
  lazymatch goal with
  | |- preserves _ (createUser _) => unfold createUser
  | |- preserves _ (createDepartment _) => unfold createDepartment
  | |- preserves _ (createStudyLevel _) => unfold createStudyLevel
  | |- preserves _ (createCourse _) => unfold createCourse
  | |- preserves _ (createClassIntake _) => unfold createClassIntake
  | |- preserves _ (createModule _) => unfold createModule
  | |- preserves _ (createUnit _) => unfold createUnit
  | |- preserves _ (createTask _) => unfold createTask
  | |- preserves _ (createAssignment _) => unfold createAssignment
  | |- preserves _ (createSubmission _) => unfold createSubmission
  | |- preserves _ (createSubmissionFile _) => unfold createSubmissionFile
  | |- preserves _ (createAssessment _) => unfold createAssessment
  | |- preserves _ (createVerification _) => unfold createVerification
  | |- preserves _ (createNotification _) => unfold createNotification
  | |- preserves _ (createActivityLog _) => unfold createActivityLog
  | |- preserves _ (updateUser _ _) => unfold updateUser
  | |- preserves _ (updateSubmission _ _) => unfold updateSubmission
  | |- preserves _ (updateNotification _ _) => unfold updateNotification
  end.

(** A write to one collection, settled by [fin] on the destructed store. *)
Ltac write_leaf fin :=
  lazymatch goal with
  | |- preserves _ (fresh_id _) =>
      let clock := fresh "clock" in
      let st := fresh "st" in
      let n := fresh "n" in
      intros clock st n; destruct st; fin
  | |- preserves _ (map_set _ _ _) =>
      let clock := fresh "clock" in
      let st := fresh "st" in
      let n := fresh "n" in
      intros clock st n; destruct st; fin
  end.

Ltac frame_writes Hrefl Htrans fin :=
  frame_with Hrefl Htrans ltac:(idtac; first [open_method | write_leaf fin]).

(** ** The organisational hierarchy *)

Lemma same_org_refl st : same_org st st.
Proof. repeat split. Qed.

Lemma same_org_trans st1 st2 st3 : same_org st1 st2 -> same_org st2 st3 -> same_org st1 st3.
Proof. unfold same_org. intros (-> & -> & ->) (-> & -> & ->). repeat split. Qed.

Lemma same_org_route (req : Request) : preserves same_org (route req).
Proof.
  destruct req as [u addr c]. destruct c; unfold_route; cbn [user call ip isAuthenticated];
  frame_writes same_org_refl same_org_trans ltac:(repeat split).
Qed.

Lemma values_push {V : Type} (v : V) (t : Table V) :
  wf_table t ->
  JsMap.values (JsMap.set (counter t) v (rows t)) = JsMap.values (rows t) ++ [v].
Proof.
  intros H. rewrite JsMapFacts.set_fresh by exact H.
  rewrite JsMapFacts.values_app. reflexivity.
Qed.

Lemma org_step st e :
  wf st ->
  JsMap.values (coursesMap (step st e)) = JsMap.values (coursesMap st) ++ course_created e st /\
  JsMap.values (classIntakesMap (step st e))
    = JsMap.values (classIntakesMap st) ++ classIntake_created e st /\
  JsMap.values (modulesMap (step st e)) = JsMap.values (modulesMap st) ++ module_created e st.
Proof.
  intros Hwf.
  assert (Hsame : same_org st (step st e) ->
          course_created e st = [] -> classIntake_created e st = [] ->
          module_created e st = [] ->
          JsMap.values (coursesMap (step st e))
            = JsMap.values (coursesMap st) ++ course_created e st /\
          JsMap.values (classIntakesMap (step st e))
            = JsMap.values (classIntakesMap st) ++ classIntake_created e st /\
          JsMap.values (modulesMap (step st e))
            = JsMap.values (modulesMap st) ++ module_created e st).
  { unfold coursesMap, classIntakesMap, modulesMap.
    intros (-> & -> & ->) -> -> ->. rewrite !app_nil_r. repeat split. }
  destruct e as [clock s|clock req].
  - destruct Hwf as (_ & _ & _ & Hc & Hi & Hm & _).
    destruct s; try (apply Hsame; [destruct st; repeat split | reflexivity ..]);
      destruct st; unfold coursesMap, classIntakesMap, modulesMap;
      cbn -[Z.add JsMap.values] in *.
    + rewrite (values_push _ _ Hc), !app_nil_r. repeat split.
    + rewrite (values_push _ _ Hi), !app_nil_r. repeat split.
    + rewrite (values_push _ _ Hm), !app_nil_r. repeat split.
  - apply Hsame; try reflexivity.
    apply (serve_preserves same_org). apply same_org_route.
Qed.

Lemma org_history history : forall st,
  wf st ->
  JsMap.values (coursesMap (fold_left step history st))
    = JsMap.values (coursesMap st) ++ created course_created st history /\
  JsMap.values (classIntakesMap (fold_left step history st))
    = JsMap.values (classIntakesMap st) ++ created classIntake_created st history /\
  JsMap.values (modulesMap (fold_left step history st))
    = JsMap.values (modulesMap st) ++ created module_created st history.
Proof.
  induction history as [|e history IH]; intros st Hwf; simpl.
  - rewrite !app_nil_r. repeat split.
  - destruct (IH (step st e) (wf_step st e Hwf)) as (-> & -> & ->).
    destruct (org_step st e Hwf) as (-> & -> & ->).
    rewrite !app_assoc. repeat split.
Qed.

(** C9. Along any history of the store, [getCoursesByDepartment],
    [getClassIntakesByCourse] and [getModulesByCourse] return exactly the
    records the [create] methods returned for that parent, in the order
    of their creation. *)
Theorem hierarchy_round_trip (history : list Event) (departmentId courseId : Z) :
  getCoursesByDepartment departmentId (run history)
    = filter (fun course => Course.departmentId course =? departmentId)
        (created course_created new_MemStorage history) /\
  getClassIntakesByCourse courseId (run history)
    = filter (fun classIntake => ClassIntake.courseId classIntake =? courseId)
        (created classIntake_created new_MemStorage history) /\
  getModulesByCourse courseId (run history)
    = filter (fun module => CourseModule.courseId module =? courseId)
        (created module_created new_MemStorage history).
Proof.
  unfold getCoursesByDepartment, getClassIntakesByCourse, getModulesByCourse, run.
  destruct (org_history history new_MemStorage wf_new_MemStorage) as (-> & -> & ->).
  repeat split.
Qed.

(** ** Assessing without an assignment *)

Lemma strict_eq_true x n : strict_eq x n = true <-> x = Some n.
Proof.
  destruct x as [m|]; simpl.
  - rewrite Z.eqb_eq. split; congruence.
  - split; discriminate.
Qed.

Lemma isAssigned_spec assessorId submission st :
  existsb
    (fun a =>
       strict_eq (Assignment.traineeId a) (Submission.traineeId submission)
       && (Assignment.unitId a =? Submission.unitId submission))
    (getAssignmentsByAssessor assessorId st) = true
  <-> exists a, In a (getAllAssignments st) /\ assigned assessorId submission a.
Proof.
  unfold getAssignmentsByAssessor, getAllAssignments, assigned.
  rewrite existsb_exists. split.
  - intros (a & Hin & Hc). apply filter_In in Hin. destruct Hin as (Hin & Ha).
    apply andb_true_iff in Hc. destruct Hc as (Ht & Hu).
    exists a. repeat split; [assumption | | |].
    + apply Z.eqb_eq; assumption.
    + apply strict_eq_true; assumption.
    + apply Z.eqb_eq; assumption.
  - intros (a & Hin & Ha & Ht & Hu). exists a. split.
    + apply filter_In. split; [assumption | apply Z.eqb_eq; assumption].
    + apply andb_true_iff. split; [apply strict_eq_true | apply Z.eqb_eq]; assumption.
Qed.

(** C3. An authenticated assessor posts a schema-valid assessment of an
    existing submission; no assignment links the submission's trainee and
    unit to the caller. The answer is 403 and the store is left as it was:
    no assessment is created. *)
Theorem post_assessments_not_assigned
    (clock : Clock) (me : User.t) (addr : option string) (body : json)
    (b : InsertAssessment.t) (submission : Submission.t) (st : MemStorage) :
  User.role me = "assessor" ->
  insertAssessmentSchema body = Some b ->
  getSubmission (InsertAssessment.submissionId b) st = Some submission ->
  (forall a, In a (getAllAssignments st) -> ~ assigned (User.id me) submission a) ->
  serve clock (mkRequest (Some me) addr (POST_assessments body)) st
  = (Json 403 (Message "Forbidden: You are not assigned to this trainee"), st).
Proof.
  intros Hrole Hbody Hsub Hnone.
  assert (Hex : existsb
            (fun a =>
               strict_eq (Assignment.traineeId a) (Submission.traineeId submission)
               && (Assignment.unitId a =? Submission.unitId submission))
            (getAssignmentsByAssessor (User.id me) st) = false).
  { destruct (existsb _ _) eqn:E; [| reflexivity].
    apply isAssigned_spec in E. destruct E as (a & Hin & Ha).
    exfalso. exact (Hnone a Hin Ha). }
  unfold serve, route, requireAuth, requireRole, validateSchema. simpl.
  rewrite Hrole, Hbody. simpl.
  unfold post_assessments, try_catch, bind, read, req_user. simpl.
  rewrite Hsub. simpl. rewrite Hex. reflexivity.
Qed.

Lemma post_assessments_not_assigned_witness :
  serve Demo.clock
    (mkRequest (Some Demo.other_assessor) None
       (POST_assessments (Demo.assessment_form 1 "approved"))) Demo.store
  = (Json 403 (Message "Forbidden: You are not assigned to this trainee"), Demo.store).
Proof.
  eapply (post_assessments_not_assigned Demo.clock Demo.other_assessor None).
  - reflexivity.
  - reflexivity.
  - vm_compute. reflexivity.
  - intros a Hin (Ha & _). vm_compute in Hin.
    destruct Hin as [<- | []]. discriminate Ha.
Defined.

(** ** Verifying an assessment that does not exist *)

Lemma verifier_role_ok me :
  is_verifier me ->
  existsb (String.eqb (User.role me)) ["internal_verifier"; "external_verifier"] = true.
Proof. intros [-> | ->]; reflexivity. Qed.

(** The run of [POST /api/verifications] on an [assessmentId] that names no
    assessment: [createVerification] has run when the lookup fails, and
    nothing after it. *)
Lemma post_verifications_dangling
    (clock : Clock) (me : User.t) (addr : option string) (body : json)
    (b : InsertVerification.t) (st : MemStorage) :
  is_verifier me ->
  insertVerificationSchema body = Some b ->
  getAssessment (InsertVerification.assessmentId b) st = None ->
  serve clock (mkRequest (Some me) addr (POST_verifications body)) st
  = (Json 404 (Message "Assessment not found"),
     with_verifications (push (fun id => verification_by me b id (clock 0%nat))) st).
Proof.
  intros Hrole Hbody Hnone.
  unfold serve, route, requireAuth, requireRole, validateSchema.
  cbn [user call isAuthenticated negb orb].
  rewrite (verifier_role_ok me Hrole), Hbody. cbn [negb].
  destruct st. unfold getAssessment, assessmentsMap in Hnone. simpl in Hnone.
  unfold post_verifications, try_catch, bind, read, req_user, getAssessment, assessmentsMap.
  cbn -[Z.add String.eqb]. rewrite Hnone. reflexivity.
Qed.

(** C1 (what the code does). A verifier posts a schema-valid verification
    whose [assessmentId] names no assessment. The answer is 404, but the
    handler has called [createVerification] before it looks the assessment
    up: the store has a new Verification under the next id, and the counter
    has moved. *)
Theorem post_verifications_missing_assessment
    (clock : Clock) (me : User.t) (addr : option string) (body : json)
    (b : InsertVerification.t) (st : MemStorage) :
  is_verifier me ->
  insertVerificationSchema body = Some b ->
  getAssessment (InsertVerification.assessmentId b) st = None ->
  let (res, st') := serve clock (mkRequest (Some me) addr (POST_verifications body)) st in
  res = Json 404 (Message "Assessment not found") /\
  getVerification (verificationIdCounter st) st'
    = Some (verification_by me b (verificationIdCounter st) (clock 0%nat)) /\
  verificationIdCounter st' = verificationIdCounter st + 1.
Proof.
  intros Hrole Hbody Hnone.
  rewrite (post_verifications_dangling clock me addr body b st Hrole Hbody Hnone).
  destruct st. unfold getVerification, verificationsMap, verificationIdCounter, push.
  cbn -[Z.add String.eqb]. rewrite JsMapFacts.get_set_same. repeat split.
Qed.

Lemma post_verifications_missing_assessment_witness :
  let (res, st') :=
    serve Demo.clock
      (mkRequest (Some Demo.internal) None
         (POST_verifications (Demo.verification_form 99 "confirmed"))) Demo.store in
  res = Json 404 (Message "Assessment not found") /\
  getVerification (verificationIdCounter Demo.store) st'
    = Some (verification_by Demo.internal
              (InsertVerification.mk 99 0 "internal" "confirmed" None)
              (verificationIdCounter Demo.store) (Demo.clock 0%nat)) /\
  verificationIdCounter st' = verificationIdCounter Demo.store + 1.
Proof.
  apply (post_verifications_missing_assessment Demo.clock Demo.internal None
           (Demo.verification_form 99 "confirmed")
           (InsertVerification.mk 99 0 "internal" "confirmed" None) Demo.store).
  - left. reflexivity.
  - reflexivity.
  - vm_compute. reflexivity.
Defined.

(** C5 (what the code does). The same call with status [confirmed] by an
    internal verifier: the Verification is stored as confirmed and internal,
    and no notification at all is created, whoever holds the role
    external_verifier. *)
Theorem post_verifications_missing_assessment_no_fan_out
    (clock : Clock) (me : User.t) (addr : option string) (body : json)
    (b : InsertVerification.t) (st : MemStorage) :
  User.role me = "internal_verifier" ->
  insertVerificationSchema body = Some b ->
  InsertVerification.status b = "confirmed" ->
  getAssessment (InsertVerification.assessmentId b) st = None ->
  let st' := snd (serve clock (mkRequest (Some me) addr (POST_verifications body)) st) in
  (exists v,
     getVerification (verificationIdCounter st) st' = Some v /\
     Verification.status v = "confirmed" /\ Verification.verifierType v = "internal" /\
     Verification.verifierId v = User.id me) /\
  notifications st' = notifications st.
Proof.
  intros Hrole Hbody Hstatus Hnone. cbv zeta.
  rewrite (post_verifications_dangling clock me addr body b st (or_introl Hrole) Hbody Hnone).
  destruct st. unfold getVerification, verificationsMap, verificationIdCounter, push.
  cbn -[Z.add String.eqb]. rewrite JsMapFacts.get_set_same. split; [| reflexivity].
  eexists. split; [reflexivity |]. cbn -[Z.add].
  rewrite Hrole, Hstatus. repeat split.
Qed.

Lemma post_verifications_missing_assessment_no_fan_out_witness :
  let st' :=
    snd (serve Demo.clock
           (mkRequest (Some Demo.internal) None
              (POST_verifications (Demo.verification_form 99 "confirmed"))) Demo.store) in
  (exists v,
     getVerification (verificationIdCounter Demo.store) st' = Some v /\
     Verification.status v = "confirmed" /\ Verification.verifierType v = "internal" /\
     Verification.verifierId v = User.id Demo.internal) /\
  notifications st' = notifications Demo.store.
Proof.
  apply (post_verifications_missing_assessment_no_fan_out Demo.clock Demo.internal None
           (Demo.verification_form 99 "confirmed")
           (InsertVerification.mk 99 0 "internal" "confirmed" None) Demo.store).
  - reflexivity.
  - reflexivity.
  - reflexivity.
  - vm_compute. reflexivity.
Defined.

(** The external verifier of the demo store, whom that call does not notify. *)
Example demo_external_verifier :
  map User.id (getUsersByRole "external_verifier" Demo.store) = [4].
Proof. vm_compute. reflexivity. Qed.

(** ** Loops that create one record per element *)

Lemma push_all_spec {A V : Type} (mk : A -> nat -> Z -> V) (d : nat) (l : list A) :
  forall n t,
    wf_table t ->
    rows (push_all mk d l n t) = rows t ++ pushed mk d l n (counter t) /\
    counter (push_all mk d l n t) = counter t + Z.of_nat (List.length l) /\
    wf_table (push_all mk d l n t).
Proof.
  induction l as [|x l IH]; intros n t Hwf.
  - simpl. rewrite app_nil_r, Z.add_0_r. repeat split; assumption.
  - cbn [push_all pushed List.length].
    destruct (IH (d + n)%nat (push (mk x n) t) (wf_push _ _ Hwf)) as (Hr & Hc & Hw).
    rewrite Hr, Hc, (push_rows _ _ Hwf). cbn [push counter].
    rewrite <- app_assoc. simpl. repeat split; [lia | assumption].
Qed.

Lemma pushed_values {A V : Type} (mk : A -> nat -> Z -> V) (d : nat) (l : list A) :
  forall n id x,
    In x l -> exists k m, id <= k /\ In (k, mk x m k) (pushed mk d l n id).
Proof.
  induction l as [|y l IH]; intros n id x Hin; [contradiction |].
  destruct Hin as [-> | Hin].
  - exists id, n. split; [lia | left; reflexivity].
  - destruct (IH (d + n)%nat (id + 1) x Hin) as (k & m & Hk & Hp).
    exists k, m. split; [lia | right; exact Hp].
Qed.

Lemma for_of_push {A V : Type} (c : Coll V) (body : A -> Promise unit)
    (mk : Clock -> A -> nat -> Z -> V) (d : nat) (l : list A) :
  lawful c ->
  (forall x clock st n,
     body x clock (st, n) = (Fulfilled tt, (upd c (push (mk clock x n)) st, (d + n)%nat))) ->
  forall clock st n,
    upd c (fun t => t) st = st ->
    for_of l body clock (st, n)
    = (Fulfilled tt,
       (upd c (push_all (mk clock) d l n) st, (d * List.length l + n)%nat)).
Proof.
  intros Hc Hb. induction l as [|x l IH]; intros clock st n Hid.
  - simpl. unfold ret. rewrite Hid, Nat.mul_0_r. reflexivity.
  - cbn [for_of]. unfold bind at 1. rewrite Hb.
    rewrite IH.
    + rewrite Hc. cbn [push_all List.length].
      f_equal. f_equal. lia.
    + rewrite Hc. reflexivity.
Qed.

Lemma lawful_Notifications : lawful Notifications.
Proof. intros f g st. destruct st; reflexivity. Qed.

Lemma lawful_SubmissionFiles : lawful SubmissionFiles.
Proof. intros f g st. destruct st; reflexivity. Qed.

(** ** Submitting evidence *)

Lemma find_none_assignment traineeId unitId st :
  (forall a, In a (getAllAssignments st) ->
     ~ (Assignment.traineeId a = Some traineeId /\ Assignment.unitId a = unitId)) ->
  find (fun a => Assignment.unitId a =? unitId) (getAssignmentsByTrainee traineeId st) = None.
Proof.
  intros Hnone. destruct (find _ _) as [a|] eqn:E; [| reflexivity].
  apply find_some in E. destruct E as (Hin & Hu).
  unfold getAssignmentsByTrainee in Hin. apply filter_In in Hin. destruct Hin as (Hin & Ht).
  exfalso. apply (Hnone a Hin). split.
  - apply strict_eq_true. exact Ht.
  - apply Z.eqb_eq. exact Hu.
Qed.

Lemma post_submissions_created
    (clock : Clock) (me : User.t) (addr : option string) (form : json)
    (parts files : list MulterFile.t) (parsed : InsertSubmission.t) (st : MemStorage) :
  User.role me = "trainee" ->
  upload parts = inr files ->
  insertSubmissionSchema (JObj (("traineeId", JNum (User.id me)) :: spread form))
    = Some parsed ->
  let (res, st') :=
    serve clock (mkRequest (Some me) addr (POST_submissions (Some form) parts)) st in
  let id := submissionIdCounter st in
  res = Json 201
          (OfSubmission (stored_submission me parsed id (clock 0%nat))
             (getSubmissionFiles id st')) /\
  submissions st'
    = push (fun id => stored_submission me parsed id (clock 0%nat)) (submissions st) /\
  submissionFiles st' = push_all (stored_file id clock) 2 files 1 (submissionFiles st) /\
  (find (fun a => Assignment.unitId a =? InsertSubmission.unitId parsed)
     (getAssignmentsByTrainee (User.id me) st) = None ->
   notifications st' = notifications st).
Proof.
  intros Hrole Hup Hform.
  unfold serve, route, requireAuth, requireRole.
  cbn [user call isAuthenticated negb orb].
  rewrite Hrole, Hup. cbn [existsb String.eqb Ascii.eqb Bool.eqb negb orb andb].
  destruct st as [us ds sls cs cis ms uns ts asg sbs sfs ass vs ns als].
  unfold post_submissions, try_catch, req_user.
  cbn [user ip call].
  unfold bind at 1. unfold ret at 1. unfold bind at 1. unfold ret at 1.
  rewrite Hform.
  unfold bind at 1.
  cbn -[for_of Z.add String.append JsMap.values pushed].
  unfold bind at 1.
  rewrite (for_of_push SubmissionFiles _
             (fun clock file n id => stored_file (counter sbs) clock file n id)
             2 files lawful_SubmissionFiles);
    [| intros x clock0 st0 n0; destruct st0; reflexivity | reflexivity].
  unfold logActivity, try_catch, bind, read, getAssignmentsByTrainee, assignmentsMap.
  cbn -[for_of Z.add String.append JsMap.values pushed push_all Nat.mul Nat.add].
  destruct (find _ _) as [a|] eqn:E;
    cbn -[for_of Z.add String.append JsMap.values pushed push_all Nat.mul Nat.add];
    unfold submissionIdCounter;
    cbn -[for_of Z.add String.append JsMap.values pushed push_all Nat.mul Nat.add];
    repeat split; discriminate.
Qed.

(** C6. A trainee posts a schema-valid submission whose files pass the
    intake, for a unit in which no assignment names the trainee. The answer
    is 201 with the new submission; exactly that submission is added, with
    status [pending]; one file record per uploaded file is added, in order,
    under the submission's id; and the notifications are left as they were. *)
Theorem post_submissions_no_assignment
    (clock : Clock) (me : User.t) (addr : option string) (form : json)
    (parts files : list MulterFile.t) (parsed : InsertSubmission.t) (st : MemStorage) :
  wf st ->
  User.role me = "trainee" ->
  upload parts = inr files ->
  insertSubmissionSchema (JObj (("traineeId", JNum (User.id me)) :: spread form))
    = Some parsed ->
  (forall a, In a (getAllAssignments st) ->
     ~ (Assignment.traineeId a = Some (User.id me) /\
        Assignment.unitId a = InsertSubmission.unitId parsed)) ->
  let (res, st') :=
    serve clock (mkRequest (Some me) addr (POST_submissions (Some form) parts)) st in
  let submission := stored_submission me parsed (submissionIdCounter st) (clock 0%nat) in
  res = Json 201 (OfSubmission submission (getSubmissionFiles (submissionIdCounter st) st')) /\
  Submission.status submission = "pending" /\
  submissionsMap st' = submissionsMap st ++ [(submissionIdCounter st, submission)] /\
  submissionFilesMap st'
    = submissionFilesMap st
      ++ pushed (stored_file (submissionIdCounter st) clock) 2 files 1
           (submissionFileIdCounter st) /\
  notifications st' = notifications st.
Proof.
  intros Hwf Hrole Hup Hform Hnone.
  apply find_none_assignment in Hnone.
  destruct Hwf as (_ & _ & _ & _ & _ & _ & _ & _ & _ & Hsub & Hfiles & _).
  pose proof (post_submissions_created clock me addr form parts files parsed st
                Hrole Hup Hform) as H.
  destruct (serve clock (mkRequest (Some me) addr (POST_submissions (Some form) parts)) st)
    as [res st'].
  cbv zeta in *. destruct H as (Hres & Hs & Hf & Hn).
  unfold submissionsMap, submissionFilesMap, submissionFileIdCounter.
  rewrite Hs, Hf. repeat split.
  - exact Hres.
  - apply (push_rows (fun id => stored_submission me parsed id (clock 0%nat)) _ Hsub).
  - apply (push_all_spec _ 2 files 1%nat _ Hfiles).
  - exact (Hn Hnone).
Qed.

Lemma post_submissions_no_assignment_witness :
  let (res, st') :=
    serve Demo.clock
      (mkRequest (Some Demo.trainee) None
         (POST_submissions (Some (Demo.submission_form 8)) [Demo.evidence])) Demo.store in
  let submission :=
    stored_submission Demo.trainee (InsertSubmission.mk 1 1 8 "ER model" None None)
      (submissionIdCounter Demo.store) (Demo.clock 0%nat) in
  res = Json 201
          (OfSubmission submission
             (getSubmissionFiles (submissionIdCounter Demo.store) st')) /\
  Submission.status submission = "pending" /\
  submissionsMap st'
    = submissionsMap Demo.store ++ [(submissionIdCounter Demo.store, submission)] /\
  submissionFilesMap st'
    = submissionFilesMap Demo.store
      ++ pushed (stored_file (submissionIdCounter Demo.store) Demo.clock) 2
           [Demo.evidence] 1 (submissionFileIdCounter Demo.store) /\
  notifications st' = notifications Demo.store.
Proof.
  apply (post_submissions_no_assignment Demo.clock Demo.trainee None
           (Demo.submission_form 8) [Demo.evidence] [Demo.evidence]
           (InsertSubmission.mk 1 1 8 "ER model" None None) Demo.store).
  - apply reachable_wf. exists Demo.history. reflexivity.
  - reflexivity.
  - reflexivity.
  - reflexivity.
  - intros a Hin (_ & Hu). vm_compute in Hin.
    destruct Hin as [<- | []]. discriminate Hu.
Defined.

(** ** File intake *)









Example upload_exactly_20MiB :
  acceptable (upload_of (20 * 1024 * 1024)) /\
  exists payload,
    fst (serve Demo.clock
           (mkRequest (Some Demo.trainee) None
              (POST_submissions (Some (Demo.submission_form 7))
                 [upload_of (20 * 1024 * 1024)])) Demo.store)
    = Json 201 payload.
Proof.
  split.
  - split; [simpl; tauto | unfold upload_of; simpl; lia].
  - eexists. vm_compute. reflexivity.
Qed.

Example upload_one_byte_more :
  serve Demo.clock
    (mkRequest (Some Demo.trainee) None
       (POST_submissions (Some (Demo.submission_form 7))
          [upload_of (20 * 1024 * 1024 + 1)])) Demo.store
  = (NextError (MulterError "LIMIT_FILE_SIZE"), Demo.store).
Proof. vm_compute. reflexivity. Qed.

(** ** The trainee-performance report *)





(** One submission of trainee 1, assessed a day after it was made. *)
Example report_one_day :
  map averageTurnaround
    (getTraineePerformanceReport None
       (step Demo.store
          (Served (fun n => 86400000 + Demo.clock n)
             (mkRequest (Some Demo.assessor) None
                (POST_assessments (Demo.assessment_form 1 "resubmit"))))))
  = [1%float].
Proof. vm_compute. reflexivity. Qed.

Example report_nothing_assessed :
  map averageTurnaround (getTraineePerformanceReport None Demo.store) = [0%float].
Proof. vm_compute. reflexivity. Qed.

(** A second assessment, a day later still, leaves the figure at the first. *)
Example report_first_assessment_only :
  map averageTurnaround
    (getTraineePerformanceReport None
       (fold_left step
          [ Served (fun n => 86400000 + Demo.clock n)
              (mkRequest (Some Demo.assessor) None
                 (POST_assessments (Demo.assessment_form 1 "resubmit")));
            Served (fun n => 172800000 + Demo.clock n)
              (mkRequest (Some Demo.assessor) None
                 (POST_assessments (Demo.assessment_form 1 "approved"))) ]
          Demo.store))
  = [1%float].
Proof. vm_compute. reflexivity. Qed.

(** ** The read flag of a notification *)

Lemma no_new_read_refl st : no_new_read st st.
Proof. intros id n' H1 H2. exists n'. split; assumption. Qed.

Lemma no_new_read_trans st1 st2 st3 :
  no_new_read st1 st2 -> no_new_read st2 st3 -> no_new_read st1 st3.
Proof.
  intros H12 H23 id n3 Hg Hr.
  destruct (H23 id n3 Hg Hr) as (n2 & Hg2 & Hr2). exact (H12 id n2 Hg2 Hr2).
Qed.

Lemma createNotification_stores ins clock st n :
  exists notification st',
    createNotification ins clock (st, n) = (Fulfilled notification, (st', S n)) /\
    Notification.isRead notification = false /\
    getNotification (Notification.id notification) st' = Some notification /\
    (forall id, id <> Notification.id notification ->
                getNotification id st' = getNotification id st).
Proof.
  destruct st as [us ds sls cs cis ms uns ts asg sbs sfs ass vs ns als].
  unfold createNotification, bind, fresh_id, new_Date, map_set, ret.
  cbn -[Z.add].
  eexists. eexists. split; [reflexivity |].
  unfold getNotification, notificationsMap. cbn -[Z.add].
  split; [reflexivity |]. split.
  - apply JsMapFacts.get_set_same.
  - intros id Hne. apply JsMapFacts.get_set_other. congruence.
Qed.

Lemma no_new_read_createNotification ins : preserves no_new_read (createNotification ins).
Proof.
  intros clock st n id n' Hg Hr.
  destruct (createNotification_stores ins clock st n)
    as (notification & st' & E & Hunread & Hsame & Hother).
  rewrite E in Hg. simpl in Hg.
  destruct (Z.eq_dec id (Notification.id notification)) as [-> | Hne].
  - rewrite Hsame in Hg. inversion Hg; subst. congruence.
  - rewrite (Hother id Hne) in Hg. exists n'. split; assumption.
Qed.

Ltac no_new_read_leaf :=
  idtac;
  lazymatch goal with
  | |- preserves _ (createNotification _) => apply no_new_read_createNotification
  | |- _ =>
      first
        [ open_method
        | write_leaf ltac:(intros ? ? ? ?; eexists; split; eassumption) ]
  end.

Lemma no_new_read_seed (s : Seed) : preserves no_new_read (seed s).
Proof.
  destruct s; unfold seed;
    frame_with no_new_read_refl no_new_read_trans no_new_read_leaf.
Qed.

Lemma post_notifications_read_run (req : Request) (id : Z) clock st :
  post_notifications_read req id clock (st, 0%nat)
  = match getNotification id st with
    | None => (Fulfilled (Json 404 (Message "Notification not found")), (st, 0%nat))
    | Some n =>
        match user req with
        | None =>
            (Fulfilled (Json 500 (Message "Failed to mark notification as read")),
             (st, 0%nat))
        | Some me =>
            if Notification.userId n =? User.id me then
              (Fulfilled (Json 200 (Message "Notification marked as read")),
               (with_notifications (put id (notification_read n)) st, 0%nat))
            else
              (Fulfilled
                 (Json 403
                    (Message "Forbidden: You can only mark your own notifications as read")),
               (st, 0%nat))
        end
    end.
Proof.
  cbv [post_notifications_read try_catch bind read req_user updateNotification ret throw
         map_set getNotification notificationsMap fst snd upd tbl Notifications put negb].
  destruct (JsMap.get id (rows (notifications st))) as [n|] eqn:En; [| reflexivity].
  destruct (user req) as [me|]; [| reflexivity].
  destruct (Notification.userId n =? User.id me); [| reflexivity].
  rewrite En. reflexivity.
Qed.

Lemma read_flag_step st e id n' :
  getNotification id (step st e) = Some n' -> Notification.isRead n' = true ->
  (exists n, getNotification id st = Some n /\ Notification.isRead n = true) \/
  marks_read e id st.
Proof.
  intros Hg Hr.
  assert (Hframe : no_new_read st (step st e) ->
          (exists n, getNotification id st = Some n /\ Notification.isRead n = true) \/
          marks_read e id st).
  { intros H. left. exact (H id n' Hg Hr). }
  destruct e as [clock s | clock [u addr c]].
  - apply Hframe. apply (no_new_read_seed s clock st 0%nat).
  - destruct c;
      try solve
        [ apply Hframe; apply (serve_preserves no_new_read);
          unfold_route; cbn [user call ip isAuthenticated];
          frame_with no_new_read_refl no_new_read_trans no_new_read_leaf ].
    clear Hframe. revert Hg.
    unfold step, serve, route, requireAuth, isAuthenticated. cbn [user call].
    destruct u as [me|]; cbn [negb]; [| simpl; intros Hg; left; eauto].
    rewrite post_notifications_read_run. cbn [user].
    destruct (getNotification id0 st) as [n|] eqn:En; [| simpl; intros Hg; left; eauto].
    destruct (Notification.userId n =? User.id me) eqn:Eu;
      [| simpl; intros Hg; left; eauto].
    apply Z.eqb_eq in Eu. cbn [fst snd].
    destruct st as [us ds sls cs cis ms uns ts asg sbs sfs ass vs ns als].
    unfold getNotification, notificationsMap in *. cbn -[Z.add] in *. intros Hg.
    destruct (Z.eq_dec id0 id) as [-> | Hne].
    + right. exists clock, me, addr, n. repeat split; assumption.
    + rewrite JsMapFacts.get_set_other in Hg by exact Hne. left. eauto.
Qed.

(** C10. [createNotification] stores and returns an unread notification
    whatever [isRead] the payload carries; and over any step of the store a
    notification is read afterwards only if it was read before, or the step
    is the mark-as-read request for it sent by its addressee. *)
Theorem notification_read_flag :
  (forall ins clock st n,
     exists notification st',
       createNotification ins clock (st, n) = (Fulfilled notification, (st', S n)) /\
       Notification.isRead notification = false /\
       getNotification (Notification.id notification) st' = Some notification) /\
  (forall st e id n',
     getNotification id (step st e) = Some n' -> Notification.isRead n' = true ->
     (exists n, getNotification id st = Some n /\ Notification.isRead n = true) \/
     marks_read e id st).
Proof.
  split.
  - intros ins clock st n.
    destruct (createNotification_stores ins clock st n) as (x & st' & E & H1 & H2 & _).
    exists x, st'. repeat split; assumption.
  - exact read_flag_step.
Qed.

(** A payload that says [isRead: true] is stored unread. *)
Example createNotification_ignores_isRead :
  fst (createNotification (InsertNotification.mk 1 "t" "m" true "system" None) Demo.clock
         (Demo.store, 0%nat))
  = Fulfilled (Notification.mk 3 1 "t" "m" false 0 "system" None).
Proof. vm_compute. reflexivity. Qed.

(** Marking another user's notification is refused and changes nothing. *)
Example mark_read_by_other_user :
  serve Demo.clock (mkRequest (Some Demo.trainee) None (POST_notifications_read 1)) Demo.store
  = (Json 403 (Message "Forbidden: You can only mark your own notifications as read"),
     Demo.store).
Proof. vm_compute. reflexivity. Qed.

Example mark_read_by_addressee :
  option_map Notification.isRead
    (getNotification 1
       (snd (serve Demo.clock
               (mkRequest (Some Demo.assessor) None (POST_notifications_read 1)) Demo.store)))
  = Some true.
Proof. vm_compute. reflexivity. Qed.

(** Runs the storage methods and the monad on a store given by its tables;
    loops and decisions on the data are left standing. *)
Ltac run_methods :=
  cbv [
    bind ret read throw try_catch new_Date fresh_id map_set logActivity req_user fst
    snd tbl upd rows counter createUser createDepartment createStudyLevel
    createCourse createClassIntake createModule createUnit createTask
    createAssignment createSubmission createSubmissionFile createAssessment
    createVerification createNotification createActivityLog updateUser
    updateSubmission updateNotification getUser getSubmission getAssessment
    getNotification getVerification getAssignmentsByAssessor getAssignmentsByTrainee
    getUsersByRole getAllAssignments getSubmissionFiles getAssessmentsBySubmission
    usersMap departmentsMap studyLevelsMap coursesMap classIntakesMap modulesMap
    unitsMap tasksMap assignmentsMap submissionsMap submissionFilesMap
    assessmentsMap verificationsMap notificationsMap activityLogsMap userIdCounter
    departmentIdCounter studyLevelIdCounter courseIdCounter classIntakeIdCounter
    moduleIdCounter unitIdCounter taskIdCounter assignmentIdCounter
    submissionIdCounter submissionFileIdCounter assessmentIdCounter
    verificationIdCounter notificationIdCounter activityLogIdCounter users
    departments studyLevels courses classIntakes modules units tasks assignments
    submissions submissionFiles assessments verifications notifications activityLogs
    with_users with_departments with_studyLevels with_courses with_classIntakes
    with_modules with_units with_tasks with_assignments with_submissions
    with_submissionFiles with_assessments with_verifications with_notifications
    with_activityLogs Users Departments StudyLevels Courses ClassIntakes Modules
    Units Tasks Assignments Submissions SubmissionFiles Assessments Verifications
    Notifications ActivityLogs ].

Tactic Notation "run_methods" "in" hyp(H) :=
  cbv [
    bind ret read throw try_catch new_Date fresh_id map_set logActivity req_user fst
    snd tbl upd rows counter createUser createDepartment createStudyLevel
    createCourse createClassIntake createModule createUnit createTask
    createAssignment createSubmission createSubmissionFile createAssessment
    createVerification createNotification createActivityLog updateUser
    updateSubmission updateNotification getUser getSubmission getAssessment
    getNotification getVerification getAssignmentsByAssessor getAssignmentsByTrainee
    getUsersByRole getAllAssignments getSubmissionFiles getAssessmentsBySubmission
    usersMap departmentsMap studyLevelsMap coursesMap classIntakesMap modulesMap
    unitsMap tasksMap assignmentsMap submissionsMap submissionFilesMap
    assessmentsMap verificationsMap notificationsMap activityLogsMap userIdCounter
    departmentIdCounter studyLevelIdCounter courseIdCounter classIntakeIdCounter
    moduleIdCounter unitIdCounter taskIdCounter assignmentIdCounter
    submissionIdCounter submissionFileIdCounter assessmentIdCounter
    verificationIdCounter notificationIdCounter activityLogIdCounter users
    departments studyLevels courses classIntakes modules units tasks assignments
    submissions submissionFiles assessments verifications notifications activityLogs
    with_users with_departments with_studyLevels with_courses with_classIntakes
    with_modules with_units with_tasks with_assignments with_submissions
    with_submissionFiles with_assessments with_verifications with_notifications
    with_activityLogs Users Departments StudyLevels Courses ClassIntakes Modules
    Units Tasks Assignments Submissions SubmissionFiles Assessments Verifications
    Notifications ActivityLogs ] in H.

(** ** Assessing a submission *)

Lemma post_assessments_created
    (clock : Clock) (req : Request) (me : User.t) (b : InsertAssessment.t)
    (submission : Submission.t) (st : MemStorage) :
  user req = Some me ->
  getSubmission (InsertAssessment.submissionId b) st = Some submission ->
  isAssigned me submission st = true ->
  let (r, w) := post_assessments req b clock (st, 0%nat) in
  let id := assessmentIdCounter st in
  r = Fulfilled (Json 201 (OfAssessment (assessment_by me b id (clock 0%nat)))) /\
  assessments (fst w) = push (fun id => assessment_by me b id (clock 0%nat)) (assessments st) /\
  submissions (fst w)
    = put (InsertAssessment.submissionId b)
        (submission_with_status submission (mirrored_status (InsertAssessment.status b)))
        (submissions st) /\
  notifications (fst w)
    = (if String.eqb (InsertAssessment.status b) "approved"
       then push_all (verifier_notice id clock) 1
              (getUsersByRole "internal_verifier" st) 2
       else fun t => t)
        (push (trainee_notice submission id (clock 1%nat)) (notifications st)) /\
  users (fst w) = users st.
Proof.
  intros Hme Hsub Hassigned.
  destruct st as [us ds sls cs cis ms uns ts asg sbs sfs ass vs ns als].
  unfold isAssigned in Hassigned.
  run_methods in Hassigned. run_methods in Hsub.
  unfold post_assessments, req_user. rewrite Hme. run_methods.
  rewrite Hsub, Hassigned. cbv [negb]. rewrite Hsub. unfold mirrored_status.
  destruct (String.eqb (InsertAssessment.status b) "approved") eqn:Est.
  - rewrite (for_of_push Notifications _
               (fun clock => verifier_notice (counter ass) clock)
               1 _ lawful_Notifications);
      [| intros x clock0 st0 n0; destruct st0; reflexivity | reflexivity].
    run_methods. repeat split.
  - repeat split.
Qed.

Lemma post_assessments_refused
    (clock : Clock) (req : Request) (b : InsertAssessment.t) (st : MemStorage) :
  match getSubmission (InsertAssessment.submissionId b) st, user req with
  | Some submission, Some me => isAssigned me submission st = false
  | _, _ => True
  end ->
  exists status message,
    post_assessments req b clock (st, 0%nat)
    = (Fulfilled (Json status (Message message)), (st, 0%nat)).
Proof.
  intros H. unfold post_assessments, req_user, isAssigned in *.
  cbv [bind ret read throw try_catch fst snd] in *.
  destruct (getSubmission (InsertAssessment.submissionId b) st) as [submission|].
  - destruct (user req) as [me|].
    + rewrite H. cbv [negb]. eexists. eexists. reflexivity.
    + eexists. eexists. reflexivity.
  - eexists. eexists. reflexivity.
Qed.

Lemma serve_post_assessments
    (clock : Clock) (u : option User.t) (addr : option string) (body : json)
    (st : MemStorage) :
  let (res, st') := serve clock (mkRequest u addr (POST_assessments body)) st in
  (st' = st /\ exists status, (exists message, res = Json status (Message message))
                              \/ res = Json status ValidationMessage) \/
  (exists me b submission,
     u = Some me /\ User.role me = "assessor" /\
     insertAssessmentSchema body = Some b /\
     getSubmission (InsertAssessment.submissionId b) st = Some submission /\
     isAssigned me submission st = true /\
     assessed clock me b submission st st' res).
Proof.
  assert (Hrefused : forall status payload,
            (exists message, payload = Message message) \/ payload = ValidationMessage ->
            (st = st /\ exists status',
                (exists message, Json status payload = Json status' (Message message))
                \/ Json status payload = Json status' ValidationMessage)).
  { intros status payload [(message & ->) | ->]; split; try reflexivity;
      exists status; [left; exists message | right]; reflexivity. }
  unfold serve, route, requireAuth, requireRole, validateSchema, isAuthenticated.
  cbn [user call].
  destruct u as [me|]; cbn [negb orb existsb].
  2:{ cbn. left. apply Hrefused. left. eexists. reflexivity. }
  destruct (String.eqb (User.role me) "assessor") eqn:Erole; cbn [negb orb].
  2:{ cbn. left. apply Hrefused. left. eexists. reflexivity. }
  apply String.eqb_eq in Erole.
  destruct (insertAssessmentSchema body) as [b|] eqn:Eb.
  2:{ cbn. left. apply Hrefused. right. reflexivity. }
  destruct (getSubmission (InsertAssessment.submissionId b) st) as [submission|] eqn:Es.
  - destruct (isAssigned me submission st) eqn:Ea.
    + pose proof (post_assessments_created clock
                    (mkRequest (Some me) addr (POST_assessments body))
                    me b submission st eq_refl Es Ea) as H.
      destruct (post_assessments _ b clock (st, 0%nat)) as [r w].
      destruct H as (-> & Ha & Hs & Hn & Hu).
      right. exists me, b, submission. repeat split; assumption.
    + destruct (post_assessments_refused clock
                  (mkRequest (Some me) addr (POST_assessments body)) b st)
        as (status & message & ->).
      { rewrite Es. exact Ea. }
      left. apply Hrefused. left. eexists. reflexivity.
  - destruct (post_assessments_refused clock
                (mkRequest (Some me) addr (POST_assessments body)) b st)
      as (status & message & ->).
    { rewrite Es. exact I. }
    left. apply Hrefused. left. eexists. reflexivity.
Qed.

Lemma get_app_r {V : Type} (k : Z) (m1 m2 : JsMap.t V) :
  JsMap.get k m1 = None -> JsMap.get k (m1 ++ m2) = JsMap.get k m2.
Proof.
  induction m1 as [|[k' v'] m1 IH]; simpl; intros H; [reflexivity |].
  destruct (k' =? k); [discriminate | auto].
Qed.

Lemma get_pushed {A V : Type} (mk : A -> nat -> Z -> V) (d : nat) (l : list A) :
  forall n id x,
    In x l ->
    exists k m, id <= k /\ JsMap.get k (pushed mk d l n id) = Some (mk x m k).
Proof.
  induction l as [|y l IH]; intros n id x Hin; [contradiction |].
  destruct Hin as [-> | Hin].
  - exists id, n. split; [lia |]. simpl. rewrite Z.eqb_refl. reflexivity.
  - destruct (IH (d + n)%nat (id + 1) x Hin) as (k & m & Hk & Hg).
    exists k, m. split; [lia |]. simpl.
    destruct (id =? k) eqn:E; [apply Z.eqb_eq in E; lia | exact Hg].
Qed.



(** ** The status of a submission mirrors its latest assessment *)

Lemma most_recent_snoc {A : Type} (l : list A) (x : A) : most_recent (l ++ [x]) = Some x.
Proof. unfold most_recent. rewrite rev_unit. reflexivity. Qed.

Lemma keys_app {V : Type} (m1 m2 : JsMap.t V) :
  JsMap.keys (m1 ++ m2) = JsMap.keys m1 ++ JsMap.keys m2.
Proof. apply map_app. Qed.

Lemma get_none_not_key {V : Type} (k : Z) (m : JsMap.t V) :
  JsMap.get k m = None -> ~ In k (JsMap.keys m).
Proof.
  induction m as [|[k' v'] m IH]; simpl; intros H; [tauto |].
  destruct (k' =? k) eqn:E; [discriminate |].
  apply Z.eqb_neq in E. intros [Heq | Hin]; [contradiction | exact (IH H Hin)].
Qed.

Lemma in_keys {V : Type} (k : Z) (v : V) (m : JsMap.t V) :
  In (k, v) m -> In k (JsMap.keys m).
Proof. intros H. apply (in_map fst) in H. exact H. Qed.

Lemma filter_none {A : Type} (f : A -> bool) (l : list A) :
  (forall x, In x l -> f x = false) -> filter f l = [].
Proof.
  induction l as [|x l IH]; intros H; [reflexivity |].
  simpl. rewrite (H x (or_introl eq_refl)). apply IH. intros y Hy. apply H. right. exact Hy.
Qed.

Lemma work_inv_new : work_inv new_Table new_Table.
Proof.
  constructor; simpl; try (intros; contradiction); try constructor.
Qed.

Lemma work_inv_submit sbs ass (me : User.t) (parsed : InsertSubmission.t) (date : Z) :
  work_inv sbs ass ->
  work_inv (push (fun id => stored_submission me parsed id date) sbs) ass.
Proof.
  intros [Hsw Haw Hk Hid Href Hm].
  assert (Hrows : rows (push (fun id => stored_submission me parsed id date) sbs)
                  = rows sbs ++ [(counter sbs, stored_submission me parsed (counter sbs) date)])
    by exact (push_rows (fun id => stored_submission me parsed id date) sbs Hsw).
  constructor.
  - apply wf_push. exact Hsw.
  - exact Haw.
  - rewrite Hrows, keys_app. simpl.
    apply NoDup_app; [exact Hk | repeat constructor; intros [] |].
    intros k Hin [<- | []].
    unfold wf_table, JsMap.below in Hsw. rewrite Forall_forall in Hsw.
    specialize (Hsw _ Hin). lia.
  - intros k s. rewrite Hrows. intros Hin. apply in_app_or in Hin.
    destruct Hin as [Hin | [Heq | []]]; [exact (Hid k s Hin) |].
    inversion Heq; subst. reflexivity.
  - intros a Hin. specialize (Href a Hin). cbn [push counter]. lia.
  - intros k s. rewrite Hrows. intros Hin. apply in_app_or in Hin.
    destruct Hin as [Hin | [Heq | []]]; [exact (Hm k s Hin) |].
    inversion Heq; subst. cbn [stored_submission Submission.status].
    unfold expected_status, assessments_of.
    rewrite filter_none; [reflexivity |].
    intros a Hin. specialize (Href a Hin). apply Z.eqb_neq. lia.
Qed.

Lemma set_present_in {V : Type} (k : Z) (v v0 : V) (m : JsMap.t V) :
  NoDup (JsMap.keys m) ->
  JsMap.get k m = Some v0 ->
  JsMap.keys (JsMap.set k v m) = JsMap.keys m /\
  (forall k' v', In (k', v') (JsMap.set k v m) ->
                 (k' = k /\ v' = v) \/ (k' <> k /\ In (k', v') m)).
Proof.
  intros Hnd Hg.
  destruct (JsMapFacts.set_present k v v0 m Hg) as (m1 & m2 & Hm & Hs & Hn).
  rewrite Hs. subst m. split.
  - rewrite !keys_app. reflexivity.
  - intros k' v' Hin. rewrite keys_app in Hnd. simpl in Hnd.
    apply NoDup_remove_2 in Hnd.
    apply in_app_or in Hin. destruct Hin as [Hin | [Heq | Hin]].
    + right. split; [| apply in_or_app; left; exact Hin].
      intros ->. apply Hnd. apply in_or_app. left. exact (in_keys _ _ _ Hin).
    + inversion Heq; subst. left. split; reflexivity.
    + right. split; [| apply in_or_app; right; right; exact Hin].
      intros ->. apply Hnd. apply in_or_app. right. exact (in_keys _ _ _ Hin).
Qed.

Lemma z_enum_in (values : list string) (v : option json) (s : string) :
  z_enum values v = Some s -> In s values.
Proof.
  unfold z_enum. destruct v as [[| | |x| |]|]; try discriminate.
  destruct (existsb (String.eqb x) values) eqn:Ex; [| discriminate].
  intros H. inversion H; subst.
  apply existsb_exists in Ex. destruct Ex as (y & Hin & Hy).
  apply String.eqb_eq in Hy. subst y. exact Hin.
Qed.

Lemma schema_status body b :
  insertAssessmentSchema body = Some b ->
  mirrored_status (InsertAssessment.status b) = InsertAssessment.status b.
Proof.
  unfold insertAssessmentSchema.
  repeat match goal with
         | |- match ?x with Some _ => _ | None => None end = Some _ -> _ =>
             destruct x eqn:?; [| discriminate]
         end.
  intros H. inversion H; subst. cbn [InsertAssessment.status].
  match goal with
  | E : z_enum assessment_statuses _ = Some _ |- _ => apply z_enum_in in E; rename E into Hin
  end.
  unfold mirrored_status.
  destruct Hin as [<- | [<- | [<- | []]]]; reflexivity.
Qed.

Lemma work_inv_assess sbs ass (me : User.t) (b : InsertAssessment.t)
    (submission : Submission.t) (date : Z) :
  work_inv sbs ass ->
  JsMap.get (InsertAssessment.submissionId b) (rows sbs) = Some submission ->
  mirrored_status (InsertAssessment.status b) = InsertAssessment.status b ->
  work_inv
    (put (InsertAssessment.submissionId b)
       (submission_with_status submission (mirrored_status (InsertAssessment.status b))) sbs)
    (push (fun id => assessment_by me b id date) ass).
Proof.
  intros [Hsw Haw Hk Hid Href Hm] Hget Hstatus.
  set (sid := InsertAssessment.submissionId b) in *.
  set (a := assessment_by me b (counter ass) date).
  assert (Hrows : rows (push (fun id => assessment_by me b id date) ass)
                  = rows ass ++ [(counter ass, a)])
    by exact (push_rows (fun id => assessment_by me b id date) ass Haw).
  destruct (set_present_in sid
              (submission_with_status submission (mirrored_status (InsertAssessment.status b)))
              submission (rows sbs) Hk Hget) as (Hkeys & Hin').
  assert (Hof : forall k,
            assessments_of (push (fun id => assessment_by me b id date) ass) k
            = assessments_of ass k ++ (if sid =? k then [a] else [])).
  { intros k. unfold assessments_of. rewrite Hrows, JsMapFacts.values_app, filter_app.
    reflexivity. }
  constructor.
  - eapply wf_put; eassumption.
  - apply wf_push. exact Haw.
  - cbn [put rows]. rewrite Hkeys. exact Hk.
  - cbn [put rows]. intros k s Hin. destruct (Hin' k s Hin) as [(-> & ->) | (_ & Hold)].
    + cbn [submission_with_status Submission.id].
      apply Hid. apply JsMapFacts.get_In. exact Hget.
    + exact (Hid k s Hold).
  - cbn [put counter]. intros x. rewrite Hrows, JsMapFacts.values_app. intros Hin.
    apply in_app_or in Hin. destruct Hin as [Hin | [<- | []]]; [exact (Href x Hin) |].
    cbn [a assessment_by Assessment.submissionId]. fold sid.
    eapply get_lt_counter; eassumption.
  - cbn [put rows]. intros k s Hin. rewrite Hof.
    destruct (Hin' k s Hin) as [(-> & ->) | (Hne & Hold)].
    + rewrite Z.eqb_refl. unfold expected_status. rewrite most_recent_snoc.
      cbn [submission_with_status Submission.status a assessment_by Assessment.status].
      exact Hstatus.
    + destruct (sid =? k) eqn:E; [apply Z.eqb_eq in E; congruence |].
      rewrite app_nil_r. exact (Hm k s Hold).
Qed.

Lemma same_work_refl st : same_work st st.
Proof. split; reflexivity. Qed.

Lemma same_work_trans st1 st2 st3 : same_work st1 st2 -> same_work st2 st3 -> same_work st1 st3.
Proof. unfold same_work. intros (-> & ->) (-> & ->). split; reflexivity. Qed.

Lemma same_assessments_refl st : same_assessments st st.
Proof. reflexivity. Qed.

Lemma same_assessments_trans st1 st2 st3 :
  same_assessments st1 st2 -> same_assessments st2 st3 -> same_assessments st1 st3.
Proof. unfold same_assessments. intros -> ->. reflexivity. Qed.

Lemma serve_post_submissions
    (clock : Clock) (u : option User.t) (addr : option string) (form : option json)
    (parts : list MulterFile.t) (st : MemStorage) :
  let st' := snd (serve clock (mkRequest u addr (POST_submissions form parts)) st) in
  assessments st' = assessments st /\
  (submissions st' = submissions st \/
   exists me parsed date,
     submissions st' = push (fun id => stored_submission me parsed id date) (submissions st)).
Proof.
  cbv zeta. split.
  - apply (serve_preserves same_assessments).
    unfold_route. cbn [user call ip isAuthenticated].
    frame_writes same_assessments_refl same_assessments_trans ltac:(reflexivity).
  - unfold serve, route, requireAuth, requireRole, isAuthenticated. cbn [user call].
    destruct u as [me|]; cbn [negb orb existsb]; [| left; reflexivity].
    destruct (String.eqb (User.role me) "trainee") eqn:Erole; cbn [negb orb];
      [| left; reflexivity].
    apply String.eqb_eq in Erole.
    destruct (upload parts) as [err | files] eqn:Eup; [left; reflexivity |].
    destruct form as [form|]; [| left; reflexivity].
    destruct (insertSubmissionSchema (JObj (("traineeId", JNum (User.id me)) :: spread form)))
      as [parsed|] eqn:Eform.
    + pose proof (post_submissions_created clock me addr form parts files parsed st
                    Erole Eup Eform) as H.
      unfold serve, route, requireAuth, requireRole, isAuthenticated in H.
      cbn [user call negb orb existsb] in H. rewrite Erole, Eup in H.
      cbn [negb orb String.eqb Ascii.eqb Bool.eqb] in H.
      destruct (post_submissions _ (Some form) files clock (st, 0%nat)) as [[res|e] w];
        cbv beta iota zeta in H; destruct H as (_ & Hs & _);
        right; exists me, parsed, (clock 0%nat); exact Hs.
    + left. unfold post_submissions, req_user. cbn [user].
      cbv [try_catch bind ret fst snd]. rewrite Eform. reflexivity.
Qed.

Lemma same_work_seed (s : Seed) : preserves same_work (seed s).
Proof.
  destruct s; unfold seed;
    frame_writes same_work_refl same_work_trans ltac:(split; reflexivity).
Qed.

Lemma store_inv_step st e : store_inv st -> store_inv (step st e).
Proof.
  unfold store_inv. intros Hinv.
  assert (Hframe : same_work st (step st e) ->
                   work_inv (submissions (step st e)) (assessments (step st e))).
  { intros (-> & ->). exact Hinv. }
  destruct e as [clock s | clock [u addr c]].
  - apply Hframe. apply (same_work_seed s clock st 0%nat).
  - destruct c as [id | body | body | body | form parts | body | body | id | id pdf];
      try solve
        [ apply Hframe; apply (serve_preserves same_work);
          unfold_route; cbn [user call ip isAuthenticated];
          frame_writes same_work_refl same_work_trans ltac:(split; reflexivity) ].
    + destruct (serve_post_submissions clock u addr form parts st)
        as (Ha & [Hs | (me & parsed & date & Hs)]); cbn [step]; rewrite Ha, Hs.
      * exact Hinv.
      * apply work_inv_submit. exact Hinv.
    + pose proof (serve_post_assessments clock u addr body st) as H. cbn [step].
      destruct (serve clock (mkRequest u addr (POST_assessments body)) st) as [res st'].
      cbn [snd].
      destruct H as [(-> & _) | (me & b & submission & _ & _ & Hb & Hsub & _ & H)];
        [exact Hinv |].
      destruct H as (_ & -> & -> & _).
      apply work_inv_assess; [exact Hinv | exact Hsub | exact (schema_status body b Hb)].
Qed.

Lemma reachable_store_inv st : reachable st -> store_inv st.
Proof.
  apply reachable_ind; [exact work_inv_new | intros; apply store_inv_step; assumption].
Qed.

(** C2. In every store reachable from the empty one by seeding and by
    requests, each submission carries the status of the assessment created
    last for it, and [pending] when it has none. *)
Theorem submission_status_mirrors_latest_assessment (st : MemStorage) :
  reachable st ->
  forall submission, In submission (getAllSubmissions st) -> mirrors st submission.
Proof.
  intros Hreach submission Hin.
  destruct (reachable_store_inv st Hreach) as [_ _ _ Hid _ Hm].
  unfold getAllSubmissions, submissionsMap, JsMap.values in Hin.
  apply in_map_iff in Hin. destruct Hin as ([k s] & Heq & Hin). simpl in Heq. subst s.
  unfold mirrors. rewrite (Hid k submission Hin).
  exact (Hm k submission Hin).
Qed.

Lemma submission_status_mirrors_latest_assessment_witness :
  Forall (mirrors (run assessed_twice)) (getAllSubmissions (run assessed_twice)).
Proof.
  apply Forall_forall.
  apply (submission_status_mirrors_latest_assessment (run assessed_twice)).
  exists assessed_twice. reflexivity.
Defined.

Example assessed_twice_statuses :
  map Submission.status (getAllSubmissions (run assessed_twice)) = ["approved"] /\
  map Assessment.status (getAssessmentsBySubmission 1 (run assessed_twice))
    = ["resubmit"; "approved"].
Proof. vm_compute. split; reflexivity. Qed.

(** ** Verifying an assessment that exists *)

Lemma post_verifications_created
    (clock : Clock) (req : Request) (me : User.t) (b : InsertVerification.t)
    (assessment : Assessment.t) (submission : Submission.t) (st : MemStorage) :
  user req = Some me ->
  getAssessment (InsertVerification.assessmentId b) st = Some assessment ->
  getSubmission (Assessment.submissionId assessment) st = Some submission ->
  let (r, w) := post_verifications req b clock (st, 0%nat) in
  let id := verificationIdCounter st in
  let rejected := String.eqb (InsertVerification.status b) "rejected" in
  r = Fulfilled (Json 201 (OfVerification (verification_by me b id (clock 0%nat)))) /\
  verifications (fst w)
    = push (fun id => verification_by me b id (clock 0%nat)) (verifications st) /\
  notifications (fst w)
    = (if String.eqb (InsertVerification.status b) "confirmed"
          && String.eqb (User.role me) "internal_verifier"
       then push_all (external_notice id clock) 1
              (getUsersByRole "external_verifier" st) (if rejected then 3 else 2)
       else fun t => t)
        ((if rejected then push (trainee_issue_notice submission id (clock 2%nat))
          else fun t => t)
           (push (assessor_notice assessment id (clock 1%nat)) (notifications st))).
Proof.
  intros Hme Hass Hsub.
  destruct st as [us ds sls cs cis ms uns ts asg sbs sfs ass vs ns als].
  run_methods in Hass. run_methods in Hsub.
  unfold post_verifications, req_user. rewrite Hme. run_methods.
  rewrite Hass, Hsub. unfold verification_by.
  destruct (String.eqb (InsertVerification.status b) "rejected") eqn:Erej;
    destruct (String.eqb (InsertVerification.status b) "confirmed"
              && String.eqb (User.role me) "internal_verifier") eqn:Econf;
    try (rewrite (for_of_push Notifications _
                    (fun clock => external_notice (counter vs) clock)
                    1 _ lawful_Notifications);
         [| intros x clock0 st0 n0; destruct st0; reflexivity | reflexivity];
         run_methods);
    repeat split.
Qed.

(** On the 201 path a confirmed verification by an internal verifier reaches
    every external verifier. *)
Lemma confirmed_internal_fan_out
    (clock : Clock) (req : Request) (me : User.t) (b : InsertVerification.t)
    (assessment : Assessment.t) (submission : Submission.t) (st : MemStorage) :
  wf st ->
  user req = Some me ->
  User.role me = "internal_verifier" ->
  InsertVerification.status b = "confirmed" ->
  getAssessment (InsertVerification.assessmentId b) st = Some assessment ->
  getSubmission (Assessment.submissionId assessment) st = Some submission ->
  forall verifier,
    In verifier (getUsersByRole "external_verifier" st) ->
    exists id notification,
      getNotification id st = None /\
      getNotification id (fst (snd (post_verifications req b clock (st, 0%nat))))
        = Some notification /\
      Notification.userId notification = User.id verifier /\
      Notification.isRead notification = false /\
      Notification.linkedItemId notification = Some (verificationIdCounter st).
Proof.
  intros Hwf Hme Hrole Hstatus Hass Hsub verifier Hin.
  pose proof (post_verifications_created clock req me b assessment submission st
                Hme Hass Hsub) as H.
  destruct (post_verifications req b clock (st, 0%nat)) as [r w].
  cbv zeta in H. destruct H as (_ & _ & Hn). cbn [fst snd].
  rewrite Hstatus, Hrole in Hn. cbn [String.eqb Ascii.eqb Bool.eqb andb] in Hn.
  destruct Hwf as (_ & _ & _ & _ & _ & _ & _ & _ & _ & _ & _ & _ & _ & Hns & _).
  set (t := notifications st) in *.
  set (notice := assessor_notice assessment (verificationIdCounter st) (clock 1%nat)) in *.
  pose proof (wf_push notice t Hns) as Hwf1.
  destruct (push_all_spec (external_notice (verificationIdCounter st) clock) 1
              (getUsersByRole "external_verifier" st) 2%nat (push notice t) Hwf1)
    as (Hrows & _ & _).
  destruct (get_pushed (external_notice (verificationIdCounter st) clock) 1
              (getUsersByRole "external_verifier" st) 2%nat (counter (push notice t))
              verifier Hin) as (k & m & Hk & Hg).
  exists k, (external_notice (verificationIdCounter st) clock verifier m k).
  cbn [push counter] in Hk.
  unfold getNotification, notificationsMap. rewrite Hn, Hrows. fold t.
  repeat split.
  - apply (JsMapFacts.get_below (counter t)); [exact Hns | lia].
  - rewrite get_app_r; [exact Hg |].
    apply (JsMapFacts.get_below (counter (push notice t))); [exact Hwf1 |].
    cbn [push counter]. exact Hk.
Qed.

(** A confirmed verification by an external verifier notifies the assessor
    and nobody else. *)
Lemma confirmed_external_no_fan_out
    (clock : Clock) (req : Request) (me : User.t) (b : InsertVerification.t)
    (assessment : Assessment.t) (submission : Submission.t) (st : MemStorage) :
  user req = Some me ->
  User.role me = "external_verifier" ->
  InsertVerification.status b = "confirmed" ->
  getAssessment (InsertVerification.assessmentId b) st = Some assessment ->
  getSubmission (Assessment.submissionId assessment) st = Some submission ->
  notifications (fst (snd (post_verifications req b clock (st, 0%nat))))
  = push (assessor_notice assessment (verificationIdCounter st) (clock 1%nat))
      (notifications st).
Proof.
  intros Hme Hrole Hstatus Hass Hsub.
  pose proof (post_verifications_created clock req me b assessment submission st
                Hme Hass Hsub) as H.
  destruct (post_verifications req b clock (st, 0%nat)) as [r w].
  cbv zeta in H. destruct H as (_ & _ & Hn). cbn [fst snd].
  rewrite Hstatus, Hrole in Hn. exact Hn.
Qed.

(** ** Listings sorted by date *)

Lemma sort_insert_perm {A : Type} (compare : A -> A -> Z) (x : A) (l : list A) :
  Permutation (sort_insert compare x l) (x :: l).
Proof.
  induction l as [|y l IH]; simpl; [apply Permutation_refl |].
  destruct (0 <? compare x y); [| apply Permutation_refl].
  eapply perm_trans; [apply perm_skip; exact IH | apply perm_swap].
Qed.

Lemma Array_sort_perm {A : Type} (compare : A -> A -> Z) (l : list A) :
  Permutation (Array_sort compare l) l.
Proof.
  induction l as [|x l IH]; simpl; [constructor |].
  eapply perm_trans; [apply sort_insert_perm | apply perm_skip; exact IH].
Qed.

Lemma sort_insert_sorted {A : Type} (date : A -> Z) (x : A) (l : list A) :
  StronglySorted (fun a b => date b <= date a) l ->
  StronglySorted (fun a b => date b <= date a) (sort_insert (newest_first date) x l).
Proof.
  induction l as [|y l IH]; simpl; intros Hs.
  - constructor; constructor.
  - inversion Hs as [|? ? Hl Hy]; subst. unfold newest_first at 1.
    destruct (0 <? date y - date x) eqn:E.
    + constructor; [apply IH; exact Hl |].
      apply Z.ltb_lt in E.
      eapply Permutation_Forall; [apply Permutation_sym, sort_insert_perm |].
      constructor; [lia | exact Hy].
    + apply Z.ltb_ge in E. constructor; [exact Hs |].
      constructor; [lia |].
      eapply Forall_impl; [| exact Hy]. simpl. intros a Ha. lia.
Qed.

Lemma Array_sort_sorted {A : Type} (date : A -> Z) (l : list A) :
  StronglySorted (fun a b => date b <= date a) (Array_sort (newest_first date) l).
Proof.
  induction l as [|x l IH]; simpl; [constructor | apply sort_insert_sorted; exact IH].
Qed.

Lemma sort_insert_dated {A : Type} (date : A -> Z) (d : Z) (x : A) (l : list A) :
  dated date d (sort_insert (newest_first date) x l) = dated date d (x :: l).
Proof.
  unfold dated. induction l as [|y l IH]; [reflexivity |].
  simpl. unfold newest_first at 1.
  destruct (0 <? date y - date x) eqn:E; [| reflexivity].
  apply Z.ltb_lt in E. simpl. rewrite IH. simpl.
  destruct (date x =? d) eqn:Ex; destruct (date y =? d) eqn:Ey; try reflexivity.
  apply Z.eqb_eq in Ex, Ey. lia.
Qed.

Lemma Array_sort_dated {A : Type} (date : A -> Z) (d : Z) (l : list A) :
  dated date d (Array_sort (newest_first date) l) = dated date d l.
Proof.
  induction l as [|x l IH]; [reflexivity |].
  simpl Array_sort. rewrite sort_insert_dated. unfold dated in *. simpl. rewrite IH.
  reflexivity.
Qed.

(** X1. [getNotificationsByUser] lists the notifications addressed to the
    user, each as often as the store holds it and no other, the newest
    first; notifications of the same date come in the order in which they
    were created. *)
Theorem getNotificationsByUser_newest_first (userId : Z) (st : MemStorage) :
  let mine :=
    filter (fun n => Notification.userId n =? userId)
      (JsMap.values (notificationsMap st)) in
  let listed := getNotificationsByUser userId st in
  Permutation listed mine /\
  StronglySorted (fun a b => Notification.createdAt b <= Notification.createdAt a) listed /\
  forall d, dated Notification.createdAt d listed = dated Notification.createdAt d mine.
Proof.
  cbv zeta. unfold getNotificationsByUser.
  change (fun a b : Notification.t => Notification.createdAt b - Notification.createdAt a)
    with (newest_first Notification.createdAt).
  split; [apply Array_sort_perm |].
  split; [apply Array_sort_sorted | intros d; apply Array_sort_dated].
Qed.

(** X2. [getAllActivityLogs] and [getActivityLogsByUser] list the whole
    log, respectively the entries of one user, the newest first, entries of
    the same date in the order in which they were written. *)
Theorem activity_logs_newest_first (userId : Z) (st : MemStorage) :
  let log := JsMap.values (activityLogsMap st) in
  let mine := filter (fun l => ActivityLog.userId l =? userId) log in
  (Permutation (getAllActivityLogs st) log /\
   StronglySorted (fun a b => ActivityLog.timestamp b <= ActivityLog.timestamp a)
     (getAllActivityLogs st) /\
   forall d, dated ActivityLog.timestamp d (getAllActivityLogs st)
             = dated ActivityLog.timestamp d log) /\
  (Permutation (getActivityLogsByUser userId st) mine /\
   StronglySorted (fun a b => ActivityLog.timestamp b <= ActivityLog.timestamp a)
     (getActivityLogsByUser userId st) /\
   forall d, dated ActivityLog.timestamp d (getActivityLogsByUser userId st)
             = dated ActivityLog.timestamp d mine).
Proof.
  cbv zeta. unfold getAllActivityLogs, getActivityLogsByUser.
  change (fun a b : ActivityLog.t => ActivityLog.timestamp b - ActivityLog.timestamp a)
    with (newest_first ActivityLog.timestamp).
  repeat split; auto using Array_sort_perm, Array_sort_sorted, Array_sort_dated.
Qed.

(** ** Identifiers *)

Lemma keeps_refl (I : MemStorage -> Prop) st : keeps I st st.
Proof. intros H; exact H. Qed.

Lemma keeps_trans (I : MemStorage -> Prop) st1 st2 st3 :
  keeps I st1 st2 -> keeps I st2 st3 -> keeps I st1 st3.
Proof. unfold keeps. auto. Qed.

(** What is read from a store with [I] may be used by what follows. *)
Lemma preserves_read_bind {A B : Type} (I : MemStorage -> Prop) (f : MemStorage -> A)
    (k : A -> Promise B) :
  (forall st, I st -> preserves (keeps I) (k (f st))) ->
  preserves (keeps I) (bind (read f) k).
Proof.
  intros H clock st n Hi. unfold bind, read. cbn [fst snd].
  exact (H st Hi clock st n Hi).
Qed.

(** As [frame_step], for a relation [keeps I]: what is read, and which way
    a test went, stay in the context. *)
Ltac keeps_step I leaf :=
  lazymatch goal with
  | |- preserves _ (ret _) => apply (preserves_ret _ (keeps_refl I))
  | |- preserves _ (read _) => apply (preserves_read _ (keeps_refl I))
  | |- preserves _ (throw _) => apply (preserves_throw _ (keeps_refl I))
  | |- preserves _ new_Date => apply (preserves_new_Date _ (keeps_refl I))
  | |- preserves _ (bind (read _) _) =>
      apply preserves_read_bind;
      let st := fresh "st" in let H := fresh "Hst" in intros st H; cbv beta
  | |- preserves _ (bind _ _) => apply (preserves_bind _ (keeps_trans I)); [| intros ?]
  | |- preserves _ (try_catch _ _) =>
      apply (preserves_try_catch _ (keeps_trans I)); [| intros ?]
  | |- preserves _ (for_of _ _) =>
      apply (preserves_for_of _ (keeps_refl I) (keeps_trans I)); intros ?
  | |- preserves _ (let _ := _ in _) => cbv zeta
  | |- preserves _ (if ?b then _ else _) => destruct b eqn:?
  | |- preserves _ (match ?x with _ => _ end) => destruct x eqn:?
  | |- preserves _ _ => leaf
  end.

Ltac keeps_with I leaf := repeat keeps_step I leaf.

Lemma first_ids_snoc (n : nat) : first_ids (S n) = first_ids n ++ [Z.of_nat n + 1].
Proof.
  unfold first_ids. rewrite seq_S, map_app. simpl. f_equal. f_equal. lia.
Qed.

Lemma first_ids_below (n : nat) : Forall (fun k => k < Z.of_nat n + 1) (first_ids n).
Proof.
  unfold first_ids. apply Forall_forall. intros k Hk.
  apply in_map_iff in Hk. destruct Hk as (i & <- & Hi). apply in_seq in Hi. lia.
Qed.

Lemma tidy_below {V : Type} (id : V -> Z) (t : Table V) :
  tidy_table id t -> wf_table t.
Proof.
  intros [Hk Hc _]. unfold wf_table, JsMap.below. rewrite Hk, Hc. apply first_ids_below.
Qed.

Lemma tidy_new {V : Type} (id : V -> Z) : tidy_table id (@new_Table V).
Proof. split; [reflexivity | reflexivity | constructor]. Qed.

Lemma tidy_push {V : Type} (id : V -> Z) (v : Z -> V) (t : Table V) :
  tidy_table id t -> id (v (counter t)) = counter t -> tidy_table id (push v t).
Proof.
  intros Ht Hid. pose proof (tidy_below id t Ht) as Hb. destruct Ht as [Hk Hc Hi].
  unfold push. cbn [rows counter].
  rewrite (JsMapFacts.set_fresh _ _ _ Hb).
  split; cbn [rows counter].
  - unfold JsMap.keys in *. rewrite map_app, length_app, Hk. cbn [map fst List.length].
    rewrite Nat.add_1_r, first_ids_snoc. f_equal. f_equal. lia.
  - rewrite length_app. cbn [List.length]. lia.
  - apply Forall_app. split; [exact Hi | constructor; [exact Hid | constructor]].
Qed.

Lemma tidy_put {V : Type} (id : V -> Z) (k : Z) (v v0 : V) (t : Table V) :
  tidy_table id t -> JsMap.get k (rows t) = Some v0 -> id v = k -> tidy_table id (put k v t).
Proof.
  intros [Hk Hc Hi] Hg Hid.
  destruct (JsMapFacts.set_present k v v0 (rows t) Hg) as (m1 & m2 & Hm & Hs & _).
  unfold put. cbn [rows counter]. rewrite Hs. rewrite Hm in *.
  split; cbn [rows counter].
  - unfold JsMap.keys in *. rewrite map_app, length_app in *. exact Hk.
  - rewrite length_app in *. exact Hc.
  - apply Forall_app in Hi. destruct Hi as (H1 & H2). inversion H2; subst.
    apply Forall_app. split; [exact H1 | constructor; [reflexivity | assumption]].
Qed.

(** In a tidy table a record is found under its id, and only there. *)
Lemma tidy_get {V : Type} (id : V -> Z) (t : Table V) (k : Z) (v : V) :
  tidy_table id t -> JsMap.get k (rows t) = Some v -> id v = k.
Proof.
  intros [_ _ Hi] Hg. apply JsMapFacts.get_In in Hg.
  rewrite Forall_forall in Hi. exact (Hi (k, v) Hg).
Qed.

Ltac tidy_create :=
  let clock := fresh "clock" in
  let st := fresh "st" in
  let n := fresh "n" in
  let H := fresh "H" in
  intros clock st n; destruct st; intros H; revert H;
  unfold tidy; cbn -[Z.add];
  intros (? & ? & ? & ? & ? & ? & ? & ? & ? & ? & ? & ? & ? & ? & ?);
  repeat apply conj; try assumption;
  apply (tidy_push _ (fun _ => _)); [assumption | reflexivity].

Lemma tidy_createUser ins : preserves (keeps tidy) (createUser ins).
Proof. tidy_create. Qed.

Lemma tidy_createDepartment ins : preserves (keeps tidy) (createDepartment ins).
Proof. tidy_create. Qed.

Lemma tidy_createStudyLevel ins : preserves (keeps tidy) (createStudyLevel ins).
Proof. tidy_create. Qed.

Lemma tidy_createCourse ins : preserves (keeps tidy) (createCourse ins).
Proof. tidy_create. Qed.

Lemma tidy_createClassIntake ins : preserves (keeps tidy) (createClassIntake ins).
Proof. tidy_create. Qed.

Lemma tidy_createModule ins : preserves (keeps tidy) (createModule ins).
Proof. tidy_create. Qed.

Lemma tidy_createUnit ins : preserves (keeps tidy) (createUnit ins).
Proof. tidy_create. Qed.

Lemma tidy_createTask ins : preserves (keeps tidy) (createTask ins).
Proof. tidy_create. Qed.

Lemma tidy_createAssignment ins : preserves (keeps tidy) (createAssignment ins).
Proof. tidy_create. Qed.

Lemma tidy_createSubmission ins : preserves (keeps tidy) (createSubmission ins).
Proof. tidy_create. Qed.

Lemma tidy_createSubmissionFile ins : preserves (keeps tidy) (createSubmissionFile ins).
Proof. tidy_create. Qed.

Lemma tidy_createAssessment ins : preserves (keeps tidy) (createAssessment ins).
Proof. tidy_create. Qed.

Lemma tidy_createVerification ins : preserves (keeps tidy) (createVerification ins).
Proof. tidy_create. Qed.

Lemma tidy_createNotification ins : preserves (keeps tidy) (createNotification ins).
Proof. tidy_create. Qed.

Lemma tidy_createActivityLog ins : preserves (keeps tidy) (createActivityLog ins).
Proof. tidy_create. Qed.

Ltac tidy_update :=
  let clock := fresh "clock" in
  let st := fresh "st" in
  let n := fresh "n" in
  let H := fresh "H" in
  let E := fresh "E" in
  let Hid := fresh "Hid" in
  intros Hid clock st n; destruct st; intros H; revert H;
  unfold tidy, updateUser, updateSubmission, updateNotification, bind, read,
    getUser, getSubmission, getNotification, usersMap, submissionsMap, notificationsMap;
  cbn -[Z.add];
  match goal with
  | |- context [JsMap.get ?k ?m] => destruct (JsMap.get k m) eqn:E
  end; cbn -[Z.add]; [| tauto];
  intros (? & ? & ? & ? & ? & ? & ? & ? & ? & ? & ? & ? & ? & ? & ?);
  repeat apply conj; try assumption;
  eapply (tidy_put _ _ _ _ _); [eassumption | exact E | apply Hid].

Lemma tidy_updateUser id data :
  (forall u, User.id (data u) = id) -> preserves (keeps tidy) (updateUser id data).
Proof. tidy_update. Qed.

Lemma tidy_updateSubmission id data :
  (forall s, Submission.id (data s) = id) -> preserves (keeps tidy) (updateSubmission id data).
Proof. tidy_update. Qed.

Lemma tidy_updateNotification id data :
  (forall n, Notification.id (data n) = id) ->
  preserves (keeps tidy) (updateNotification id data).
Proof. tidy_update. Qed.

Lemma tidy_getUser st k u : tidy st -> getUser k st = Some u -> User.id u = k.
Proof. intros H. apply (tidy_get User.id (users st)). apply H. Qed.

Lemma tidy_getSubmission st k s : tidy st -> getSubmission k st = Some s -> Submission.id s = k.
Proof. intros H. apply (tidy_get Submission.id (submissions st)). apply H. Qed.

Lemma tidy_getNotification st k n :
  tidy st -> getNotification k st = Some n -> Notification.id n = k.
Proof. intros H. apply (tidy_get Notification.id (notifications st)). apply H. Qed.

Ltac tidy_leaf :=
  idtac;
  lazymatch goal with
  | |- preserves _ (createUser _) => apply tidy_createUser
  | |- preserves _ (createDepartment _) => apply tidy_createDepartment
  | |- preserves _ (createStudyLevel _) => apply tidy_createStudyLevel
  | |- preserves _ (createCourse _) => apply tidy_createCourse
  | |- preserves _ (createClassIntake _) => apply tidy_createClassIntake
  | |- preserves _ (createModule _) => apply tidy_createModule
  | |- preserves _ (createUnit _) => apply tidy_createUnit
  | |- preserves _ (createTask _) => apply tidy_createTask
  | |- preserves _ (createAssignment _) => apply tidy_createAssignment
  | |- preserves _ (createSubmission _) => apply tidy_createSubmission
  | |- preserves _ (createSubmissionFile _) => apply tidy_createSubmissionFile
  | |- preserves _ (createAssessment _) => apply tidy_createAssessment
  | |- preserves _ (createVerification _) => apply tidy_createVerification
  | |- preserves _ (createNotification _) => apply tidy_createNotification
  | |- preserves _ (createActivityLog _) => apply tidy_createActivityLog
  | |- preserves _ (updateUser _ _) =>
      apply tidy_updateUser; intros ?; cbn; eauto using tidy_getUser
  | |- preserves _ (updateSubmission _ _) =>
      apply tidy_updateSubmission; intros ?; cbn; eauto using tidy_getSubmission
  | |- preserves _ (updateNotification _ _) =>
      apply tidy_updateNotification; intros ?; cbn; eauto using tidy_getNotification
  end.

Lemma tidy_route (req : Request) : preserves (keeps tidy) (route req).
Proof.
  destruct req as [u addr c]. destruct c; unfold_route; cbn [user call ip isAuthenticated];
    keeps_with tidy tidy_leaf.
Qed.

Lemma tidy_seed (s : Seed) : preserves (keeps tidy) (seed s).
Proof. destruct s; unfold seed; keeps_with tidy tidy_leaf. Qed.

Lemma tidy_new_MemStorage : tidy new_MemStorage.
Proof. unfold tidy. cbn. repeat split; apply tidy_new. Qed.

Lemma tidy_step st e : tidy st -> tidy (step st e).
Proof.
  destruct e as [clock s|clock req]; simpl.
  - apply (tidy_seed s clock st 0%nat).
  - apply (serve_preserves (keeps tidy)). apply tidy_route.
Qed.

Lemma reachable_tidy st : reachable st -> tidy st.
Proof.
  apply reachable_ind; [exact tidy_new_MemStorage | intros; apply tidy_step; assumption].
Qed.

Lemma first_ids_NoDup (n : nat) : NoDup (first_ids n).
Proof.
  unfold first_ids. apply NoDup_map_NoDup_ForallPairs; [| apply seq_NoDup].
  intros a b _ _ H. lia.
Qed.

Lemma get_of_In {V : Type} (k : Z) (v : V) (m : JsMap.t V) :
  NoDup (JsMap.keys m) -> In (k, v) m -> JsMap.get k m = Some v.
Proof.
  induction m as [|[k' v'] m IH]; simpl; intros Hnd Hin; [contradiction |].
  inversion Hnd as [|? ? Hk Hnd']; subst.
  destruct Hin as [Heq | Hin].
  - inversion Heq; subst. rewrite Z.eqb_refl. reflexivity.
  - destruct (k' =? k) eqn:E.
    + apply Z.eqb_eq in E. subst k'. exfalso. apply Hk.
      change k with (fst (k, v)). apply in_map. exact Hin.
    + apply IH; assumption.
Qed.

(** In a tidy table a record is found under its id, and only there. *)
Lemma tidy_lookup {V : Type} (id : V -> Z) (t : Table V) (k : Z) (v : V) :
  tidy_table id t ->
  JsMap.get k (rows t) = Some v <-> In v (JsMap.values (rows t)) /\ id v = k.
Proof.
  intros Ht. split.
  - intros Hg. split; [| exact (tidy_get id t k v Ht Hg)].
    apply JsMapFacts.get_In in Hg. unfold JsMap.values.
    change v with (snd (k, v)). apply in_map. exact Hg.
  - intros (Hin & Hid). unfold JsMap.values in Hin. apply in_map_iff in Hin.
    destruct Hin as ([k' v'] & Hv & Hin). simpl in Hv. subst v'.
    destruct Ht as [Hk _ Hi]. rewrite Forall_forall in Hi.
    pose proof (Hi (k', v) Hin) as Hk'. simpl in Hk'.
    apply get_of_In; [rewrite Hk; apply first_ids_NoDup |]. congruence.
Qed.

(** ** The reading routes *)

Ltac unfold_get :=
  unfold Get.serve, Get.route, Get.requireAuth, Get.requireRole, Get.get_users,
    Get.get_users_id, Get.get_units, Get.get_units_id_tasks, Get.get_assignments,
    Get.get_submissions, Get.get_submissions_id, Get.get_verifications,
    Get.get_notifications, Get.get_activity_logs, Get.get_activity_logs_user_id,
    Get.get_reports_trainee_performance, Get.get_reports_assessor_activity,
    Get.get_reports_assessment_outcomes, Get.req_user, Get.isAuthenticated;
  cbn [Get.user Get.query];
  cbv [try_catch bind ret read throw fst snd].

(** X3. A reading route never writes to the store, and it answers with a
    body or with one of the statuses 401, 403 and 404: never with 500. *)
Theorem get_routes_only_read (clock : Clock) (req : Get.Request) (st : MemStorage) :
  let (res, st') := Get.serve clock req st in
  st' = st /\
  ((exists body, res = Get.Json body) \/
   (exists status message,
      res = Get.Refused status message /\ (status = 401 \/ status = 403 \/ status = 404))).
Proof.
  destruct req as [[me|] q]; destruct q; unfold_get; cbn [negb orb andb existsb];
    repeat match goal with
           | |- context [if ?b then _ else _] => destruct b
           | |- context [match ?x with Some _ => _ | None => _ end] => destruct x
           end;
    (split; [reflexivity |]);
    first [ left; eexists; reflexivity
          | right; eexists; eexists; split; [reflexivity | tauto] ].
Qed.

Ltac split_ifs :=
  repeat match goal with
         | |- context [if ?b then _ else _] => destruct b eqn:?
         | |- context [match ?x with Some _ => _ | None => _ end] => destruct x eqn:?
         end.

(** X4. Whatever a trainee asks of the reading routes, every submission in
    the answer is the trainee's own. *)
Theorem trainee_reads_own_submissions
    (clock : Clock) (me : User.t) (q : Get.Query) (st : MemStorage) :
  User.role me = "trainee" ->
  Forall (fun s => Submission.traineeId s = User.id me) (submissions_in (asks clock me q st)).
Proof.
  intros Hrole. unfold asks. destruct q; unfold_get; rewrite ?Hrole;
    cbn [negb orb andb existsb String.eqb Ascii.eqb Bool.eqb];
    try solve [split_ifs; constructor].
  - cbn. unfold getSubmissionsByTrainee. apply Forall_forall. intros s Hs.
    apply filter_In in Hs. destruct Hs as (_ & Hs). apply Z.eqb_eq. exact Hs.
  - destruct (getSubmission id st) as [s|]; [| constructor].
    destruct (Submission.traineeId s =? User.id me) eqn:E; cbn; [| constructor].
    constructor; [apply Z.eqb_eq; exact E | constructor].
Qed.

Lemma trainee_reads_own_submissions_witness :
  Forall (fun s => Submission.traineeId s = User.id Demo.trainee)
    (submissions_in (asks Demo.clock Demo.trainee Get.GET_submissions Demo.store)).
Proof.
  apply (trainee_reads_own_submissions Demo.clock Demo.trainee Get.GET_submissions Demo.store).
  reflexivity.
Defined.

Lemma existsb_map {A B : Type} (f : B -> bool) (g : A -> B) (l : list A) :
  existsb f (map g l) = existsb (fun x => f (g x)) l.
Proof. induction l as [|x l IH]; simpl; [reflexivity | rewrite IH; reflexivity]. Qed.

(** X5. An assessor can open with [GET /api/submissions/:id] exactly the
    submissions that [GET /api/submissions] lists to that assessor. *)
Theorem assessor_opens_what_is_listed
    (clock : Clock) (me : User.t) (id : Z) (st : MemStorage) :
  reachable st ->
  User.role me = "assessor" ->
  (exists submission files assessments,
     asks clock me (Get.GET_submissions_id id) st
     = Get.Json (Get.OfSubmissionDetails submission files assessments))
  <-> In id (map Submission.id (submissions_in (asks clock me Get.GET_submissions st))).
Proof.
  intros Hreach Hrole.
  pose proof (reachable_tidy st Hreach) as Ht.
  assert (Hsub : tidy_table Submission.id (submissions st)) by apply Ht.
  unfold asks. unfold_get. rewrite !Hrole.
  cbn [negb orb andb existsb String.eqb Ascii.eqb Bool.eqb].
  cbn [submissions_in]. unfold getSubmissionsByAssessor. cbv zeta.
  rewrite in_map_iff. setoid_rewrite filter_In. setoid_rewrite existsb_map. cbn [fst snd].
  split.
  - intros (s & files & assessments & H).
    destruct (getSubmission id st) as [s'|] eqn:Es; [| discriminate].
    destruct (existsb _ (getAssignmentsByAssessor (User.id me) st)) eqn:Ea;
      cbn [negb] in H; [| discriminate].
    apply (tidy_lookup Submission.id _ id s' Hsub) in Es. destruct Es as (Hin & Hid).
    exists s'. split; [exact Hid |]. split; [exact Hin | exact Ea].
  - intros (s & Hid & Hin & Ha).
    assert (Es : getSubmission id st = Some s).
    { apply (tidy_lookup Submission.id _ id s Hsub). split; assumption. }
    rewrite Es, Ha. cbn [negb]. eexists. eexists. eexists. reflexivity.
Qed.

Lemma assessor_opens_what_is_listed_witness :
  (exists submission files assessments,
     asks Demo.clock Demo.assessor (Get.GET_submissions_id 1) Demo.store
     = Get.Json (Get.OfSubmissionDetails submission files assessments))
  <-> In 1 (map Submission.id
              (submissions_in (asks Demo.clock Demo.assessor Get.GET_submissions Demo.store))).
Proof.
  apply (assessor_opens_what_is_listed Demo.clock Demo.assessor 1 Demo.store).
  - exists Demo.history. reflexivity.
  - reflexivity.
Defined.

Example assessor_list_demo :
  map Submission.id
    (submissions_in (asks Demo.clock Demo.assessor Get.GET_submissions Demo.store)) = [1] /\
  submissions_in (asks Demo.clock Demo.other_assessor Get.GET_submissions Demo.store) = [].
Proof. vm_compute. split; reflexivity. Qed.

Lemma Forall_Array_sort {A : Type} (P : A -> Prop) (compare : A -> A -> Z) (l : list A) :
  Forall P l -> Forall P (Array_sort compare l).
Proof.
  apply Permutation_Forall. apply Permutation_sym. apply Array_sort_perm.
Qed.

Lemma Forall_filter_eqb {A : Type} (key : A -> Z) (k : Z) (l : list A) :
  Forall (fun x => key x = k) (filter (fun x => key x =? k) l).
Proof.
  apply Forall_forall. intros x Hx. apply filter_In in Hx. apply Z.eqb_eq. apply Hx.
Qed.

(** X6. Unless the caller is an admin, every user record, activity-log
    entry, assignment and verification that a reading route answers with is
    the caller's own; the notifications in an answer are the caller's own
    for every caller. *)
Theorem reader_sees_own_records
    (clock : Clock) (me : User.t) (q : Get.Query) (st : MemStorage) :
  reachable st ->
  let res := asks clock me q st in
  (User.role me = "admin" \/
   Forall (fun u => User.id u = User.id me) (users_in res) /\
   Forall (fun l => ActivityLog.userId l = User.id me) (logs_in res) /\
   Forall (fun a => Assignment.assessorId a = User.id me) (assignments_in res) /\
   Forall (fun v => Verification.verifierId v = User.id me) (verifications_in res)) /\
  Forall (fun n => Notification.userId n = User.id me) (notifications_in res).
Proof.
  intros Hreach. cbv zeta.
  pose proof (reachable_tidy st Hreach) as Ht.
  unfold asks.
  destruct (String.eqb (User.role me) "admin") eqn:Eadmin.
  - split; [left; apply String.eqb_eq; exact Eadmin |].
    destruct q; unfold_get; cbn [existsb]; rewrite ?Eadmin; cbn [negb orb andb];
      try solve [split_ifs; constructor].
    cbn. unfold getNotificationsByUser. apply Forall_Array_sort. apply Forall_filter_eqb.
  - split; [right |].
    + destruct q as [|id| |id| | |id| | | |id| | |]; unfold_get; cbn [existsb];
        rewrite ?Eadmin; cbn [negb orb andb];
        try solve [split_ifs; repeat split; constructor].
      * destruct (User.id me =? id) eqn:Eid; cbn [negb].
        -- apply Z.eqb_eq in Eid. subst id.
           destruct (getUser (User.id me) st) as [u|] eqn:Eu;
             cbn; repeat split; try constructor; try constructor.
           exact (tidy_getUser st _ u Ht Eu).
        -- cbn. repeat split; constructor.
      * destruct (String.eqb (User.role me) "assessor"); cbn [negb orb];
          cbn; repeat split; try constructor.
        unfold getAssignmentsByAssessor. apply Forall_filter_eqb.
      * destruct (String.eqb (User.role me) "internal_verifier") eqn:Ei; cbn [negb orb].
        -- cbn. repeat split; try constructor.
           unfold getVerificationsByVerifier. apply Forall_filter_eqb.
        -- destruct (String.eqb (User.role me) "external_verifier") eqn:Ee; cbn [negb orb];
             cbn; repeat split; try constructor.
           unfold getVerificationsByVerifier. apply Forall_filter_eqb.
      * destruct (User.id me =? id) eqn:Eid; cbn [negb]; cbn; repeat split; try constructor.
        apply Z.eqb_eq in Eid. subst id.
        unfold getActivityLogsByUser. apply Forall_Array_sort. apply Forall_filter_eqb.
    + destruct q; unfold_get; cbn [existsb]; rewrite ?Eadmin; cbn [negb orb andb];
        try solve [split_ifs; constructor].
      cbn. unfold getNotificationsByUser. apply Forall_Array_sort. apply Forall_filter_eqb.
Qed.

Lemma reader_sees_own_records_witness :
  let res := asks Demo.clock Demo.assessor Get.GET_assignments Demo.store in
  (User.role Demo.assessor = "admin" \/
   Forall (fun u => User.id u = User.id Demo.assessor) (users_in res) /\
   Forall (fun l => ActivityLog.userId l = User.id Demo.assessor) (logs_in res) /\
   Forall (fun a => Assignment.assessorId a = User.id Demo.assessor) (assignments_in res) /\
   Forall (fun v => Verification.verifierId v = User.id Demo.assessor) (verifications_in res)) /\
  Forall (fun n => Notification.userId n = User.id Demo.assessor) (notifications_in res).
Proof.
  apply (reader_sees_own_records Demo.clock Demo.assessor Get.GET_assignments Demo.store).
  exists Demo.history. reflexivity.
Defined.








(** ** Reports *)

Lemma values_set {V : Type} (P : V -> Prop) (k : Z) (v : V) (m : JsMap.t V) :
  Forall P (JsMap.values m) -> P v -> Forall P (JsMap.values (JsMap.set k v m)).
Proof.
  unfold JsMap.values. induction m as [|[k' v'] m IH]; simpl; intros Hm Hv.
  - constructor; [exact Hv | constructor].
  - inversion Hm; subst. destruct (k' =? k); simpl; constructor; auto.
Qed.

Lemma keys_set {V : Type} (k k' : Z) (v : V) (m : JsMap.t V) :
  In k' (JsMap.keys m) \/ k' = k -> In k' (JsMap.keys (JsMap.set k v m)).
Proof.
  unfold JsMap.keys. induction m as [|[k0 v0] m IH]; simpl.
  - intros [[] | ->]. left; reflexivity.
  - destruct (k0 =? k) eqn:E; simpl.
    + apply Z.eqb_eq in E. subst k0. intros [[H | H] | H]; auto.
    + intros [[H | H] | H]; auto.
Qed.

Lemma get_key {V : Type} (k : Z) (v : V) (m : JsMap.t V) :
  JsMap.get k m = Some v -> In k (JsMap.keys m).
Proof.
  intros H. apply JsMapFacts.get_In in H. unfold JsMap.keys.
  change k with (fst (k, v)). apply in_map. exact H.
Qed.

Lemma key_get {V : Type} (k : Z) (m : JsMap.t V) :
  In k (JsMap.keys m) -> exists v, JsMap.get k m = Some v.
Proof.
  unfold JsMap.keys. induction m as [|[k' v'] m IH]; simpl; [intros [] |].
  destruct (k' =? k) eqn:E; [eexists; reflexivity |].
  intros [H | H]; [apply Z.eqb_neq in E; contradiction | auto].
Qed.

Lemma graded_new : graded new_Table new_Table.
Proof. split; constructor. Qed.

Lemma graded_submit sbs ass (me : User.t) (parsed : InsertSubmission.t) (date : Z) :
  graded sbs ass ->
  graded (push (fun id => stored_submission me parsed id date) sbs) ass.
Proof.
  intros [Hs Ha Hr]. split; cbn [push rows].
  - apply values_set; [exact Hs |]. cbn. auto.
  - exact Ha.
  - eapply Forall_impl; [| exact Hr]. cbv beta. intros a H. apply keys_set. left. exact H.
Qed.

Lemma graded_assess sbs ass (me : User.t) (b : InsertAssessment.t)
    (submission : Submission.t) (date : Z) :
  graded sbs ass ->
  JsMap.get (InsertAssessment.submissionId b) (rows sbs) = Some submission ->
  In (InsertAssessment.status b) assessment_statuses ->
  graded
    (put (InsertAssessment.submissionId b)
       (submission_with_status submission (mirrored_status (InsertAssessment.status b))) sbs)
    (push (fun id => assessment_by me b id date) ass).
Proof.
  intros [Hs Ha Hr] Hg Hb. split; cbn [push put rows].
  - apply values_set; [exact Hs |]. cbn [submission_with_status Submission.status].
    unfold mirrored_status, stored_statuses.
    destruct (String.eqb _ "approved"); [simpl; auto |].
    destruct (String.eqb _ "rejected"); simpl; auto.
  - apply values_set; [exact Ha | exact Hb].
  - apply values_set.
    + eapply Forall_impl; [| exact Hr]. cbv beta. intros a H. apply keys_set. left. exact H.
    + cbn [assessment_by Assessment.submissionId]. apply keys_set. right. reflexivity.
Qed.

Lemma schema_status_in body b :
  insertAssessmentSchema body = Some b -> In (InsertAssessment.status b) assessment_statuses.
Proof.
  unfold insertAssessmentSchema.
  repeat match goal with
         | |- match ?x with Some _ => _ | None => None end = Some _ -> _ =>
             destruct x eqn:?; [| discriminate]
         end.
  intros H. inversion H; subst. cbn [InsertAssessment.status].
  eapply z_enum_in. eassumption.
Qed.

Lemma graded_step st e :
  graded (submissions st) (assessments st) ->
  graded (submissions (step st e)) (assessments (step st e)).
Proof.
  intros Hinv.
  assert (Hframe : same_work st (step st e) ->
                   graded (submissions (step st e)) (assessments (step st e))).
  { intros (-> & ->). exact Hinv. }
  destruct e as [clock s | clock [u addr c]].
  - apply Hframe. apply (same_work_seed s clock st 0%nat).
  - destruct c as [id | body | body | body | form parts | body | body | id | id pdf];
      try solve
        [ apply Hframe; apply (serve_preserves same_work);
          unfold_route; cbn [user call ip isAuthenticated];
          frame_writes same_work_refl same_work_trans ltac:(split; reflexivity) ].
    + destruct (serve_post_submissions clock u addr form parts st)
        as (Ha & [Hs | (me & parsed & date & Hs)]); cbn [step]; rewrite Ha, Hs.
      * exact Hinv.
      * apply graded_submit. exact Hinv.
    + pose proof (serve_post_assessments clock u addr body st) as H. cbn [step].
      destruct (serve clock (mkRequest u addr (POST_assessments body)) st) as [res st'].
      cbn [snd].
      destruct H as [(-> & _) | (me & b & submission & _ & _ & Hb & Hsub & _ & H)];
        [exact Hinv |].
      destruct H as (_ & -> & -> & _).
      apply graded_assess; [exact Hinv | exact Hsub | exact (schema_status_in body b Hb)].
Qed.

Lemma reachable_graded st : reachable st -> graded (submissions st) (assessments st).
Proof.
  apply (reachable_ind (fun st => graded (submissions st) (assessments st)));
    [exact graded_new | intros; apply graded_step; assumption].
Qed.

Lemma tally_outcome_sum (l : list Submission.t) : forall acc,
  Forall (fun s => In (Submission.status s) stored_statuses) l ->
  let acc' := fold_left tally_outcome l acc in
  o_approved acc' + o_rejected acc' + o_resubmit acc' + o_pending acc'
  = o_approved acc + o_rejected acc + o_resubmit acc + o_pending acc
    + Z.of_nat (List.length l).
Proof.
  induction l as [|s l IH]; intros acc Hl; cbn [fold_left List.length].
  - cbv zeta. lia.
  - inversion Hl as [|? ? Hs Hl']; subst. cbv zeta. rewrite (IH _ Hl').
    unfold tally_outcome. unfold stored_statuses in Hs. simpl in Hs.
    destruct Hs as [<- | [<- | [<- | [<- | []]]]]; cbn; lia.
Qed.

Lemma tally_submission_sum (st : MemStorage) (l : list Submission.t) : forall acc,
  Forall (fun s => In (Submission.status s) stored_statuses) l ->
  let acc' := fold_left (tally_submission st) l acc in
  t_approved acc' + t_rejected acc' + t_resubmit acc' + t_pending acc'
  = t_approved acc + t_rejected acc + t_resubmit acc + t_pending acc
    + Z.of_nat (List.length l).
Proof.
  induction l as [|s l IH]; intros acc Hl; cbn [fold_left List.length].
  - cbv zeta. lia.
  - inversion Hl as [|? ? Hs Hl']; subst. cbv zeta. rewrite (IH _ Hl').
    unfold tally_submission. unfold stored_statuses in Hs. simpl in Hs.
    destruct (getAssessmentsBySubmission (Submission.id s) st);
      destruct Hs as [<- | [<- | [<- | [<- | []]]]]; cbn; lia.
Qed.

Lemma Forall_filter {A : Type} (P : A -> Prop) (f : A -> bool) (l : list A) :
  Forall P l -> Forall P (filter f l).
Proof.
  intros H. apply Forall_forall. intros x Hx. apply filter_In in Hx.
  rewrite Forall_forall in H. apply H. apply Hx.
Qed.

(** X8. In every reachable store the status counts of a report row add
    up: in the assessment-outcomes report to the row's [totalSubmissions],
    in the trainee-performance report to its [submissionsCount]. *)
Theorem report_counts_add_up (specificTraineeIds : option (list Z)) (st : MemStorage) :
  reachable st ->
  Forall
    (fun row =>
       AssessmentOutcome.approvedCount row + AssessmentOutcome.rejectedCount row
       + AssessmentOutcome.resubmitCount row + AssessmentOutcome.pendingCount row
       = AssessmentOutcome.totalSubmissions row)
    (getAssessmentOutcomesReport st) /\
  Forall
    (fun row =>
       approvedCount row + rejectedCount row + resubmitCount row + pendingCount row
       = submissionsCount row)
    (getTraineePerformanceReport specificTraineeIds st).
Proof.
  intros Hreach. destruct (reachable_graded st Hreach) as [Hs _ _]. split.
  - unfold getAssessmentOutcomesReport. apply Forall_forall. intros row Hin.
    apply in_flat_map in Hin. destruct Hin as (unit & _ & Hin).
    apply in_map_iff in Hin. destruct Hin as (task & <- & _).
    unfold task_outcome. cbn.
    rewrite tally_outcome_sum; [cbn; lia |]. apply Forall_filter. exact Hs.
  - unfold getTraineePerformanceReport. apply Forall_forall. intros row Hin.
    apply in_map_iff in Hin. destruct Hin as (trainee & <- & _).
    unfold trainee_performance. cbn.
    rewrite tally_submission_sum; [cbn; lia |].
    unfold getSubmissionsByTrainee. apply Forall_filter. exact Hs.
Qed.

Lemma report_counts_add_up_witness :
  Forall
    (fun row =>
       AssessmentOutcome.approvedCount row + AssessmentOutcome.rejectedCount row
       + AssessmentOutcome.resubmitCount row + AssessmentOutcome.pendingCount row
       = AssessmentOutcome.totalSubmissions row)
    (getAssessmentOutcomesReport (run assessed_twice)) /\
  Forall
    (fun row =>
       approvedCount row + rejectedCount row + resubmitCount row + pendingCount row
       = submissionsCount row)
    (getTraineePerformanceReport None (run assessed_twice)).
Proof.
  apply (report_counts_add_up None (run assessed_twice)).
  exists assessed_twice. reflexivity.
Defined.





Example assessor_activity_demo :
  map (fun row => (AssessorActivity.assessorId row, AssessorActivity.assessmentsCount row,
                   AssessorActivity.approvedCount row, AssessorActivity.resubmitCount row))
    (getAssessorActivityReport (run assessed_twice))
  = [(2, 2, 1, 1); (6, 0, 0, 0)].
Proof. vm_compute. reflexivity. Qed.








(** The report on the two ways the route passes its ids. *)
Lemma getTraineePerformanceReport_of_ids (ids : list Z) (st : MemStorage) :
  getTraineePerformanceReport_of (map Some ids) st
  = getTraineePerformanceReport (Some ids) st.
Proof.
  unfold getTraineePerformanceReport_of, getTraineePerformanceReport.
  destruct ids as [|id ids]; [reflexivity |]. cbv zeta. rewrite map_map. reflexivity.
Qed.

Lemma getTraineePerformanceReport_of_nil (st : MemStorage) :
  getTraineePerformanceReport_of [] st = getTraineePerformanceReport None st.
Proof. reflexivity. Qed.

(** ** Who writes what *)

Lemma same_catalogue_refl st : same_catalogue st st.
Proof. repeat split. Qed.

Lemma same_catalogue_trans st1 st2 st3 :
  same_catalogue st1 st2 -> same_catalogue st2 st3 -> same_catalogue st1 st3.
Proof. unfold same_catalogue. intros (-> & -> & -> & -> & ->) (-> & -> & -> & -> & ->). repeat split. Qed.

Lemma same_administration_refl st : same_administration st st.
Proof. repeat split. Qed.

Lemma same_administration_trans st1 st2 st3 :
  same_administration st1 st2 -> same_administration st2 st3 -> same_administration st1 st3.
Proof. unfold same_administration. intros (-> & -> & -> & ->) (-> & -> & -> & ->). repeat split. Qed.

Lemma same_submissionFiles_refl st : same_submissionFiles st st.
Proof. reflexivity. Qed.

Lemma same_submissionFiles_trans st1 st2 st3 :
  same_submissionFiles st1 st2 -> same_submissionFiles st2 st3 -> same_submissionFiles st1 st3.
Proof. unfold same_submissionFiles. intros -> ->. reflexivity. Qed.

Lemma same_submissions_refl st : same_submissions st st.
Proof. reflexivity. Qed.

Lemma same_submissions_trans st1 st2 st3 :
  same_submissions st1 st2 -> same_submissions st2 st3 -> same_submissions st1 st3.
Proof. unfold same_submissions. intros -> ->. reflexivity. Qed.

Lemma same_verifications_refl st : same_verifications st st.
Proof. reflexivity. Qed.

Lemma same_verifications_trans st1 st2 st3 :
  same_verifications st1 st2 -> same_verifications st2 st3 -> same_verifications st1 st3.
Proof. unfold same_verifications. intros -> ->. reflexivity. Qed.

Lemma existsb_role (role : string) (roles : list string) :
  existsb (String.eqb role) roles = true -> In role roles.
Proof.
  intros H. apply existsb_exists in H. destruct H as (r & Hin & Hr).
  apply String.eqb_eq in Hr. subst r. exact Hin.
Qed.

(** A route behind [requireRole]: the caller holds the role, or the store stays. *)
Ltac role_gate :=
  let me := fresh "me" in
  let E := fresh "E" in
  unfold serve, route, requireAuth, requireRole, isAuthenticated, has_role;
  cbn [user call];
  lazymatch goal with
  | |- context [match ?u with Some _ => _ | None => _ end] =>
      destruct u as [me|]; cbn [negb orb]; [| right; repeat split]
  end;
  lazymatch goal with
  | |- context [existsb ?f ?roles] =>
      destruct (existsb f roles) eqn:E; cbn [negb orb];
      [ left; exists me; split; [reflexivity | apply existsb_role in E; simpl in E |- *; tauto]
      | right; repeat split ]
  end.

Ltac gated Hrefl Htrans :=
  first
    [ solve [ right; apply (serve_preserves _); unfold_route;
              cbn [user call ip isAuthenticated];
              frame_writes Hrefl Htrans ltac:(repeat split) ]
    | role_gate ].

(** X11. Whatever the request, it leaves the departments, study levels,
    courses, class intakes and modules as they are; it changes a user, the
    units, the tasks or the assignments only for an admin, the submission
    files only for a trainee, the submissions only for a trainee or an
    assessor, the assessments only for an assessor, and the verifications
    only for an internal or external verifier. *)
Theorem writes_need_role (clock : Clock) (req : Request) (st : MemStorage) :
  let st' := snd (serve clock req st) in
  same_catalogue st st' /\
  (has_role req ["admin"] \/ same_administration st st') /\
  (has_role req ["trainee"] \/ same_submissionFiles st st') /\
  (has_role req ["trainee"; "assessor"] \/ same_submissions st st') /\
  (has_role req ["assessor"] \/ same_assessments st st') /\
  (has_role req ["internal_verifier"; "external_verifier"] \/ same_verifications st st').
Proof.
  cbv zeta. destruct req as [u addr c].
  split.
  { apply (serve_preserves same_catalogue). destruct c; unfold_route;
      cbn [user call ip isAuthenticated];
      frame_writes same_catalogue_refl same_catalogue_trans ltac:(repeat split). }
  split; [destruct c; gated same_administration_refl same_administration_trans |].
  split; [destruct c; gated same_submissionFiles_refl same_submissionFiles_trans |].
  split; [destruct c; gated same_submissions_refl same_submissions_trans |].
  split; [destruct c; gated same_assessments_refl same_assessments_trans |].
  destruct c; gated same_verifications_refl same_verifications_trans.
Qed.

(** ** Requests that fail *)





(** ** The activity log *)

Lemma same_logs_refl st : same_logs st st.
Proof. reflexivity. Qed.

Lemma same_logs_trans st1 st2 st3 : same_logs st1 st2 -> same_logs st2 st3 -> same_logs st1 st3.
Proof. unfold same_logs. intros -> ->. reflexivity. Qed.

Lemma audited_ret userId addr (res : Response) :
  succeeded res = false -> audited userId addr (ret res).
Proof. intros H clock st n. left. split; [exact H | reflexivity]. Qed.

Lemma audited_throw userId addr (e : string) : audited userId addr (throw e).
Proof. intros clock st n. reflexivity. Qed.

Lemma audited_bind {A : Type} userId addr (m : Promise A) (k : A -> Promise Response) :
  preserves same_logs m -> (forall a, audited userId addr (k a)) ->
  audited userId addr (bind m k).
Proof.
  intros Hm Hk clock st n. unfold bind. specialize (Hm clock st n).
  destruct (m clock (st, n)) as [[a|e] [st1 n1]]; cbn [fst snd] in *; [| exact Hm].
  specialize (Hk a clock st1 n1). unfold same_logs in *.
  destruct (k a clock (st1, n1)) as [[res|e] w]; rewrite <- Hm; exact Hk.
Qed.

Lemma audited_ret_bind {A : Type} userId addr (a : A) (k : A -> Promise Response) :
  audited userId addr (k a) -> audited userId addr (bind (ret a) k).
Proof. intros H clock st n. exact (H clock st n). Qed.

Lemma audited_logActivity (req : Request) userId action details (k : unit -> Promise Response) :
  (forall a, crowned (k a)) ->
  audited userId (ip req) (bind (logActivity req userId action details) k).
Proof.
  intros Hk clock st n. unfold bind.
  assert (Hlog : exists date n',
             logActivity req userId action details clock (st, n)
             = (Fulfilled tt,
                (with_activityLogs (push (log_entry userId (ip req) action details date)) st,
                 n'))).
  { destruct st. eexists. eexists. unfold logActivity. run_methods. reflexivity. }
  destruct Hlog as (date & n' & ->).
  destruct (Hk tt clock
              (with_activityLogs (push (log_entry userId (ip req) action details date)) st, n'))
    as (res & w' & -> & Hres & Hsame).
  right. split; [exact Hres |]. exists action, details, date.
  unfold same_logs in Hsame. rewrite Hsame. destruct st. reflexivity.
Qed.

Lemma audited_try_catch userId addr (m : Promise Response) (res : Response) :
  succeeded res = false -> audited userId addr m ->
  audited userId addr (try_catch m (fun _ => ret res)).
Proof.
  intros Hres Hm clock st n. unfold try_catch. specialize (Hm clock st n).
  destruct (m clock (st, n)) as [[r|e] w]; [exact Hm |].
  left. split; [exact Hres | exact Hm].
Qed.

Lemma crowned_ret (res : Response) : succeeded res = true -> crowned (ret res).
Proof. intros H clock w. exists res, w. repeat split. exact H. Qed.

Lemma crowned_read {A : Type} (f : MemStorage -> A) (k : A -> Promise Response) :
  (forall a, crowned (k a)) -> crowned (bind (read f) k).
Proof. intros Hk clock w. unfold bind, read. apply Hk. Qed.

Ltac crown :=
  repeat lazymatch goal with
         | |- crowned (ret _) => apply crowned_ret; reflexivity
         | |- crowned (bind (read _) _) => apply crowned_read; intros ?
         end.

Ltac audit_step :=
  lazymatch goal with
  | |- audited _ _ (ret _) => apply audited_ret; reflexivity
  | |- audited _ _ (throw _) => apply audited_throw
  | |- audited _ _ (try_catch _ _) => apply audited_try_catch; [reflexivity |]
  | |- audited _ _ (bind (ret _) _) => apply audited_ret_bind
  | |- audited _ _ (bind (logActivity _ _ _ _) _) =>
      apply audited_logActivity; intros ?; crown
  | |- audited _ _ (bind _ _) =>
      apply audited_bind;
      [ frame_writes same_logs_refl same_logs_trans ltac:(reflexivity) | intros ? ]
  | |- audited _ _ (let _ := _ in _) => cbv zeta
  | |- audited _ _ (if ?b then _ else _) => destruct b
  | |- audited _ _ (match ?x with _ => _ end) => destruct x
  end.

Lemma audited_route (me : User.t) (addr : option string) (c : Call) :
  (forall id, c <> POST_notifications_read id) ->
  audited (User.id me) addr (route (mkRequest (Some me) addr c)).
Proof.
  intros Hc.
  destruct c as [id | body | body | body | form parts | body | body | id | id pdf];
    try (exfalso; exact (Hc id eq_refl));
    unfold route, requireAuth, requireRole, validateSchema, post_users_deactivate,
      post_units, post_tasks, post_assignments, post_submissions, post_assessments,
      post_verifications, get_export_portfolio, generatePortfolioPDF, req_user;
    cbn [user call isAuthenticated].
  all: repeat audit_step.
Qed.

(** X13. A request adds an entry to the activity log exactly when it
    succeeds, marking a notification as read apart, which never adds one; the
    entry is the only one added, and it carries the caller's id and the
    address of the request. *)
Theorem audit_trail (clock : Clock) (req : Request) (st : MemStorage) :
  let (res, st') := serve clock req st in
  (same_logs st st' /\
   (succeeded res = false \/ exists id, call req = POST_notifications_read id)) \/
  (succeeded res = true /\
   (forall id, call req <> POST_notifications_read id) /\
   exists me action details date,
     user req = Some me /\
     activityLogs st'
     = push (log_entry (User.id me) (ip req) action details date) (activityLogs st)).
Proof.
  destruct req as [[me|] addr c].
  - assert (Hread : forall id, c = POST_notifications_read id ->
              same_logs st (snd (serve clock (mkRequest (Some me) addr c) st))).
    { intros id ->. apply (serve_preserves same_logs). unfold_route.
      cbn [user call ip isAuthenticated].
      frame_writes same_logs_refl same_logs_trans ltac:(reflexivity). }
    assert (Hother : (forall id, c <> POST_notifications_read id) ->
              audited (User.id me) addr (route (mkRequest (Some me) addr c)))
      by apply audited_route.
    destruct c as [id | body | body | body | form parts | body | body | id | id pdf];
      try (specialize (Hother ltac:(discriminate)); specialize (Hother clock st 0%nat);
           unfold serve;
           destruct (route _ clock (st, 0%nat)) as [[res|e] w]; cbn [ip user];
           [ destruct Hother as [(Hres & Hlogs) | (Hres & action & details & date & Hlogs)];
             [ left; split; [exact Hlogs | left; exact Hres]
             | right; split; [exact Hres |];
               split; [intros ? Hq; cbn [call] in Hq; discriminate Hq |];
               exists me, action, details, date; split; [reflexivity | exact Hlogs] ]
           | left; split; [exact Hother | left; reflexivity] ]).
    specialize (Hread id eq_refl).
    destruct (serve clock (mkRequest (Some me) addr (POST_notifications_read id)) st)
      as [res st'].
    cbn [snd] in Hread. cbv beta iota. left. split; [exact Hread |].
    right. exists id. reflexivity.
  - destruct c; cbn; left; (split; [reflexivity | left; reflexivity]).
Qed.

(** The entry of the demo submission. *)
Example audit_trail_demo :
  map (fun l => (ActivityLog.userId l, ActivityLog.action l))
    (getAllActivityLogs Demo.store)
  = [(1, "created_submission"); (5, "created_assignment")].
Proof. vm_compute. reflexivity. Qed.

(** ** Records persist *)

Lemma extends_refl {V : Type} (t : Table V) : extends t t.
Proof. intros k v H. exact H. Qed.

Lemma extends_trans {V : Type} (t1 t2 t3 : Table V) :
  extends t1 t2 -> extends t2 t3 -> extends t1 t3.
Proof. unfold extends. auto. Qed.

Lemma extends_push {V : Type} (v : Z -> V) (t : Table V) :
  wf_table t -> extends t (push v t).
Proof.
  intros Hwf k v0 Hg. unfold push. cbn [rows].
  rewrite JsMapFacts.get_set_other; [exact Hg |].
  pose proof (get_lt_counter t k v0 Hwf Hg). lia.
Qed.

Lemma keeps_records_refl st : keeps_records st st.
Proof. repeat split; apply extends_refl. Qed.

Lemma grows_refl st : grows st st.
Proof. intros H. split; [exact H |]. split; [apply keeps_records_refl | apply extends_refl]. Qed.

Lemma grows_trans st1 st2 st3 : grows st1 st2 -> grows st2 st3 -> grows st1 st3.
Proof.
  intros H12 H23 Hwf. destruct (H12 Hwf) as (Hwf2 & Hk12 & Hn12).
  destruct (H23 Hwf2) as (Hwf3 & Hk23 & Hn23).
  split; [exact Hwf3 |]. split; [| eapply extends_trans; eassumption].
  unfold keeps_records in *.
  destruct Hk12 as (? & ? & ? & ? & ? & ? & ? & ? & ? & ? & ? & ?).
  destruct Hk23 as (? & ? & ? & ? & ? & ? & ? & ? & ? & ? & ? & ?).
  repeat apply conj; eapply extends_trans; eassumption.
Qed.

Ltac grows_by Hwf_method :=
  let clock := fresh "clock" in
  let st := fresh "st" in
  let n := fresh "n" in
  let H := fresh "H" in
  intros clock st n H; split; [exact (Hwf_method clock st n H) |];
  destruct st; revert H; unfold wf, keeps_records;
  unfold updateUser, updateSubmission, bind, read, getUser, getSubmission, usersMap,
    submissionsMap;
  cbn -[Z.add];
  try match goal with
      | |- context [JsMap.get ?k ?m] => destruct (JsMap.get k m)
      end; cbn -[Z.add];
  intros (? & ? & ? & ? & ? & ? & ? & ? & ? & ? & ? & ? & ? & ? & ?);
  repeat apply conj;
  first [ apply extends_refl | apply (extends_push (fun _ => _)); assumption ].

Lemma grows_createUser ins : preserves grows (createUser ins).
Proof. grows_by (wf_createUser ins). Qed.

Lemma grows_createDepartment ins : preserves grows (createDepartment ins).
Proof. grows_by (wf_createDepartment ins). Qed.

Lemma grows_createStudyLevel ins : preserves grows (createStudyLevel ins).
Proof. grows_by (wf_createStudyLevel ins). Qed.

Lemma grows_createCourse ins : preserves grows (createCourse ins).
Proof. grows_by (wf_createCourse ins). Qed.

Lemma grows_createClassIntake ins : preserves grows (createClassIntake ins).
Proof. grows_by (wf_createClassIntake ins). Qed.

Lemma grows_createModule ins : preserves grows (createModule ins).
Proof. grows_by (wf_createModule ins). Qed.

Lemma grows_createUnit ins : preserves grows (createUnit ins).
Proof. grows_by (wf_createUnit ins). Qed.

Lemma grows_createTask ins : preserves grows (createTask ins).
Proof. grows_by (wf_createTask ins). Qed.

Lemma grows_createAssignment ins : preserves grows (createAssignment ins).
Proof. grows_by (wf_createAssignment ins). Qed.

Lemma grows_createSubmission ins : preserves grows (createSubmission ins).
Proof. grows_by (wf_createSubmission ins). Qed.

Lemma grows_createSubmissionFile ins : preserves grows (createSubmissionFile ins).
Proof. grows_by (wf_createSubmissionFile ins). Qed.

Lemma grows_createAssessment ins : preserves grows (createAssessment ins).
Proof. grows_by (wf_createAssessment ins). Qed.

Lemma grows_createVerification ins : preserves grows (createVerification ins).
Proof. grows_by (wf_createVerification ins). Qed.

Lemma grows_createNotification ins : preserves grows (createNotification ins).
Proof. grows_by (wf_createNotification ins). Qed.

Lemma grows_createActivityLog ins : preserves grows (createActivityLog ins).
Proof. grows_by (wf_createActivityLog ins). Qed.

Lemma grows_updateUser id data : preserves grows (updateUser id data).
Proof. grows_by (wf_updateUser id data). Qed.

Lemma grows_updateSubmission id data : preserves grows (updateSubmission id data).
Proof. grows_by (wf_updateSubmission id data). Qed.

Ltac grows_leaf :=
  idtac;
  lazymatch goal with
  | |- preserves _ (createUser _) => apply grows_createUser
  | |- preserves _ (createDepartment _) => apply grows_createDepartment
  | |- preserves _ (createStudyLevel _) => apply grows_createStudyLevel
  | |- preserves _ (createCourse _) => apply grows_createCourse
  | |- preserves _ (createClassIntake _) => apply grows_createClassIntake
  | |- preserves _ (createModule _) => apply grows_createModule
  | |- preserves _ (createUnit _) => apply grows_createUnit
  | |- preserves _ (createTask _) => apply grows_createTask
  | |- preserves _ (createAssignment _) => apply grows_createAssignment
  | |- preserves _ (createSubmission _) => apply grows_createSubmission
  | |- preserves _ (createSubmissionFile _) => apply grows_createSubmissionFile
  | |- preserves _ (createAssessment _) => apply grows_createAssessment
  | |- preserves _ (createVerification _) => apply grows_createVerification
  | |- preserves _ (createNotification _) => apply grows_createNotification
  | |- preserves _ (createActivityLog _) => apply grows_createActivityLog
  | |- preserves _ (updateUser _ _) => apply grows_updateUser
  | |- preserves _ (updateSubmission _ _) => apply grows_updateSubmission
  end.

Lemma grows_seed (s : Seed) : preserves grows (seed s).
Proof. destruct s; unfold seed; frame_with grows_refl grows_trans grows_leaf. Qed.

Lemma grows_route (req : Request) :
  (forall id, call req <> POST_notifications_read id) -> preserves grows (route req).
Proof.
  destruct req as [u addr c]. cbn [call]. intros Hc.
  destruct c as [id | body | body | body | form parts | body | body | id | id pdf];
    try (exfalso; exact (Hc id eq_refl));
    unfold_route; cbn [user call ip isAuthenticated];
    frame_with grows_refl grows_trans grows_leaf.
Qed.

Lemma same_users_refl st : same_users st st.
Proof. reflexivity. Qed.

Lemma same_users_trans st1 st2 st3 : same_users st1 st2 -> same_users st2 st3 -> same_users st1 st3.
Proof. unfold same_users. intros -> ->. reflexivity. Qed.

(** Marking as read: the store stays, or the notification is replaced by
    its read copy. *)
Lemma serve_post_notifications_read
    (clock : Clock) (u : option User.t) (addr : option string) (id : Z) (st : MemStorage) :
  let st' := snd (serve clock (mkRequest u addr (POST_notifications_read id)) st) in
  st' = st \/
  exists notification,
    getNotification id st = Some notification /\
    st' = with_notifications (put id (notification_read notification)) st.
Proof.
  cbv zeta. destruct st as [us ds sls cs cis ms uns ts asg sbs sfs ass vs ns als].
  destruct u as [me|]; [| left; reflexivity].
  unfold serve. unfold_route. cbn [user call ip isAuthenticated negb].
  run_methods.
  destruct (JsMap.get id (let (rows, _) := ns in rows)) as [notification|] eqn:E;
    [| left; reflexivity].
  destruct (negb (Notification.userId notification =? User.id me)); [left; reflexivity |].
  rewrite E. cbn [fst snd]. right. exists notification. split; [reflexivity |].
  destruct ns. reflexivity.
Qed.

(** Deactivating: the store stays, or the user is replaced by the inactive
    copy and the log gets its entry. *)
Lemma serve_post_users_deactivate
    (clock : Clock) (u : option User.t) (addr : option string) (id : Z) (st : MemStorage) :
  let st' := snd (serve clock (mkRequest u addr (POST_users_deactivate id)) st) in
  users st' = users st \/
  exists user,
    getUser id st = Some user /\ users st' = put id (deactivated user) (users st).
Proof.
  cbv zeta. destruct st as [us ds sls cs cis ms uns ts asg sbs sfs ass vs ns als].
  destruct u as [me|]; [| left; reflexivity].
  unfold serve. unfold_route. cbn [user call ip isAuthenticated negb orb existsb].
  destruct (String.eqb (User.role me) "admin"); cbn [negb orb]; [| left; reflexivity].
  run_methods.
  destruct (JsMap.get id (let (rows, _) := us in rows)) as [user|] eqn:E;
    [| left; reflexivity].
  rewrite E. cbn [fst snd]. right. exists user. split; [reflexivity |].
  destruct us. reflexivity.
Qed.

Lemma get_put {V : Type} (t : Table V) (k k' : Z) (v : V) :
  JsMap.get k' (rows (put k v t))
  = if k =? k' then Some v else JsMap.get k' (rows t).
Proof.
  unfold put. cbn [rows]. destruct (k =? k') eqn:E.
  - apply Z.eqb_eq in E. subst. apply JsMapFacts.get_set_same.
  - apply Z.eqb_neq in E. apply JsMapFacts.get_set_other. exact E.
Qed.

Lemma submission_with_own_status (s : Submission.t) :
  submission_with_status s (Submission.status s) = s.
Proof. destruct s. reflexivity. Qed.

(** X14. No seeding step and no request removes a record or rewrites it,
    but for three fields: a user may turn inactive, a submission may change
    its status, and a notification may turn read. *)
Theorem records_persist (st : MemStorage) (e : Event) :
  wf st ->
  let st' := step st e in
  keeps_records st st' /\
  (forall id user,
     getUser id st = Some user ->
     getUser id st' = Some user \/ getUser id st' = Some (deactivated user)) /\
  (forall id submission,
     getSubmission id st = Some submission ->
     exists status, getSubmission id st' = Some (submission_with_status submission status)) /\
  (forall id notification,
     getNotification id st = Some notification ->
     getNotification id st' = Some notification \/
     getNotification id st' = Some (notification_read notification)).
Proof.
  intros Hwf. cbv zeta.
  assert (Hwf' := Hwf).
  destruct Hwf' as (Hus & _ & _ & _ & _ & _ & _ & _ & _ & Hsbs & _ & _ & _ & _ & _).
  assert (Hgrows : grows st (step st e) ->
            keeps_records st (step st e) /\
            forall id n, getNotification id st = Some n ->
                         getNotification id (step st e) = Some n \/
                         getNotification id (step st e) = Some (notification_read n)).
  { intros H. destruct (H Hwf) as (_ & Hk & Hn). split; [exact Hk |].
    intros id n Hg. left. exact (Hn id n Hg). }
  assert (Husers : same_users st (step st e) ->
            forall id user, getUser id st = Some user ->
                            getUser id (step st e) = Some user \/
                            getUser id (step st e) = Some (deactivated user)).
  { unfold same_users, getUser, usersMap. intros -> id user H. left. exact H. }
  assert (Hsubs : same_work st (step st e) ->
            forall id s, getSubmission id st = Some s ->
              exists status,
                getSubmission id (step st e) = Some (submission_with_status s status)).
  { unfold same_work, getSubmission, submissionsMap. intros (-> & _) id s H.
    exists (Submission.status s). rewrite submission_with_own_status. exact H. }
  assert (Hpart : forall A B C D : Prop, A /\ D -> B -> C -> A /\ B /\ C /\ D) by tauto.
  destruct e as [clock s | clock [u addr c]].
  - apply Hpart.
    + apply Hgrows. apply (grows_seed s clock st 0%nat).
    + destruct s;
        try solve [ apply Husers; unfold step, seed;
                    match goal with
                    | |- same_users _ (fst (snd (?m _ _))) =>
                        apply (ltac:(frame_writes same_users_refl same_users_trans
                                       ltac:(reflexivity)) : preserves same_users m)
                    end ].
      intros id user Hg. left. unfold step, seed.
      destruct st as [us ds sls cs cis ms uns ts asg sbs sfs ass vs ns als].
      run_methods. run_methods in Hg.
      apply (extends_push (fun _ => _) us Hus id user Hg).
    + apply Hsubs. apply (same_work_seed s clock st 0%nat).
  - destruct c as [id | body | body | body | form parts | body | body | id | id pdf].
    8:{ (* marking as read *)
      cbn [step].
      destruct (serve_post_notifications_read clock u addr id st)
        as [-> | (notification & Hn & ->)].
      - split; [apply keeps_records_refl |]. repeat split.
        + intros; left; assumption.
        + intros k s H. exists (Submission.status s).
          rewrite submission_with_own_status. exact H.
        + intros; left; assumption.
      - destruct st as [us ds sls cs cis ms uns ts asg sbs sfs ass vs ns als].
        split; [repeat split; apply extends_refl |]. repeat split.
        + intros; left; assumption.
        + intros k s H. exists (Submission.status s).
          rewrite submission_with_own_status. exact H.
        + intros k n Hg. unfold getNotification, notificationsMap in *.
          cbn [with_notifications notifications] in *. rewrite get_put.
          destruct (id =? k) eqn:E; [| left; exact Hg].
          apply Z.eqb_eq in E. subst k. right. congruence. }
    all: apply Hpart;
      [ apply Hgrows; apply (serve_preserves grows); apply grows_route;
        cbn [call]; intros ?; discriminate
      | | ].
    all: try solve
           [ apply Husers; apply (serve_preserves same_users); unfold_route;
             cbn [user call ip isAuthenticated];
             frame_writes same_users_refl same_users_trans ltac:(reflexivity) ].
    all: try solve
           [ apply Hsubs; apply (serve_preserves same_work); unfold_route;
             cbn [user call ip isAuthenticated];
             frame_writes same_work_refl same_work_trans ltac:(split; reflexivity) ].
    + (* deactivating a user *)
      cbn [step].
      destruct (serve_post_users_deactivate clock u addr id st)
        as [H | (user & Hu & H)]; intros k user' Hg;
        unfold getUser, usersMap in *; rewrite H; [left; exact Hg |].
      rewrite get_put. destruct (id =? k) eqn:E; [| left; exact Hg].
      apply Z.eqb_eq in E. subst k. right. congruence.
    + (* submitting *)
      cbn [step].
      destruct (serve_post_submissions clock u addr form parts st)
        as (_ & [Hs | (me & parsed & date & Hs)]); intros k s Hg;
        exists (Submission.status s); rewrite submission_with_own_status;
        unfold getSubmission, submissionsMap in *; rewrite Hs; [exact Hg |].
      apply (extends_push _ _ Hsbs k s Hg).
    + (* assessing *)
      cbn [step].
      pose proof (serve_post_assessments clock u addr body st) as H.
      destruct (serve clock (mkRequest u addr (POST_assessments body)) st) as [res st'].
      cbn [snd].
      destruct H as [(-> & _) | (me & b & submission & _ & _ & _ & Hsub & _ & H)];
        intros k s Hg.
      * exists (Submission.status s). rewrite submission_with_own_status. exact Hg.
      * destruct H as (_ & _ & Hs & _).
        unfold getSubmission, submissionsMap in *. rewrite Hs, get_put.
        destruct (InsertAssessment.submissionId b =? k) eqn:E.
        -- apply Z.eqb_eq in E. subst k. eexists.
           replace s with submission by congruence. reflexivity.
        -- exists (Submission.status s). rewrite submission_with_own_status. exact Hg.
Qed.

Lemma records_persist_witness :
  let st' :=
    step Demo.store
      (Demo.sent Demo.assessor (POST_assessments (Demo.assessment_form 1 "approved"))) in
  keeps_records Demo.store st' /\
  (forall id user,
     getUser id Demo.store = Some user ->
     getUser id st' = Some user \/ getUser id st' = Some (deactivated user)) /\
  (forall id submission,
     getSubmission id Demo.store = Some submission ->
     exists status, getSubmission id st' = Some (submission_with_status submission status)) /\
  (forall id notification,
     getNotification id Demo.store = Some notification ->
     getNotification id st' = Some notification \/
     getNotification id st' = Some (notification_read notification)).
Proof.
  apply (records_persist Demo.store
           (Demo.sent Demo.assessor (POST_assessments (Demo.assessment_form 1 "approved")))).
  apply reachable_wf. exists Demo.history. reflexivity.
Defined.

(** The submission of the demo store, before and after it is assessed. *)
Example records_persist_demo :
  let st' :=
    step Demo.store
      (Demo.sent Demo.assessor (POST_assessments (Demo.assessment_form 1 "approved"))) in
  option_map Submission.status (getSubmission 1 Demo.store) = Some "pending" /\
  option_map Submission.status (getSubmission 1 st') = Some "approved".
Proof. vm_compute. split; reflexivity. Qed.

(** ** Identifiers and references *)

(** X15. In every reachable store each table holds the ids 1, 2, ..., n in
    the order of creation, its counter stands at n + 1, and each record is
    stored under its own id. *)
Theorem ids_are_sequential (st : MemStorage) : reachable st -> tidy st.
Proof. exact (reachable_tidy st). Qed.

Lemma ids_are_sequential_witness : tidy (run assessed_twice).
Proof. apply (ids_are_sequential (run assessed_twice)). exists assessed_twice. reflexivity. Defined.

(** X16. In every reachable store looking a record up by id and finding it
    in the listing agree: [getX(id)] is the listed record whose id is [id]. *)
Theorem lookup_agrees_with_listing (st : MemStorage) :
  reachable st ->
  (forall id u, getUser id st = Some u <-> In u (getAllUsers st) /\ User.id u = id) /\
  (forall id d,
     getDepartment id st = Some d <-> In d (getAllDepartments st) /\ Department.id d = id) /\
  (forall id l,
     getStudyLevel id st = Some l <-> In l (getAllStudyLevels st) /\ StudyLevel.id l = id) /\
  (forall id c, getCourse id st = Some c <-> In c (getAllCourses st) /\ Course.id c = id) /\
  (forall id i,
     getClassIntake id st = Some i <-> In i (getAllClassIntakes st) /\ ClassIntake.id i = id) /\
  (forall id m,
     getModule id st = Some m <-> In m (getAllModules st) /\ CourseModule.id m = id) /\
  (forall id u, getUnit id st = Some u <-> In u (getAllUnits st) /\ Unit.id u = id) /\
  (forall id a,
     getAssignment id st = Some a <-> In a (getAllAssignments st) /\ Assignment.id a = id) /\
  (forall id s,
     getSubmission id st = Some s <-> In s (getAllSubmissions st) /\ Submission.id s = id) /\
  (forall id v,
     getVerification id st = Some v <->
     In v (getAllVerifications st) /\ Verification.id v = id).
Proof.
  intros Hreach. pose proof (reachable_tidy st Hreach) as Ht.
  destruct Ht as (Hus & Hds & Hsls & Hcs & Hcis & Hms & Huns & _ & Hasg & Hsbs & _ & _ & Hvs
                  & _ & _).
  repeat split; intros; eapply tidy_lookup; eassumption.
Qed.

Lemma lookup_agrees_with_listing_witness :
  (forall id u,
     getUser id Demo.store = Some u <-> In u (getAllUsers Demo.store) /\ User.id u = id) /\
  (forall id d,
     getDepartment id Demo.store = Some d <->
     In d (getAllDepartments Demo.store) /\ Department.id d = id) /\
  (forall id l,
     getStudyLevel id Demo.store = Some l <->
     In l (getAllStudyLevels Demo.store) /\ StudyLevel.id l = id) /\
  (forall id c,
     getCourse id Demo.store = Some c <-> In c (getAllCourses Demo.store) /\ Course.id c = id) /\
  (forall id i,
     getClassIntake id Demo.store = Some i <->
     In i (getAllClassIntakes Demo.store) /\ ClassIntake.id i = id) /\
  (forall id m,
     getModule id Demo.store = Some m <->
     In m (getAllModules Demo.store) /\ CourseModule.id m = id) /\
  (forall id u,
     getUnit id Demo.store = Some u <-> In u (getAllUnits Demo.store) /\ Unit.id u = id) /\
  (forall id a,
     getAssignment id Demo.store = Some a <->
     In a (getAllAssignments Demo.store) /\ Assignment.id a = id) /\
  (forall id s,
     getSubmission id Demo.store = Some s <->
     In s (getAllSubmissions Demo.store) /\ Submission.id s = id) /\
  (forall id v,
     getVerification id Demo.store = Some v <->
     In v (getAllVerifications Demo.store) /\ Verification.id v = id).
Proof.
  apply (lookup_agrees_with_listing Demo.store). exists Demo.history. reflexivity.
Defined.

Lemma same_evidence_refl st : same_evidence st st.
Proof. split; reflexivity. Qed.

Lemma same_evidence_trans st1 st2 st3 :
  same_evidence st1 st2 -> same_evidence st2 st3 -> same_evidence st1 st3.
Proof. unfold same_evidence. intros (-> & ->) (-> & ->). split; reflexivity. Qed.

Lemma push_all_Forall {A V : Type} (P : V -> Prop) (mk : A -> nat -> Z -> V) (d : nat)
    (l : list A) :
  (forall x n id, P (mk x n id)) ->
  forall n t,
    Forall P (JsMap.values (rows t)) ->
    Forall P (JsMap.values (rows (push_all mk d l n t))).
Proof.
  intros Hmk. induction l as [|x l IH]; intros n t Ht; cbn [push_all]; [exact Ht |].
  apply IH. unfold push. cbn [rows]. apply values_set; [exact Ht | apply Hmk].
Qed.

(** Submitting: the store stays, or the submission takes the next id and
    its files are filed under that id. *)
Lemma serve_post_submissions_files
    (clock : Clock) (u : option User.t) (addr : option string) (form : option json)
    (parts : list MulterFile.t) (st : MemStorage) :
  let st' := snd (serve clock (mkRequest u addr (POST_submissions form parts)) st) in
  st' = st \/
  exists me parsed files,
    submissions st'
    = push (fun id => stored_submission me parsed id (clock 0%nat)) (submissions st) /\
    submissionFiles st'
    = push_all (stored_file (submissionIdCounter st) clock) 2 files 1 (submissionFiles st).
Proof.
  cbv zeta.
  destruct u as [me|]; [| left; reflexivity].
  destruct (String.eqb (User.role me) "trainee") eqn:Erole.
  2:{ unfold serve, route, requireAuth, requireRole, isAuthenticated. cbn [user call].
      cbn [negb orb existsb]. rewrite Erole. left. reflexivity. }
  apply String.eqb_eq in Erole.
  destruct (upload parts) as [err | files] eqn:Eup.
  { unfold serve, route, requireAuth, requireRole, isAuthenticated. cbn [user call].
    cbn [negb orb existsb]. rewrite Erole, Eup. left. reflexivity. }
  destruct form as [form|].
  2:{ unfold serve, route, requireAuth, requireRole, isAuthenticated. cbn [user call].
      cbn [negb orb existsb]. rewrite Erole, Eup. left. reflexivity. }
  destruct (insertSubmissionSchema (JObj (("traineeId", JNum (User.id me)) :: spread form)))
    as [parsed|] eqn:Eform.
  - pose proof (post_submissions_created clock me addr form parts files parsed st
                  Erole Eup Eform) as H.
    destruct (serve clock (mkRequest (Some me) addr (POST_submissions (Some form) parts)) st)
      as [res st'].
    cbv zeta in H. destruct H as (_ & Hs & Hf & _). cbn [snd].
    right. exists me, parsed, files. split; assumption.
  - unfold serve, route, requireAuth, requireRole, isAuthenticated. cbn [user call].
    cbn [negb orb existsb]. rewrite Erole, Eup.
    cbn [negb orb String.eqb Ascii.eqb Bool.eqb].
    unfold post_submissions, req_user. cbn [user].
    cbv [try_catch bind ret fst snd]. rewrite Eform. left. reflexivity.
Qed.

Lemma filed_step st e :
  filed (submissions st) (submissionFiles st) ->
  filed (submissions (step st e)) (submissionFiles (step st e)).
Proof.
  unfold filed. intros Hinv.
  assert (Hframe : same_evidence st (step st e) ->
            Forall (fun f => In (SubmissionFile.submissionId f)
                               (JsMap.keys (rows (submissions (step st e)))))
              (JsMap.values (rows (submissionFiles (step st e))))).
  { intros (-> & ->). exact Hinv. }
  destruct e as [clock s | clock [u addr c]].
  - apply Hframe. unfold step.
    apply (ltac:(destruct s; unfold seed;
                 frame_writes same_evidence_refl same_evidence_trans
                   ltac:(split; reflexivity)) : preserves same_evidence (seed s)).
  - destruct c as [id | body | body | body | form parts | body | body | id | id pdf];
      try solve
        [ apply Hframe; apply (serve_preserves same_evidence);
          unfold_route; cbn [user call ip isAuthenticated];
          frame_writes same_evidence_refl same_evidence_trans ltac:(split; reflexivity) ].
    + cbn [step].
      destruct (serve_post_submissions_files clock u addr form parts st)
        as [-> | (me & parsed & files & -> & ->)]; [exact Hinv |].
      apply push_all_Forall.
      * intros x n id. cbn. apply keys_set. right. reflexivity.
      * eapply Forall_impl; [| exact Hinv]. cbv beta. intros f Hf.
        unfold push. cbn [rows]. apply keys_set. left. exact Hf.
    + cbn [step].
      assert (Hfiles : same_submissionFiles st
                (snd (serve clock (mkRequest u addr (POST_assessments body)) st))).
      { apply (serve_preserves same_submissionFiles). unfold_route.
        cbn [user call ip isAuthenticated].
        frame_writes same_submissionFiles_refl same_submissionFiles_trans
          ltac:(reflexivity). }
      pose proof (serve_post_assessments clock u addr body st) as H.
      destruct (serve clock (mkRequest u addr (POST_assessments body)) st) as [res st'].
      cbn [snd] in *. unfold same_submissionFiles in Hfiles. rewrite Hfiles.
      destruct H as [(-> & _) | (me & b & submission & _ & _ & _ & _ & _ & H)];
        [exact Hinv |].
      destruct H as (_ & _ & -> & _).
      eapply Forall_impl; [| exact Hinv]. cbv beta. intros f Hf.
      unfold put. cbn [rows]. apply keys_set. left. exact Hf.
Qed.

Lemma reachable_filed st : reachable st -> filed (submissions st) (submissionFiles st).
Proof.
  apply (reachable_ind (fun st => filed (submissions st) (submissionFiles st)));
    [constructor | intros; apply filed_step; assumption].
Qed.

(** X17. In every reachable store each assessment and each submission file
    names a stored submission. *)
Theorem evidence_belongs_to_submissions (st : MemStorage) :
  reachable st ->
  Forall (fun a => exists s, getSubmission (Assessment.submissionId a) st = Some s)
    (JsMap.values (assessmentsMap st)) /\
  Forall (fun f => exists s, getSubmission (SubmissionFile.submissionId f) st = Some s)
    (JsMap.values (submissionFilesMap st)).
Proof.
  intros Hreach. destruct (reachable_graded st Hreach) as [_ _ Hr].
  pose proof (reachable_filed st Hreach) as Hf. unfold filed in Hf.
  split; (eapply Forall_impl; [| eassumption]); cbv beta; intros x Hx;
    apply key_get; exact Hx.
Qed.

Lemma evidence_belongs_to_submissions_witness :
  Forall (fun a => exists s,
            getSubmission (Assessment.submissionId a) (run assessed_twice) = Some s)
    (JsMap.values (assessmentsMap (run assessed_twice))) /\
  Forall (fun f => exists s,
            getSubmission (SubmissionFile.submissionId f) (run assessed_twice) = Some s)
    (JsMap.values (submissionFilesMap (run assessed_twice))).
Proof.
  apply (evidence_belongs_to_submissions (run assessed_twice)).
  exists assessed_twice. reflexivity.
Defined.

(** A task may name a unit that is not stored: [POST /api/tasks] does not
    look the unit up. *)
Example task_of_missing_unit :
  let (res, st') :=
    serve Demo.clock
      (mkRequest (Some Demo.admin) None
         (POST_tasks (JObj [("unitId", JNum 99); ("name", JStr "orphan")]))) Demo.store in
  (exists task, res = Json 201 (OfTask task) /\ Task.unitId task = 99) /\
  getUnit 99 st' = None.
Proof. vm_compute. split; [eexists; split; reflexivity | reflexivity]. Qed.

(** ** What a route reads of the caller *)

(** X18. The answer to a request and the store it leaves depend on the
    caller only through the caller's id and role: in particular a route
    serves an account whose [isActive] is [false] as it serves an active
    one. *)
Theorem routes_read_id_and_role_only
    (clock : Clock) (me me' : User.t) (addr : option string) (c : Call) (q : Get.Query)
    (st : MemStorage) :
  User.id me' = User.id me ->
  User.role me' = User.role me ->
  serve clock (mkRequest (Some me') addr c) st = serve clock (mkRequest (Some me) addr c) st /\
  Get.serve clock (Get.mkRequest (Some me') q) st
  = Get.serve clock (Get.mkRequest (Some me) q) st.
Proof.
  destruct me as [id username password fullName email role d co ci created active].
  destruct me' as [id' username' password' fullName' email' role' d' co' ci' created' active'].
  cbn [User.id User.role]. intros -> ->. split.
  - destruct c; reflexivity.
  - destruct q; reflexivity.
Qed.

Lemma routes_read_id_and_role_only_witness :
  serve Demo.clock
    (mkRequest (Some (deactivated Demo.trainee)) None
       (POST_submissions (Some (Demo.submission_form 7)) [Demo.evidence])) Demo.store
  = serve Demo.clock
      (mkRequest (Some Demo.trainee) None
         (POST_submissions (Some (Demo.submission_form 7)) [Demo.evidence])) Demo.store /\
  Get.serve Demo.clock (Get.mkRequest (Some (deactivated Demo.trainee)) Get.GET_submissions)
    Demo.store
  = Get.serve Demo.clock (Get.mkRequest (Some Demo.trainee) Get.GET_submissions) Demo.store.
Proof.
  apply (routes_read_id_and_role_only Demo.clock Demo.trainee (deactivated Demo.trainee) None
           (POST_submissions (Some (Demo.submission_form 7)) [Demo.evidence])
           Get.GET_submissions Demo.store); reflexivity.
Defined.

(** ** What the workflow routes store *)






(** X22. An admin posts a schema-valid assignment. The answer is 201 with
    the assignment, which is stored under the next id, and the assessor it
    names gets one notification, of type [system], linked to it; the route
    looks up neither the assessor nor the unit. *)
Theorem assignment_notifies_assessor
    (clock : Clock) (me : User.t) (addr : option string) (body : json)
    (b : InsertAssignment.t) (st : MemStorage) :
  User.role me = "admin" ->
  insertAssignmentSchema body = Some b ->
  let (res, st') := serve clock (mkRequest (Some me) addr (POST_assignments body)) st in
  let assignment := stored_assignment b (clock 0%nat) (assignmentIdCounter st) in
  res = Json 201 (OfAssignment assignment) /\
  assignments st' = push (stored_assignment b (clock 0%nat)) (assignments st) /\
  notifications st' = push (assignment_notice assignment (clock 1%nat)) (notifications st).
Proof.
  intros Hrole Hb.
  unfold serve, route, requireAuth, requireRole, validateSchema, isAuthenticated.
  cbn [user call negb orb existsb]. rewrite Hrole, Hb.
  cbn [String.eqb Ascii.eqb Bool.eqb negb orb].
  destruct st as [us ds sls cs cis ms uns ts asg sbs sfs ass vs ns als].
  unfold post_assignments, req_user. cbn [user ip]. run_methods.
  repeat split.
Qed.

Lemma assignment_notifies_assessor_witness :
  let (res, st') :=
    serve Demo.clock
      (mkRequest (Some Demo.admin) None
         (POST_assignments
            (JObj [("classIntakeId", JNum 1); ("assessorId", JNum 6); ("unitId", JNum 7);
                   ("traineeId", JNum 1)]))) Demo.store in
  let assignment :=
    stored_assignment (InsertAssignment.mk 1 6 7 (Some 1)) (Demo.clock 0%nat)
      (assignmentIdCounter Demo.store) in
  res = Json 201 (OfAssignment assignment) /\
  assignments st'
  = push (stored_assignment (InsertAssignment.mk 1 6 7 (Some 1)) (Demo.clock 0%nat))
      (assignments Demo.store) /\
  notifications st'
  = push (assignment_notice assignment (Demo.clock 1%nat)) (notifications Demo.store).
Proof.
  apply (assignment_notifies_assessor Demo.clock Demo.admin None
           (JObj [("classIntakeId", JNum 1); ("assessorId", JNum 6); ("unitId", JNum 7);
                  ("traineeId", JNum 1)])
           (InsertAssignment.mk 1 6 7 (Some 1)) Demo.store); reflexivity.
Defined.


(** X23. An admin deactivates a user: when the id names a user, the answer
    is 200 and the user's record is replaced by a copy that differs in
    [isActive] only, which is [false]; when it names none, the answer is 404
    and the store stays. *)
Theorem deactivation_flips_isActive
    (clock : Clock) (me : User.t) (addr : option string) (id : Z) (st : MemStorage) :
  User.role me = "admin" ->
  let (res, st') := serve clock (mkRequest (Some me) addr (POST_users_deactivate id)) st in
  match getUser id st with
  | Some user =>
      res = Json 200 (Message "User deactivated successfully") /\
      users st' = put id (deactivated user) (users st)
  | None => res = Json 404 (Message "User not found") /\ st' = st
  end.
Proof.
  intros Hrole.
  unfold serve, route, requireAuth, requireRole, isAuthenticated.
  cbn [user call negb orb existsb]. rewrite Hrole.
  cbn [String.eqb Ascii.eqb Bool.eqb negb orb].
  destruct st as [us ds sls cs cis ms uns ts asg sbs sfs ass vs ns als].
  unfold post_users_deactivate, req_user. cbn [user ip]. run_methods.
  destruct (JsMap.get id (let (rows, _) := us in rows)) as [user|] eqn:E.
  - rewrite E. cbn [fst snd]. split; [reflexivity |]. destruct us. reflexivity.
  - split; reflexivity.
Qed.

Lemma deactivation_flips_isActive_witness :
  let (res, st') :=
    serve Demo.clock (mkRequest (Some Demo.admin) None (POST_users_deactivate 1)) Demo.store in
  match getUser 1 Demo.store with
  | Some user =>
      res = Json 200 (Message "User deactivated successfully") /\
      users st' = put 1 (deactivated user) (users Demo.store)
  | None => res = Json 404 (Message "User not found") /\ st' = Demo.store
  end.
Proof.
  apply (deactivation_flips_isActive Demo.clock Demo.admin None 1 Demo.store). reflexivity.
Defined.

(** X24. An admin posts a schema-valid unit and a schema-valid task to a
    well-formed store. Each answer is 201 with the record stored under the
    next id, and the listings show it last: [GET /api/units] after the
    units listed before, [GET /api/units/:id/tasks], for the unit the task
    names, after the tasks listed before. *)
Theorem created_unit_and_task_are_listed
    (clock : Clock) (me reader : User.t) (addr : option string) (unit_body task_body : json)
    (u : InsertUnit.t) (t : InsertTask.t) (st : MemStorage) :
  wf st ->
  User.role me = "admin" ->
  insertUnitSchema unit_body = Some u ->
  insertTaskSchema task_body = Some t ->
  (let (res, st') := serve clock (mkRequest (Some me) addr (POST_units unit_body)) st in
   let unit := stored_unit u (unitIdCounter st) in
   res = Json 201 (OfUnit unit) /\
   asks clock reader Get.GET_units st' = Get.Json (Get.OfUnits (getAllUnits st ++ [unit]))) /\
  (let (res, st') := serve clock (mkRequest (Some me) addr (POST_tasks task_body)) st in
   let task := stored_task t (taskIdCounter st) in
   res = Json 201 (OfTask task) /\
   asks clock reader (Get.GET_units_id_tasks (Task.unitId task)) st'
   = Get.Json (Get.OfTasks (getTasksByUnit (Task.unitId task) st ++ [task]))).
Proof.
  intros Hwf Hrole Hu Ht.
  destruct Hwf as (_ & _ & _ & _ & _ & _ & Huns & Hts & _).
  destruct st as [us ds sls cs cis ms uns ts asg sbs sfs ass vs ns als].
  cbn [units tasks] in Huns, Hts.
  unfold serve, route, requireAuth, requireRole, validateSchema, isAuthenticated.
  cbn [user call negb orb existsb]. rewrite Hrole, Hu, Ht.
  cbn [String.eqb Ascii.eqb Bool.eqb negb orb].
  unfold post_units, post_tasks, req_user. cbn [user ip]. run_methods.
  unfold asks. unfold_get. cbn [negb]. 
  unfold getAllUnits, getTasksByUnit, unitsMap, tasksMap, unitIdCounter, taskIdCounter,
    stored_unit, stored_task.
  cbn [units tasks rows counter Task.unitId].
  change (let (rows, _) := uns in rows) with (rows uns).
  change (let (_, counter) := uns in counter) with (counter uns).
  change (let (rows, _) := ts in rows) with (rows ts).
  change (let (_, counter) := ts in counter) with (counter ts).
  rewrite (JsMapFacts.set_fresh _ _ _ Huns), (JsMapFacts.set_fresh _ _ _ Hts).
  rewrite !JsMapFacts.values_app. cbn [JsMap.values map snd].
  rewrite filter_app. cbn [filter Task.unitId]. rewrite Z.eqb_refl.
  repeat split.
Qed.

Lemma created_unit_and_task_are_listed_witness :
  (let (res, st') :=
     serve Demo.clock
       (mkRequest (Some Demo.admin) None
          (POST_units (JObj [("name", JStr "Databases"); ("code", JStr "DB101");
                             ("courseId", JNum 1)]))) Demo.store in
   let unit :=
     stored_unit (InsertUnit.mk "Databases" "DB101" (Some 1) None None None)
       (unitIdCounter Demo.store) in
   res = Json 201 (OfUnit unit) /\
   asks Demo.clock Demo.trainee Get.GET_units st'
   = Get.Json (Get.OfUnits (getAllUnits Demo.store ++ [unit]))) /\
  (let (res, st') :=
     serve Demo.clock
       (mkRequest (Some Demo.admin) None
          (POST_tasks (JObj [("unitId", JNum 7); ("name", JStr "ER model")]))) Demo.store in
   let task := stored_task (InsertTask.mk 7 "ER model" None None) (taskIdCounter Demo.store) in
   res = Json 201 (OfTask task) /\
   asks Demo.clock Demo.trainee (Get.GET_units_id_tasks (Task.unitId task)) st'
   = Get.Json (Get.OfTasks (getTasksByUnit (Task.unitId task) Demo.store ++ [task]))).
Proof.
  apply (created_unit_and_task_are_listed Demo.clock Demo.admin Demo.trainee None
           (JObj [("name", JStr "Databases"); ("code", JStr "DB101"); ("courseId", JNum 1)])
           (JObj [("unitId", JNum 7); ("name", JStr "ER model")])
           (InsertUnit.mk "Databases" "DB101" (Some 1) None None None)
           (InsertTask.mk 7 "ER model" None None) Demo.store).
  - apply reachable_wf. exists Demo.history. reflexivity.
  - reflexivity.
  - reflexivity.
  - reflexivity.
Defined.

(** X25. A portfolio is handed out only where the code lets the caller
    have it: a trainee gets the own portfolio only, an assessor only that of
    a trainee whom one of the assessor's assignments names, and in every
    case the id names a user. *)
Theorem export_needs_standing
    (clock : Clock) (me : User.t) (addr : option string) (traineeId : Z)
    (pdf : option string) (path : string) (st : MemStorage) :
  fst (serve clock (mkRequest (Some me) addr (GET_export_portfolio traineeId pdf)) st)
  = Download path ->
  (User.role me = "trainee" -> traineeId = User.id me) /\
  (User.role me = "assessor" ->
   exists a, In a (getAssignmentsByAssessor (User.id me) st) /\
             Assignment.traineeId a = Some traineeId) /\
  (exists user, getUser traineeId st = Some user) /\
  pdf = Some path.
Proof.
  unfold serve, route, requireAuth, isAuthenticated. cbn [user call negb].
  unfold get_export_portfolio, generatePortfolioPDF, req_user, logActivity. cbn [user ip].
  destruct st as [us ds sls cs cis ms uns ts asg sbs sfs ass vs ns als].
  cbv [try_catch bind ret read throw fst snd].
  destruct (String.eqb (User.role me) "trainee") eqn:Et; cbn [andb].
  - destruct (User.id me =? traineeId) eqn:Eid; cbn [negb]; [| discriminate].
    apply Z.eqb_eq in Eid. apply String.eqb_eq in Et.
    replace (String.eqb (User.role me) "assessor") with false
      by (rewrite Et; reflexivity).
    cbn [negb].
    destruct (getUser traineeId _) as [user|] eqn:Eu; [| discriminate].
    destruct pdf as [p|]; [| discriminate].
    intros H. repeat split.
    + intros _. symmetry. exact Eid.
    + intros Ha. rewrite Et in Ha. discriminate.
    + exists user. reflexivity.
    + revert H. run_methods. intros H. congruence.
  - destruct (String.eqb (User.role me) "assessor") eqn:Ea.
    + destruct (existsb _ _) eqn:Ex; cbn [negb]; [| discriminate].
      destruct (getUser traineeId _) as [user|] eqn:Eu; [| discriminate].
      destruct pdf as [p|]; [| discriminate].
      intros H. repeat split.
      * intros Ht. rewrite Ht in Et. discriminate.
      * intros _. apply existsb_exists in Ex. destruct Ex as (a & Hin & Hs).
        exists a. split; [exact Hin | apply strict_eq_true; exact Hs].
      * exists user. reflexivity.
      * revert H. run_methods. intros H. congruence.
    + cbn [negb].
      destruct (getUser traineeId _) as [user|] eqn:Eu; [| discriminate].
      destruct pdf as [p|]; [| discriminate].
      intros H. repeat split.
      * intros Ht. rewrite Ht in Et. discriminate.
      * intros Ht. rewrite Ht in Ea. discriminate.
      * exists user. reflexivity.
      * revert H. run_methods. intros H. congruence.
Qed.

Lemma export_needs_standing_witness :
  (User.role Demo.trainee = "trainee" -> 1 = User.id Demo.trainee) /\
  (User.role Demo.trainee = "assessor" ->
   exists a, In a (getAssignmentsByAssessor (User.id Demo.trainee) Demo.store) /\
             Assignment.traineeId a = Some 1) /\
  (exists user, getUser 1 Demo.store = Some user) /\
  Some "portfolio.pdf" = Some "portfolio.pdf".
Proof.
  apply (export_needs_standing Demo.clock Demo.trainee None 1 (Some "portfolio.pdf")
           "portfolio.pdf" Demo.store).
  reflexivity.
Defined.

(** ** The data of a new store *)

Lemma seeded_refl st : seeded st st.
Proof. exists []. reflexivity. Qed.

Lemma seeded_trans st1 st2 st3 : seeded st1 st2 -> seeded st2 st3 -> seeded st1 st3.
Proof.
  intros (h1 & ->) (h2 & ->). exists (h1 ++ h2). rewrite map_app, fold_left_app. reflexivity.
Qed.

Ltac seeded_by s :=
  let clock := fresh "clock" in
  let st := fresh "st" in
  let n := fresh "n" in
  intros clock st n; exists [((fun k => clock (k + n)%nat), s)];
  destruct st; reflexivity.

Lemma seeded_createUser ins : preserves seeded (createUser ins).
Proof. seeded_by (SeedUser ins). Qed.

Lemma seeded_createDepartment ins : preserves seeded (createDepartment ins).
Proof. seeded_by (SeedDepartment ins). Qed.

Lemma seeded_createStudyLevel ins : preserves seeded (createStudyLevel ins).
Proof. seeded_by (SeedStudyLevel ins). Qed.

Lemma seeded_createCourse ins : preserves seeded (createCourse ins).
Proof. seeded_by (SeedCourse ins). Qed.

Lemma seeded_createClassIntake ins : preserves seeded (createClassIntake ins).
Proof. seeded_by (SeedClassIntake ins). Qed.

Lemma seeded_createModule ins : preserves seeded (createModule ins).
Proof. seeded_by (SeedModule ins). Qed.

Lemma seeded_createUnit ins : preserves seeded (createUnit ins).
Proof. seeded_by (SeedUnit ins). Qed.

Lemma seeded_createTask ins : preserves seeded (createTask ins).
Proof. seeded_by (SeedTask ins). Qed.

Ltac seeded_leaf :=
  idtac;
  lazymatch goal with
  | |- preserves _ (createUser _) => apply seeded_createUser
  | |- preserves _ (createDepartment _) => apply seeded_createDepartment
  | |- preserves _ (createStudyLevel _) => apply seeded_createStudyLevel
  | |- preserves _ (createCourse _) => apply seeded_createCourse
  | |- preserves _ (createClassIntake _) => apply seeded_createClassIntake
  | |- preserves _ (createModule _) => apply seeded_createModule
  | |- preserves _ (createUnit _) => apply seeded_createUnit
  | |- preserves _ (createTask _) => apply seeded_createTask
  end.

Lemma seeded_seedInitialData hashed : preserves seeded (seedInitialData hashed).
Proof. unfold seedInitialData. frame_with seeded_refl seeded_trans seeded_leaf. Qed.

(** X26. The store of a new [MemStorage] is reachable by seeding steps, so
    that what holds of every reachable store holds of it; it has one
    account, the admin's, and every course, class intake, module and task
    in it names a department, study level, course or unit that it holds. *)
Theorem constructed_store_is_reachable (hashed : string) (clock : Clock) :
  let st := constructed hashed clock in
  reachable st /\
  map User.role (getAllUsers st) = ["admin"] /\
  Forall (fun c => (exists d, getDepartment (Course.departmentId c) st = Some d) /\
                   (exists l, getStudyLevel (Course.studyLevelId c) st = Some l))
    (getAllCourses st) /\
  Forall (fun i => exists c, getCourse (ClassIntake.courseId i) st = Some c)
    (getAllClassIntakes st) /\
  Forall (fun m => exists c, getCourse (CourseModule.courseId m) st = Some c)
    (getAllModules st) /\
  Forall (fun t => exists u, getUnit (Task.unitId t) st = Some u)
    (JsMap.values (tasksMap st)).
Proof.
  cbv zeta. split.
  - destruct (seeded_seedInitialData hashed clock new_MemStorage 0%nat) as (seeds & H).
    exists (map (fun s => Seeded (fst s) (snd s)) seeds). exact H.
  - vm_compute. repeat split; repeat constructor; eexists; reflexivity.
Qed.

Example constructed_store_counts (hashed : string) (clock : Clock) :
  let st := constructed hashed clock in
  (List.length (getAllDepartments st), List.length (getAllStudyLevels st),
   List.length (getAllCourses st), List.length (getAllClassIntakes st),
   List.length (getAllModules st), List.length (getAllUnits st),
   List.length (JsMap.values (tasksMap st)))
  = (3, 4, 4, 4, 5, 4, 6)%nat.
Proof. vm_compute. reflexivity. Qed.

(** ** Assessing what is listed *)

Lemma post_assessments_outcome
    (clock : Clock) (me : User.t) (addr : option string) (body : json)
    (b : InsertAssessment.t) (st : MemStorage) :
  User.role me = "assessor" ->
  insertAssessmentSchema body = Some b ->
  succeeded (fst (serve clock (mkRequest (Some me) addr (POST_assessments body)) st))
  = match getSubmission (InsertAssessment.submissionId b) st with
    | Some submission => isAssigned me submission st
    | None => false
    end.
Proof.
  intros Hrole Hb.
  unfold serve, route, requireAuth, requireRole, validateSchema, isAuthenticated.
  cbn [user call negb orb existsb]. rewrite Hrole, Hb.
  cbn [String.eqb Ascii.eqb Bool.eqb negb orb].
  destruct (getSubmission (InsertAssessment.submissionId b) st) as [s|] eqn:Es.
  - destruct (isAssigned me s st) eqn:Ea.
    + pose proof (post_assessments_created clock
                    (mkRequest (Some me) addr (POST_assessments body))
                    me b s st eq_refl Es Ea) as H.
      destruct (post_assessments _ b clock (st, 0%nat)) as [r w].
      cbv zeta in H. destruct H as (-> & _). reflexivity.
    + unfold post_assessments, req_user, isAssigned in *. cbn [user].
      cbv [try_catch bind ret read fst snd]. rewrite Es, Ea. reflexivity.
  - unfold post_assessments. cbv [try_catch bind ret read fst snd]. rewrite Es. reflexivity.
Qed.

(** X27. An assessor's schema-valid [POST /api/assessments] succeeds
    exactly when the submission it names is one that [GET /api/submissions]
    lists to that assessor. *)
Theorem assessor_assesses_what_is_listed
    (clock : Clock) (me : User.t) (addr : option string) (body : json)
    (b : InsertAssessment.t) (st : MemStorage) :
  reachable st ->
  User.role me = "assessor" ->
  insertAssessmentSchema body = Some b ->
  succeeded (fst (serve clock (mkRequest (Some me) addr (POST_assessments body)) st)) = true
  <-> In (InsertAssessment.submissionId b)
        (map Submission.id (submissions_in (asks clock me Get.GET_submissions st))).
Proof.
  intros Hreach Hrole Hb.
  pose proof (reachable_tidy st Hreach) as Ht.
  assert (Hsub : tidy_table Submission.id (submissions st)) by apply Ht.
  rewrite (post_assessments_outcome clock me addr body b st Hrole Hb).
  unfold asks. unfold_get. rewrite !Hrole.
  cbn [negb orb andb existsb String.eqb Ascii.eqb Bool.eqb submissions_in].
  unfold getSubmissionsByAssessor, isAssigned. cbv zeta.
  rewrite in_map_iff. setoid_rewrite filter_In. setoid_rewrite existsb_map. cbn [fst snd].
  split.
  - destruct (getSubmission (InsertAssessment.submissionId b) st) as [s|] eqn:Es;
      [| discriminate].
    intros Ha. apply (tidy_lookup Submission.id _ _ s Hsub) in Es. destruct Es as (Hin & Hid).
    exists s. repeat split; assumption.
  - intros (s & Hid & Hin & Ha).
    assert (Es : getSubmission (InsertAssessment.submissionId b) st = Some s).
    { apply (tidy_lookup Submission.id _ _ s Hsub). split; assumption. }
    rewrite Es. exact Ha.
Qed.

Lemma assessor_assesses_what_is_listed_witness :
  succeeded
    (fst (serve Demo.clock
            (mkRequest (Some Demo.assessor) None
               (POST_assessments (Demo.assessment_form 1 "approved"))) Demo.store)) = true
  <-> In (InsertAssessment.submissionId (InsertAssessment.mk 1 0 None None "approved"))
        (map Submission.id
           (submissions_in (asks Demo.clock Demo.assessor Get.GET_submissions Demo.store))).
Proof.
  apply (assessor_assesses_what_is_listed Demo.clock Demo.assessor None
           (Demo.assessment_form 1 "approved")
           (InsertAssessment.mk 1 0 None None "approved") Demo.store).
  - exists Demo.history. reflexivity.
  - reflexivity.
  - reflexivity.
Defined.

(** ** A submission and its files, read back *)

Lemma pushed_files (submissionId : Z) (clock : Clock) (files : list MulterFile.t) :
  forall n id,
    let stored := JsMap.values (pushed (stored_file submissionId clock) 2 files n id) in
    Forall (fun f => SubmissionFile.submissionId f = submissionId) stored /\
    map (fun f => (SubmissionFile.fileName f, SubmissionFile.fileType f,
                   SubmissionFile.filePath f, SubmissionFile.fileSize f)) stored
    = map (fun f => (MulterFile.originalname f, MulterFile.mimetype f, MulterFile.path f,
                     MulterFile.size f)) files.
Proof.
  induction files as [|f files IH]; intros n id; cbn [pushed JsMap.values map snd].
  - split; [constructor | reflexivity].
  - destruct (IH (2 + n)%nat (id + 1)) as (H1 & H2). cbv zeta in H1, H2.
    unfold JsMap.values in H1, H2. split.
    + constructor; [reflexivity | exact H1].
    + cbn [stored_file SubmissionFile.fileName SubmissionFile.fileType
           SubmissionFile.filePath SubmissionFile.fileSize]. rewrite H2. reflexivity.
Qed.

Lemma filter_all {A : Type} (f : A -> bool) (l : list A) :
  Forall (fun x => f x = true) l -> filter f l = l.
Proof.
  induction l as [|x l IH]; intros H; [reflexivity |].
  inversion H; subst. simpl. rewrite H2, IH by assumption. reflexivity.
Qed.

(** X28. A trainee posts a schema-valid submission, whose files pass the
    intake, to a reachable store. The answer is 201 with the submission and
    one file record for each uploaded file, in the order of the upload, with
    its name, type, path and size; and [GET /api/submissions/:id] then
    shows the trainee that submission with exactly these files and without
    assessments. *)
Theorem submission_round_trip
    (clock clock' : Clock) (me : User.t) (addr : option string) (form : json)
    (parts files : list MulterFile.t) (parsed : InsertSubmission.t) (st : MemStorage) :
  reachable st ->
  User.role me = "trainee" ->
  upload parts = inr files ->
  insertSubmissionSchema (JObj (("traineeId", JNum (User.id me)) :: spread form))
    = Some parsed ->
  let (res, st') :=
    serve clock (mkRequest (Some me) addr (POST_submissions (Some form) parts)) st in
  let id := submissionIdCounter st in
  let submission := stored_submission me parsed id (clock 0%nat) in
  let stored :=
    JsMap.values (pushed (stored_file id clock) 2 files 1 (submissionFileIdCounter st)) in
  res = Json 201 (OfSubmission submission stored) /\
  asks clock' me (Get.GET_submissions_id id) st'
  = Get.Json (Get.OfSubmissionDetails submission stored []) /\
  map (fun f => (SubmissionFile.fileName f, SubmissionFile.fileType f,
                 SubmissionFile.filePath f, SubmissionFile.fileSize f)) stored
  = map (fun f => (MulterFile.originalname f, MulterFile.mimetype f, MulterFile.path f,
                   MulterFile.size f)) files.
Proof.
  intros Hreach Hrole Hup Hform.
  pose proof (reachable_wf st Hreach) as Hwf.
  destruct Hwf as (_ & _ & _ & _ & _ & _ & _ & _ & _ & Hsub & Hfiles & _).
  pose proof (reachable_filed st Hreach) as Hfiled. unfold filed in Hfiled.
  destruct (reachable_graded st Hreach) as [_ _ Hrefs].
  pose proof (post_submissions_created clock me addr form parts files parsed st
                Hrole Hup Hform) as H.
  destruct (serve_post_submissions clock (Some me) addr (Some form) parts st) as (Hass & _).
  destruct (serve clock (mkRequest (Some me) addr (POST_submissions (Some form) parts)) st)
    as [res st'].
  cbv zeta in *. cbn [snd] in Hass. destruct H as (Hres & Hs & Hf & _).
  destruct (pushed_files (submissionIdCounter st) clock files 1%nat
              (submissionFileIdCounter st)) as (Hall & Hfacts).
  cbv zeta in Hall, Hfacts.
  assert (Hbelow : forall k, In k (JsMap.keys (rows (submissions st))) ->
                             (k =? submissionIdCounter st) = false).
  { intros k Hk. apply Z.eqb_neq. unfold wf_table, JsMap.below in Hsub.
    rewrite Forall_forall in Hsub. specialize (Hsub k Hk). unfold submissionIdCounter. lia. }
  assert (Hstored : getSubmissionFiles (submissionIdCounter st) st'
                    = JsMap.values
                        (pushed (stored_file (submissionIdCounter st) clock) 2 files 1
                           (submissionFileIdCounter st))).
  { unfold getSubmissionFiles, submissionFilesMap. rewrite Hf.
    destruct (push_all_spec (stored_file (submissionIdCounter st) clock) 2 files 1%nat
                (submissionFiles st) Hfiles) as (-> & _).
    rewrite JsMapFacts.values_app, filter_app.
    rewrite filter_none, app_nil_l.
    - apply filter_all. eapply Forall_impl; [| exact Hall]. cbv beta.
      intros f ->. apply Z.eqb_refl.
    - intros f Hin. rewrite Forall_forall in Hfiled. apply Hbelow. exact (Hfiled f Hin). }
  split; [rewrite Hres, Hstored; reflexivity |]. split; [| exact Hfacts].
  unfold asks. unfold_get. cbn [negb].
  assert (Hget : getSubmission (submissionIdCounter st) st'
                 = Some (stored_submission me parsed (submissionIdCounter st) (clock 0%nat))).
  { unfold getSubmission, submissionsMap. rewrite Hs. unfold push. cbn [rows].
    apply JsMapFacts.get_set_same. }
  rewrite Hget. cbn [stored_submission Submission.traineeId]. rewrite Z.eqb_refl, Hrole.
  cbn [negb andb String.eqb Ascii.eqb Bool.eqb]. rewrite Hstored.
  assert (Hnone : getAssessmentsBySubmission (submissionIdCounter st) st' = []).
  { unfold getAssessmentsBySubmission, assessmentsMap. rewrite Hass.
    apply filter_none. intros a Hin. rewrite Forall_forall in Hrefs.
    apply Hbelow. exact (Hrefs a Hin). }
  rewrite Hnone. reflexivity.
Qed.

Lemma submission_round_trip_witness :
  let (res, st') :=
    serve Demo.clock
      (mkRequest (Some Demo.trainee) None
         (POST_submissions (Some (Demo.submission_form 7)) [Demo.evidence])) Demo.store in
  let id := submissionIdCounter Demo.store in
  let submission :=
    stored_submission Demo.trainee (InsertSubmission.mk 1 1 7 "ER model" None None) id
      (Demo.clock 0%nat) in
  let stored :=
    JsMap.values
      (pushed (stored_file id Demo.clock) 2 [Demo.evidence] 1
         (submissionFileIdCounter Demo.store)) in
  res = Json 201 (OfSubmission submission stored) /\
  asks Demo.clock Demo.trainee (Get.GET_submissions_id id) st'
  = Get.Json (Get.OfSubmissionDetails submission stored []) /\
  map (fun f => (SubmissionFile.fileName f, SubmissionFile.fileType f,
                 SubmissionFile.filePath f, SubmissionFile.fileSize f)) stored
  = map (fun f => (MulterFile.originalname f, MulterFile.mimetype f, MulterFile.path f,
                   MulterFile.size f)) [Demo.evidence].
Proof.
  apply (submission_round_trip Demo.clock Demo.clock Demo.trainee None (Demo.submission_form 7)
           [Demo.evidence] [Demo.evidence]
           (InsertSubmission.mk 1 1 7 "ER model" None None) Demo.store).
  - exists Demo.history. reflexivity.
  - reflexivity.
  - reflexivity.
  - reflexivity.
Defined.
